(** * DevTools front end: setting registry and timeline details view

    A shallow embedding of
    - [front_end/common/SettingRegistration.ts]: the module-level registry of
      setting descriptors ([registeredSettings], [settingNameSet]) and its
      three operations;
    - [front_end/timeline/TimelineDetailsView.js]: the controller of the
      tabbed details pane of the Performance panel.

    JavaScript code that mutates module or instance fields is written in a
    state monad whose state survives a [throw]: an exception aborts the rest
    of the call, but every write made before it stays visible, exactly as in
    the source. *)

From Stdlib Require Import ZArith QArith Qabs Ascii String.
From stdpp Require Import base strings list gmap sets pretty.
Close Scope Q_scope.
#[local] Set Warnings "-clear-no-such-hyp".

(** ** Calls with state and exceptions *)

Inductive Completion (E A : Type) : Type :=
| Normal (a : A)
| Throw (e : E).
Arguments Normal {E A} a.
Arguments Throw {E A} e.

Definition Eff (S E A : Type) : Type := S → S * Completion E A.

Definition eff_ret {S E A} (a : A) : Eff S E A := λ st, (st, Normal a).

Definition eff_bind {S E A B} (c : Eff S E A) (k : A → Eff S E B) : Eff S E B :=
  λ st, match c st with
        | (st', Normal a) => k a st'
        | (st', Throw e) => (st', Throw e)
        end.

Definition throw {S E A} (e : E) : Eff S E A := λ st, (st, Throw e).
Definition gets {S E A} (f : S → A) : Eff S E A := λ st, (st, Normal (f st)).
Definition modify {S E} (f : S → S) : Eff S E unit := λ st, (f st, Normal tt).

Notation "'do' x <- c1 ; c2" := (eff_bind c1 (λ x, c2))
  (at level 10, x name, c1 at level 100, c2 at level 200,
   format "'[v' 'do'  x  <-  c1 ; '/' c2 ']'").
Notation "c1 ;; c2" := (eff_bind c1 (λ _, c2))
  (at level 100, c2 at level 200, right associativity).

(** [for (const x of xs) body(x)]: the loop stops at the first [throw]. *)
Fixpoint for_of {S E A} (xs : list A) (body : A → Eff S E unit) : Eff S E unit :=
  match xs with
  | [] => eff_ret tt
  | x :: rest => body x ;; for_of rest body
  end.

(** ** front_end/common/SettingRegistration.ts *)

Module SettingRegistration.

Inductive SettingCategory :=
| NONE | ELEMENTS | APPEARANCE | SOURCES | NETWORK | PERFORMANCE | CONSOLE
| PERSISTENCE | DEBUGGER | GLOBAL | RENDERING | GRID | MOBILE | EMULATION
| MEMORY.

(** [SettingTypeObject]: the values are plain strings. *)
Definition ARRAY : string := "array".
Definition REGEX : string := "regex".
Definition ENUM : string := "enum".
Definition BOOLEAN : string := "boolean".

(** [SettingStorageType] is imported from [Settings.js]; the interface
    comment names its three cases. *)
Inductive SettingStorageType := StorageGlobal | StorageLocal | StorageSession.

(** [defaultValue: unknown] *)
Inductive Unknown :=
| UUndefined
| UBoolean (b : bool)
| UString (s : string)
| UNumber (q : Q).

(** [SettingExtensionOption]: [raw] tells the two variants apart. *)
Record SettingExtensionOption := {
  value : bool + string;
  optionTitle : string;
  text : option string;
  raw : bool;
}.

(** [interface SettingRegistration]; optional fields are [option]s, and a
    thunk returning a localized string is the string it returns. *)
Record SettingRegistration := {
  category : option SettingCategory;
  order : option Q;
  title : option string;
  titleMac : option string;
  settingName : string;
  settingType : string;
  defaultValue : Unknown;
  tags : option (list string);
  options : option (list SettingExtensionOption);
  reloadRequired : option bool;
  storageType : option SettingStorageType;
  userActionCondition : option string;
  experiment : option string;
  condition : option string;
}.

(** The two module-level variables. *)
Record Registry := {
  registeredSettings : list SettingRegistration;
  settingNameSet : gset string;
}.

(** [let registeredSettings = []; const settingNameSet = new Set()] *)
Definition initial : Registry :=
  {| registeredSettings := []; settingNameSet := ∅ |}.

Inductive Error := JsError (message : string).

(** [new Error(`Duplicate setting name '${settingName}'`)] *)
Definition duplicateSettingName (name : string) : Error :=
  JsError ("Duplicate setting name '" +:+ name +:+ "'").

Definition setNameSet (s : gset string) (st : Registry) : Registry :=
  {| registeredSettings := registeredSettings st; settingNameSet := s |}.

Definition setRegisteredSettings (l : list SettingRegistration) (st : Registry)
  : Registry :=
  {| registeredSettings := l; settingNameSet := settingNameSet st |}.

(** [settingNameSet.has(name)] *)
Definition nameSet_has (name : string) : Eff Registry Error bool :=
  gets (λ st, bool_decide (name ∈ settingNameSet st)).

(** [settingNameSet.add(name)] *)
Definition nameSet_add (name : string) : Eff Registry Error unit :=
  modify (λ st, setNameSet ({[name]} ∪ settingNameSet st) st).

(** [settingNameSet.clear()] *)
Definition nameSet_clear : Eff Registry Error unit :=
  modify (setNameSet ∅).

(** [registeredSettings.push(registration)] *)
Definition registeredSettings_push (registration : SettingRegistration)
  : Eff Registry Error unit :=
  modify (λ st, setRegisteredSettings (registeredSettings st ++ [registration]) st).

Definition registerSettingExtension (registration : SettingRegistration)
  : Eff Registry Error unit :=
  let name := settingName registration in
  do has <- nameSet_has name;
  if has : bool then throw (duplicateSettingName name)
  else
    nameSet_add name ;;
    registeredSettings_push registration.

(** [Root.Runtime.Runtime.isDescriptorEnabled] lives outside this file; it
    is the argument [isDescriptorEnabled], applied to the descriptor's
    [experiment] and [condition]. [Array.prototype.filter] returns a new
    array and leaves the registry alone. *)
Definition getRegisteredSettings
    (isDescriptorEnabled : option string → option string → bool)
  : Eff Registry Error (list SettingRegistration) :=
  gets (λ st, List.filter
                (λ setting, isDescriptorEnabled (experiment setting) (condition setting))
                (registeredSettings st)).

(** [forceReset] has the default value [false]; a call without it is
    [registerSettingExtengionsForTest settings false]. The assignment
    [registeredSettings = settings] and the [clear()] come before the loop,
    so they are not undone when the loop throws. The assignment makes the
    module share the caller's array; the functions of this module are the
    only writers followed here, so the array is the list of its elements
    at the time of the call. *)
Definition registerSettingExtengionsForTest
    (settings : list SettingRegistration) (forceReset : bool)
  : Eff Registry Error unit :=
  do len <- gets (λ st, length (registeredSettings st));
  if (len =? 0)%nat || forceReset then
    modify (setRegisteredSettings settings) ;;
    nameSet_clear ;;
    for_of settings (λ setting,
      let name := settingName setting in
      do has <- nameSet_has name;
      if has : bool then throw (duplicateSettingName name)
      else nameSet_add name)
  else eff_ret tt.

(** A client of the module: one call per element. *)
Inductive Call :=
| CallRegister (registration : SettingRegistration)
| CallGetRegistered (isDescriptorEnabled : option string → option string → bool)
| CallForTest (settings : list SettingRegistration) (forceReset : bool).

Definition call (c : Call) : Eff Registry Error unit :=
  match c with
  | CallRegister r => registerSettingExtension r
  | CallGetRegistered p => getRegisteredSettings p ;; eff_ret tt
  | CallForTest l f => registerSettingExtengionsForTest l f
  end.

(** The calls in order, up to the first one that throws. *)
Definition calls (cs : list Call) : Eff Registry Error unit := for_of cs call.

Definition names (l : list SettingRegistration) : list string :=
  settingName <$> l.

(** A descriptor with only the required fields set. *)
Definition descriptor (name : string) : SettingRegistration :=
  {| category := None; order := None; title := None; titleMac := None;
     settingName := name; settingType := BOOLEAN; defaultValue := UBoolean false;
     tags := None; options := None; reloadRequired := None; storageType := None;
     userActionCondition := None; experiment := None; condition := None |}.

Definition gated (name : string) (exp : string) : SettingRegistration :=
  {| category := None; order := None; title := None; titleMac := None;
     settingName := name; settingType := BOOLEAN; defaultValue := UBoolean false;
     tags := None; options := None; reloadRequired := None; storageType := None;
     userActionCondition := None; experiment := Some exp; condition := None |}.

(** The loop of [registerSettingExtengionsForTest], on its own. *)
Definition rebuild (settings : list SettingRegistration) : Eff Registry Error unit :=
  for_of settings (λ setting,
    let name := settingName setting in
    do has <- nameSet_has name;
    if has : bool then throw (duplicateSettingName name)
    else nameSet_add name).

(** The list holds no name twice and the set holds the names of the list. *)
Definition consistent (st : Registry) : Prop :=
  NoDup (names (registeredSettings st))
  ∧ ∀ n, n ∈ settingNameSet st ↔ n ∈ names (registeredSettings st).

(** The string each member of [const enum SettingCategory] stands for. *)
Definition categoryValue (c : SettingCategory) : string :=
  match c with
  | NONE => ""
  | ELEMENTS => "ELEMENTS"
  | APPEARANCE => "APPEARANCE"
  | SOURCES => "SOURCES"
  | NETWORK => "NETWORK"
  | PERFORMANCE => "PERFORMANCE"
  | CONSOLE => "CONSOLE"
  | PERSISTENCE => "PERSISTENCE"
  | DEBUGGER => "DEBUGGER"
  | GLOBAL => "GLOBAL"
  | RENDERING => "RENDERING"
  | GRID => "GRID"
  | MOBILE => "MOBILE"
  | EMULATION => "EMULATION"
  | MEMORY => "MEMORY"
  end.

(** [getLocalizedSettingsCategory(category)]. The template tag [ls] is
    imported from [platform.js]; it is the argument [ls], applied to the
    text between the backquotes. *)
Definition getLocalizedSettingsCategory (ls : string → string)
    (category : SettingCategory) : string :=
  match category with
  | ELEMENTS => ls "Elements"
  | APPEARANCE => ls "Appearance"
  | SOURCES => ls "Sources"
  | NETWORK => ls "Network"
  | PERFORMANCE => ls "Performance"
  | CONSOLE => ls "Console"
  | PERSISTENCE => ls "Persistence"
  | DEBUGGER => ls "Debugger"
  | GLOBAL => ls "Global"
  | RENDERING => ls "Rendering"
  | GRID => ls "Grid"
  | MOBILE => ls "Mobile"
  | EMULATION => ls "Emulation"
  | MEMORY => ls "Memory"
  | NONE => ""
  end.

(** *** Sample registries and calls *)

Definition registryA : Registry :=
  {| registeredSettings := [descriptor "a"]; settingNameSet := {["a"]} |}.

Definition registryB : Registry :=
  {| registeredSettings := [descriptor "b"]; settingNameSet := {["b"]} |}.

Definition onlyExperiment (exp : string) : option string → option string → bool :=
  λ e _, bool_decide (e = Some exp).

Definition sampleCalls : list Call :=
  [ CallRegister (descriptor "a");
    CallForTest [descriptor "x"] false;
    CallRegister (gated "b" "e1");
    CallGetRegistered (λ _ _, true);
    CallForTest [descriptor "c"; descriptor "d"] true;
    CallRegister (descriptor "a") ].

End SettingRegistration.

(** ** front_end/timeline/TimelineDetailsView.js *)

Module TimelineDetailsView.

(** [export const Tab] *)
Inductive Tab := Details | EventLog | CallTree | BottomUp | PaintProfiler | LayerViewer.

#[global] Instance Tab_eq_dec : EqDecision Tab.
Proof. solve_decision. Defined.

(** [const UIStrings] *)
Module UIStrings.
Definition summary : string := "Summary".
Definition bottomup : string := "Bottom-Up".
Definition callTree : string := "Call Tree".
Definition eventLog : string := "Event Log".
Definition estimated : string := "estimated".
Definition totalBlockingTimeSmss : string := "Total blocking time: {PH1}ms{PH2}".
Definition learnMore : string := "Learn more".
Definition layers : string := "Layers".
Definition paintProfiler : string := "Paint Profiler".
Definition rangeSS : string := "Range:  {PH1} – {PH2}".
End UIStrings.

(** Modelled from the spec: the string table behind [i18nString] is outside
    this file (localization lookup is an external collaborator). The footer
    the specification shows is the source string itself with each [{NAME}]
    replaced by the value given for [NAME], which is what this function
    does, in one pass from left to right. [name] is [Some n] while the scan
    is inside a placeholder whose name read so far is [n]. *)
Fixpoint substitute (values : list (string * string)) (name : option string)
    (message : string) : string :=
  match message with
  | EmptyString => EmptyString
  | String c rest =>
      match name with
      | None =>
          if Ascii.eqb c "{"%char then substitute values (Some EmptyString) rest
          else String c (substitute values None rest)
      | Some n =>
          if Ascii.eqb c "}"%char then
            default EmptyString (snd <$> List.find (λ kv, String.eqb (fst kv) n) values)
              +:+ substitute values None rest
          else substitute values (Some (n +:+ String c EmptyString)) rest
      end
  end.

Definition i18nString (message : string) (values : list (string * string)) : string :=
  substitute values None message.

(** *** The objects the view talks to

    Objects that the source only passes along are records with a number
    that stands for their identity. *)

Record Event := { name : string; eventId : nat }.
Record LayerTree := { layerTreeId : nat }.
Record TimelineFrame := { frameId : nat; layerTree : option LayerTree }.
Record FilmStripFrame := { filmStripFrameId : nat }.
Record NetworkRequest := { requestId : nat }.
Record Track := { syncEvents : list Event }.
Record PaintProfilerModel := { paintProfilerModelId : nat }.
Record PaintProfilerSnapshot := { snapshotId : nat }.
Record TimelineFrameModel := { frameModelId : nat }.

(** [model.timelineModel()]: the two members read here.
    [totalBlockingTime()] returns [{estimated, time}]. *)
Record TimelineModelImpl := {
  minimumRecordTime : Q;
  totalBlockingTime : bool * Q;
}.

(** [model.window()] returns [{left, right}]. *)
Record Window := { left : Q; right : Q }.

(** [PerformanceModel]: compared by reference in [setModel], hence
    [modelId]. [timelineModel()] always returns an object. *)
Record PerformanceModel := {
  modelId : nat;
  window : Window;
  timelineModel : TimelineModelImpl;
  frameModel : TimelineFrameModel;
  filmStripModelFrame : TimelineFrame → option FilmStripFrame;
}.

(** Modelled from the spec: [TimelineSelection] is declared in
    [TimelinePanel.js]; the specification gives it as a tagged union over
    TraceEvent, Frame, NetworkRequest and Range, the last one carrying a
    start and an end time. [RangeSelection l r] is
    [TimelineSelection.fromRange(l, r)]. *)
Inductive TimelineSelection :=
| TraceEventSelection (event : Event)
| FrameSelection (frame : TimelineFrame)
| NetworkRequestSelection (request : NetworkRequest)
| RangeSelection (startTime endTime : Q).

(** Widgets shown in tabs. The two lazy views remember the argument of
    their constructor and the order in which they were built. *)
Inductive Widget :=
| DefaultDetailsWidget
| TreeView (id : Tab)
| LayersView (serial : nat) (m : TimelineModelImpl)
| PaintProfilerView (serial : nat) (m : TimelineFrameModel).

(** [TimelineUIUtils.statsForTimeRange(events, startTime, endTime)], kept
    as the call it is. *)
Inductive AggregatedStats :=
| StatsForTimeRange (events : list Event) (startTime endTime : Q).

(** Nodes handed to [_setContent]: what the external builders return. *)
Inductive Node :=
| EmptyDiv
| TraceEventDetails (event : Event) (m : TimelineModelImpl)
| FrameDetails (frame : TimelineFrame) (filmStripFrame : option FilmStripFrame)
| NetworkRequestDetails (request : NetworkRequest) (m : TimelineModelImpl)
| RangeDetails (sectionTitle : string) (pieChart : AggregatedStats).

(** Items of [_additionalMetricsToolbar]. *)
Inductive ToolbarItem :=
| ToolbarText (text : string)
| ToolbarLink (url : string) (linkText : string).

(** Calls on collaborators, in the order they are made. *)
Inductive ExternalCall :=
| LinkifierReset
| RemoveWindowChangedListener (model : nat)
| AddWindowChangedListener (model : nat)
| TreeViewSetModel (view : Widget) (model : option PerformanceModel) (track : option Track)
| TreeViewUpdateContents (view : Widget) (selection : TimelineSelection)
| ShowLayerTree (view : Widget) (tree : LayerTree)
| PaintProfilerSetEvent (view : Widget) (model : PaintProfilerModel) (event : Event)
| PaintProfilerSetSnapshot (view : Widget) (snapshot : PaintProfilerSnapshot).

(** Promise reactions registered with [.then]. *)
Inductive Reaction :=
| ThenAppendDetailsTabs (event : Event) (fragment : Node)
| ThenSetContent (fragment : Node).

(** What the file takes from code outside it. *)
Record Toolkit := {
  (** [TimelineModel.TimelineModel.RecordType.Paint] and [.RasterTask] *)
  RecordType_Paint : string;
  RecordType_RasterTask : string;
  (** the tab a tab strip shows once its selected tab was closed, from the
      ids left and the id closed *)
  tabAfterClose : list Tab → Tab → option Tab;
  (** result of [TimelinePaintProfilerView.setEvent] *)
  setEvent : Widget → PaintProfilerModel → Event → bool;
  (** [Number.millisToString] *)
  millisToString : Q → string;
  (** [Number::toString], which [toFixed] falls back to from [10^21] on *)
  numberToString : Q → string;
}.

(** *** UI.TabbedPane *)

Record TabbedPaneTab := {
  tabId : Tab;
  tabTitle : string;
  view : Widget;
  closeable : option bool;
}.

(** Modelled from the spec: [UI.TabbedPane.TabbedPane] is outside this
    file. The specification speaks of the set of currently open tabs and of
    the tab currently selected; the strip is the list of open tabs in the
    order they were appended plus the id of the selected one, if any. *)
Record TabbedPane := {
  tabs : list TabbedPaneTab;
  selectedTabId : option Tab;
}.

Definition tabIds (pane : TabbedPane) : list Tab := tabId <$> tabs pane.

Definition hasTab (id : Tab) (pane : TabbedPane) : bool :=
  bool_decide (id ∈ tabIds pane).

Definition otherTabs (id : Tab) (pane : TabbedPane) : list Tab :=
  List.filter (λ t, negb (bool_decide (t = id))) (tabIds pane).

Definition appendTab (id : Tab) (tabTitle : string) (view : Widget)
    (isCloseable : option bool) (pane : TabbedPane) : TabbedPane :=
  {| tabs := tabs pane ++ [{| tabId := id; tabTitle := tabTitle; view := view;
                              closeable := isCloseable |}];
     selectedTabId := selectedTabId pane |}.

Definition removeTab (id : Tab) (pane : TabbedPane) : TabbedPane :=
  {| tabs := List.filter (λ t, negb (bool_decide (tabId t = id))) (tabs pane);
     selectedTabId := selectedTabId pane |}.

Definition showTab (id : option Tab) (pane : TabbedPane) : TabbedPane :=
  {| tabs := tabs pane; selectedTabId := id |}.

(** The three views put into [_rangeDetailViews] by the constructor; the
    map is never written afterwards. The argument is
    [this._tabbedPane.selectedTabId || ''], and [''] is no key. *)
Definition rangeDetailViews_get (id : option Tab) : option Widget :=
  match id with
  | Some BottomUp => Some (TreeView BottomUp)
  | Some CallTree => Some (TreeView CallTree)
  | Some EventLog => Some (TreeView EventLog)
  | _ => None
  end.

Definition rangeDetailViews_has (id : Tab) : bool :=
  bool_decide (is_Some (rangeDetailViews_get (Some id))).

(** [this._rangeDetailViews.values()], in insertion order. *)
Definition rangeDetailViews_values : list Widget :=
  [TreeView BottomUp; TreeView CallTree; TreeView EventLog].

(** *** The view *)

Inductive Error := TypeError (message : string).

(** The fields of a constructed [TimelineDetailsView], followed by what
    the methods reach outside the instance. [_preferredTabId] is a tab id:
    the constructor sets it before it returns. *)
Record View := {
  tabbedPane : TabbedPane;
  preferredTabId : Tab;
  model : option PerformanceModel;
  track : option Track;
  selection : option TimelineSelection;
  lazyPaintProfilerView : option Widget;
  lazyLayersView : option Widget;
  (** children of [_defaultDetailsContentElement] *)
  defaultDetailsContent : list Node;
  additionalMetricsToolbar : list ToolbarItem;
  (** [SDK.SDKModel.TargetManager.instance().models(PaintProfilerModel)] *)
  paintProfilerModels : list PaintProfilerModel;
  (** how many lazy views were constructed so far *)
  constructed : nat;
  (** reactions of promises that have not settled yet *)
  pending : list Reaction;
  journal : list ExternalCall;
}.

Definition with_tabbedPane (f : TabbedPane → TabbedPane) (v : View) : View :=
  {| tabbedPane := f (tabbedPane v); preferredTabId := preferredTabId v;
     model := model v; track := track v; selection := selection v;
     lazyPaintProfilerView := lazyPaintProfilerView v;
     lazyLayersView := lazyLayersView v;
     defaultDetailsContent := defaultDetailsContent v;
     additionalMetricsToolbar := additionalMetricsToolbar v;
     paintProfilerModels := paintProfilerModels v; constructed := constructed v;
     pending := pending v; journal := journal v |}.

Definition with_preferredTabId (x : Tab) (v : View) : View :=
  {| tabbedPane := tabbedPane v; preferredTabId := x;
     model := model v; track := track v; selection := selection v;
     lazyPaintProfilerView := lazyPaintProfilerView v;
     lazyLayersView := lazyLayersView v;
     defaultDetailsContent := defaultDetailsContent v;
     additionalMetricsToolbar := additionalMetricsToolbar v;
     paintProfilerModels := paintProfilerModels v; constructed := constructed v;
     pending := pending v; journal := journal v |}.

Definition with_model (x : option PerformanceModel) (v : View) : View :=
  {| tabbedPane := tabbedPane v; preferredTabId := preferredTabId v;
     model := x; track := track v; selection := selection v;
     lazyPaintProfilerView := lazyPaintProfilerView v;
     lazyLayersView := lazyLayersView v;
     defaultDetailsContent := defaultDetailsContent v;
     additionalMetricsToolbar := additionalMetricsToolbar v;
     paintProfilerModels := paintProfilerModels v; constructed := constructed v;
     pending := pending v; journal := journal v |}.

Definition with_track (x : option Track) (v : View) : View :=
  {| tabbedPane := tabbedPane v; preferredTabId := preferredTabId v;
     model := model v; track := x; selection := selection v;
     lazyPaintProfilerView := lazyPaintProfilerView v;
     lazyLayersView := lazyLayersView v;
     defaultDetailsContent := defaultDetailsContent v;
     additionalMetricsToolbar := additionalMetricsToolbar v;
     paintProfilerModels := paintProfilerModels v; constructed := constructed v;
     pending := pending v; journal := journal v |}.

Definition with_selection (x : option TimelineSelection) (v : View) : View :=
  {| tabbedPane := tabbedPane v; preferredTabId := preferredTabId v;
     model := model v; track := track v; selection := x;
     lazyPaintProfilerView := lazyPaintProfilerView v;
     lazyLayersView := lazyLayersView v;
     defaultDetailsContent := defaultDetailsContent v;
     additionalMetricsToolbar := additionalMetricsToolbar v;
     paintProfilerModels := paintProfilerModels v; constructed := constructed v;
     pending := pending v; journal := journal v |}.

(** Stores a lazy view; [fresh] says that it was just constructed. *)
Definition with_lazyPaintProfilerView (x : option Widget) (fresh : bool) (v : View)
  : View :=
  {| tabbedPane := tabbedPane v; preferredTabId := preferredTabId v;
     model := model v; track := track v; selection := selection v;
     lazyPaintProfilerView := x;
     lazyLayersView := lazyLayersView v;
     defaultDetailsContent := defaultDetailsContent v;
     additionalMetricsToolbar := additionalMetricsToolbar v;
     paintProfilerModels := paintProfilerModels v;
     constructed := if fresh then S (constructed v) else constructed v;
     pending := pending v; journal := journal v |}.

Definition with_lazyLayersView (x : option Widget) (fresh : bool) (v : View) : View :=
  {| tabbedPane := tabbedPane v; preferredTabId := preferredTabId v;
     model := model v; track := track v; selection := selection v;
     lazyPaintProfilerView := lazyPaintProfilerView v;
     lazyLayersView := x;
     defaultDetailsContent := defaultDetailsContent v;
     additionalMetricsToolbar := additionalMetricsToolbar v;
     paintProfilerModels := paintProfilerModels v;
     constructed := if fresh then S (constructed v) else constructed v;
     pending := pending v; journal := journal v |}.

Definition with_defaultDetailsContent (x : list Node) (v : View) : View :=
  {| tabbedPane := tabbedPane v; preferredTabId := preferredTabId v;
     model := model v; track := track v; selection := selection v;
     lazyPaintProfilerView := lazyPaintProfilerView v;
     lazyLayersView := lazyLayersView v;
     defaultDetailsContent := x;
     additionalMetricsToolbar := additionalMetricsToolbar v;
     paintProfilerModels := paintProfilerModels v; constructed := constructed v;
     pending := pending v; journal := journal v |}.

Definition with_additionalMetricsToolbar (f : list ToolbarItem → list ToolbarItem)
    (v : View) : View :=
  {| tabbedPane := tabbedPane v; preferredTabId := preferredTabId v;
     model := model v; track := track v; selection := selection v;
     lazyPaintProfilerView := lazyPaintProfilerView v;
     lazyLayersView := lazyLayersView v;
     defaultDetailsContent := defaultDetailsContent v;
     additionalMetricsToolbar := f (additionalMetricsToolbar v);
     paintProfilerModels := paintProfilerModels v; constructed := constructed v;
     pending := pending v; journal := journal v |}.

Definition with_pending (f : list Reaction → list Reaction) (v : View) : View :=
  {| tabbedPane := tabbedPane v; preferredTabId := preferredTabId v;
     model := model v; track := track v; selection := selection v;
     lazyPaintProfilerView := lazyPaintProfilerView v;
     lazyLayersView := lazyLayersView v;
     defaultDetailsContent := defaultDetailsContent v;
     additionalMetricsToolbar := additionalMetricsToolbar v;
     paintProfilerModels := paintProfilerModels v; constructed := constructed v;
     pending := f (pending v); journal := journal v |}.

Definition with_journal (f : list ExternalCall → list ExternalCall) (v : View) : View :=
  {| tabbedPane := tabbedPane v; preferredTabId := preferredTabId v;
     model := model v; track := track v; selection := selection v;
     lazyPaintProfilerView := lazyPaintProfilerView v;
     lazyLayersView := lazyLayersView v;
     defaultDetailsContent := defaultDetailsContent v;
     additionalMetricsToolbar := additionalMetricsToolbar v;
     paintProfilerModels := paintProfilerModels v; constructed := constructed v;
     pending := pending v; journal := f (journal v) |}.

Abbreviation M := (Eff View Error).

(** A call on a collaborator. *)
Definition extern (c : ExternalCall) : M unit :=
  modify (with_journal (λ j, j ++ [c])).

(** [this._model.member]: a [TypeError] when [this._model] is [null]. *)
Definition this_model : M PerformanceModel :=
  λ v, match model v with
       | Some m => (v, Normal m)
       | None => (v, Throw (TypeError "Cannot read property of null"))
       end.

(** *** Number.prototype.toFixed *)

Definition digitChar (d : Z) : ascii := ascii_of_nat (48 + Z.to_nat d).

(** The last [f] decimal digits of [n], most significant first. *)
Fixpoint fractionDigits (f : nat) (n : Z) : string :=
  match f with
  | O => EmptyString
  | S f' => String (digitChar ((n / 10 ^ Z.of_nat f') mod 10)) (fractionDigits f' n)
  end.

(** For [x >= 0]: the integer [n] for which [n / 10^f - x] is as close to
    zero as possible, the larger one when there are two. *)
Definition nearest (f : nat) (x : Q) : Z :=
  (2 * Qnum x * 10 ^ Z.of_nat f + Zpos (Qden x)) / (2 * Zpos (Qden x)).

Section Methods.

Variable tk : Toolkit.

(** [x.toFixed(f)] for a finite [x], after ECMA-262: sign, then either
    [Number::toString] (from [10^21] on) or the digits of the nearest
    multiple of [10^-f], with a point before the last [f] of them. *)
Definition toFixed (f : nat) (x : Q) : string :=
  let s := if (Qnum x <? 0)%Z then "-" else "" in
  let x := Qabs x in
  if Qle_bool (inject_Z (10 ^ 21)) x then s +:+ numberToString tk x
  else
    let n := nearest f x in
    s +:+ pretty (n / 10 ^ Z.of_nat f)%Z
      +:+ (match f with O => "" | _ => "." +:+ fractionDigits f n end).

(** [setPreferredTab(tabId)] *)
Definition setPreferredTab (tabId : Tab) : M unit :=
  modify (with_preferredTabId tabId).

(** [_updateContents()] *)
Definition _updateContents : M unit :=
  do selected <- gets (λ v, selectedTabId (tabbedPane v));
  match rangeDetailViews_get selected with
  | Some view =>
      do m <- this_model;
      let window := window m in
      do sel <- gets selection;
      extern (TreeViewUpdateContents view
                (default (RangeSelection (left window) (right window)) sel))
  | None => eff_ret tt
  end.

(** [_tabSelected(event)], the listener for [TabSelected]; the two
    arguments are [event.data.tabId] and [event.data.isUserGesture]. *)
Definition _tabSelected (tabId : Tab) (isUserGesture : bool) : M unit :=
  if negb isUserGesture then eff_ret tt
  else
    setPreferredTab tabId ;;
    _updateContents.

(** [this._tabbedPane.selectTab(id, userGesture)]: shows a tab that is
    open and not yet selected, and tells the listener. *)
Definition tabbedPane_selectTab (id : Tab) (userGesture : bool) : M unit :=
  do pane <- gets tabbedPane;
  if hasTab id pane && negb (bool_decide (selectedTabId pane = Some id)) then
    modify (with_tabbedPane (showTab (Some id))) ;;
    _tabSelected id userGesture
  else eff_ret tt.

(** [this._tabbedPane.closeTab(id)]: when the selected tab goes, the
    strip shows [tabAfterClose] and tells the listener, not as a user
    gesture. *)
Definition tabbedPane_closeTab (id : Tab) : M unit :=
  do pane <- gets tabbedPane;
  modify (with_tabbedPane (removeTab id)) ;;
  if hasTab id pane && bool_decide (selectedTabId pane = Some id) then
    let next := tabAfterClose tk (tabIds (removeTab id pane)) id in
    modify (with_tabbedPane (showTab next)) ;;
    match next with
    | Some t => _tabSelected t false
    | None => eff_ret tt
    end
  else eff_ret tt.

(** [this._tabbedPane.closeTabs(ids, false)] *)
Definition tabbedPane_closeTabs (ids : list Tab) : M unit :=
  for_of ids tabbedPane_closeTab.

(** [_setContent(node)] *)
Definition _setContent (node : Node) : M unit :=
  do allTabs <- gets (λ v, otherTabs Details (tabbedPane v));
  for_of allTabs (λ id,
    if negb (rangeDetailViews_has id) then tabbedPane_closeTab id
    else eff_ret tt) ;;
  modify (with_defaultDetailsContent [node]).

(** [_appendTab(id, tabTitle, view, isCloseable)]. [selectedTabId] is
    [None] when no tab is shown, which differs from every tab id. *)
Definition _appendTab (id : Tab) (tabTitle : string) (view : Widget)
    (isCloseable : option bool) : M unit :=
  modify (with_tabbedPane (appendTab id tabTitle view isCloseable)) ;;
  do preferred <- gets preferredTabId;
  do selected <- gets (λ v, selectedTabId (tabbedPane v));
  if negb (bool_decide (Some preferred = selected)) then
    tabbedPane_selectTab id false
  else eff_ret tt.

(** [_updateSelectedRangeStats(startTime, endTime)] *)
Definition _updateSelectedRangeStats (startTime endTime : Q) : M unit :=
  do m <- gets model;
  do t <- gets track;
  match m, t with
  | Some m, Some t =>
      let aggregatedStats := StatsForTimeRange (syncEvents t) startTime endTime in
      let startOffset := Qminus startTime (minimumRecordTime (timelineModel m)) in
      let endOffset := Qminus endTime (minimumRecordTime (timelineModel m)) in
      _setContent
        (RangeDetails
           (i18nString UIStrings.rangeSS
              [("PH1", millisToString tk startOffset);
               ("PH2", millisToString tk endOffset)])
           aggregatedStats)
  | _, _ => eff_ret tt
  end.

(** [_updateContentsFromWindow()] *)
Definition _updateContentsFromWindow : M unit :=
  do m <- gets model;
  match m with
  | None => _setContent EmptyDiv
  | Some m =>
      let window := window m in
      _updateSelectedRangeStats (left window) (right window) ;;
      _updateContents
  end.

(** [_onWindowChanged(event)] *)
Definition _onWindowChanged : M unit :=
  do sel <- gets selection;
  match sel with
  | None => _updateContentsFromWindow
  | Some _ => eff_ret tt
  end.

(** [_layersView()] *)
Definition _layersView : M Widget :=
  do lazy <- gets lazyLayersView;
  match lazy with
  | Some v => eff_ret v
  | None =>
      do m <- this_model;
      do serial <- gets constructed;
      let v := LayersView serial (timelineModel m) in
      modify (with_lazyLayersView (Some v) true) ;;
      eff_ret v
  end.

(** [_paintProfilerView()] *)
Definition _paintProfilerView : M Widget :=
  do lazy <- gets lazyPaintProfilerView;
  match lazy with
  | Some v => eff_ret v
  | None =>
      do m <- this_model;
      do serial <- gets constructed;
      let v := PaintProfilerView serial (frameModel m) in
      modify (with_lazyPaintProfilerView (Some v) true) ;;
      eff_ret v
  end.

(** [_showSnapshotInPaintProfiler(snapshot)] *)
Definition _showSnapshotInPaintProfiler (snapshot : PaintProfilerSnapshot) : M unit :=
  do paintProfilerView <- _paintProfilerView;
  extern (PaintProfilerSetSnapshot paintProfilerView snapshot) ;;
  do has <- gets (λ v, hasTab PaintProfiler (tabbedPane v));
  (if negb has then
     _appendTab PaintProfiler UIStrings.paintProfiler paintProfilerView (Some true)
   else eff_ret tt) ;;
  tabbedPane_selectTab PaintProfiler true.

(** [_showEventInPaintProfiler(event)] *)
Definition _showEventInPaintProfiler (event : Event) : M unit :=
  do models <- gets paintProfilerModels;
  match head models with
  | None => eff_ret tt
  | Some paintProfilerModel =>
      do paintProfilerView <- _paintProfilerView;
      extern (PaintProfilerSetEvent paintProfilerView paintProfilerModel event) ;;
      let hasProfileData := setEvent tk paintProfilerView paintProfilerModel event in
      if negb hasProfileData then eff_ret tt
      else
        do has <- gets (λ v, hasTab PaintProfiler (tabbedPane v));
        if has : bool then eff_ret tt
        else _appendTab PaintProfiler UIStrings.paintProfiler paintProfilerView None
  end.

(** [_appendDetailsTabsForTraceEventAndShowDetails(event, content)] *)
Definition _appendDetailsTabsForTraceEventAndShowDetails (event : Event)
    (content : Node) : M unit :=
  _setContent content ;;
  if String.eqb (name event) (RecordType_Paint tk)
     || String.eqb (name event) (RecordType_RasterTask tk)
  then _showEventInPaintProfiler event
  else eff_ret tt.

(** [setSelection(selection)]. The two asynchronous builders are given
    their arguments here (so [this._model] is read now); the reaction
    passed to [.then] is queued together with the fragment the promise
    resolves to, and runs later, in [settle]. *)
Definition setSelection (sel : option TimelineSelection) : M unit :=
  extern LinkifierReset ;;
  modify (with_selection sel) ;;
  match sel with
  | None => _updateContentsFromWindow
  | Some s =>
      match s with
      | TraceEventSelection event =>
          do m <- this_model;
          modify (with_pending (λ p, p ++
            [ThenAppendDetailsTabs event (TraceEventDetails event (timelineModel m))]))
      | FrameSelection frame =>
          do m <- this_model;
          let filmStripFrame := filmStripModelFrame m frame in
          _setContent (FrameDetails frame filmStripFrame) ;;
          match layerTree frame with
          | Some tree =>
              do layersView <- _layersView;
              extern (ShowLayerTree layersView tree) ;;
              do has <- gets (λ v, hasTab LayerViewer (tabbedPane v));
              if negb has then
                _appendTab LayerViewer UIStrings.layers layersView None
              else eff_ret tt
          | None => eff_ret tt
          end
      | NetworkRequestSelection request =>
          do m <- this_model;
          modify (with_pending (λ p, p ++
            [ThenSetContent (NetworkRequestDetails request (timelineModel m))]))
      | RangeSelection startTime endTime =>
          _updateSelectedRangeStats startTime endTime
      end ;;
      _updateContents
  end.

(** The body of a reaction. *)
Definition react (r : Reaction) : M unit :=
  match r with
  | ThenAppendDetailsTabs event fragment =>
      _appendDetailsTabsForTraceEventAndShowDetails event fragment
  | ThenSetContent fragment => _setContent fragment
  end.

(** The oldest pending promise settles and its reaction runs. *)
Definition settle : M unit :=
  do p <- gets pending;
  match p with
  | [] => eff_ret tt
  | r :: rest => modify (with_pending (λ _, rest)) ;; react r
  end.

(** [setModel(model, track)] *)
Definition setModel (m : option PerformanceModel) (t : option Track) : M unit :=
  do current <- gets model;
  (if negb (bool_decide (modelId <$> current = modelId <$> m)) then
     match current with
     | Some c => extern (RemoveWindowChangedListener (modelId c))
     | None => eff_ret tt
     end ;;
     modify (with_model m) ;;
     match m with
     | Some n => extern (AddWindowChangedListener (modelId n))
     | None => eff_ret tt
     end
   else eff_ret tt) ;;
  modify (with_track t) ;;
  tabbedPane_closeTabs [PaintProfiler; LayerViewer] ;;
  for_of rangeDetailViews_values (λ view, extern (TreeViewSetModel view m t)) ;;
  modify (with_lazyPaintProfilerView None false) ;;
  modify (with_lazyLayersView None false) ;;
  setSelection None ;;
  modify (with_additionalMetricsToolbar (λ _, [])) ;;
  match m with
  | Some m =>
      let '(estimated, time) := totalBlockingTime (timelineModel m) in
      let isEstimate :=
        if estimated : bool then " (" +:+ i18nString UIStrings.estimated [] +:+ ")"
        else "" in
      let message :=
        i18nString UIStrings.totalBlockingTimeSmss
          [("PH1", toFixed 2 time); ("PH2", isEstimate)] in
      modify (with_additionalMetricsToolbar (λ items, items ++ [ToolbarText message])) ;;
      modify (with_additionalMetricsToolbar (λ items, items ++
        [ToolbarLink "https://web.dev/tbt/" (i18nString UIStrings.learnMore [])]))
  | None => eff_ret tt
  end.

(** *** The methods as functions on the view

    The tab strip and the view after a method, written without the
    monad; the facts below relate them to the methods. *)

(** The strip after [closeTab(id)]. *)
Definition closePane (id : Tab) (pane : TabbedPane) : TabbedPane :=
  if hasTab id pane && bool_decide (selectedTabId pane = Some id)
  then showTab (tabAfterClose tk (tabIds (removeTab id pane)) id) (removeTab id pane)
  else removeTab id pane.

Definition closeUnlessRange (id : Tab) (pane : TabbedPane) : TabbedPane :=
  if negb (rangeDetailViews_has id) then closePane id pane else pane.

(** The strip after the loop of [_setContent]. *)
Definition closeOthers (pane : TabbedPane) : TabbedPane :=
  fold_left (λ p id, closeUnlessRange id p) (otherTabs Details pane) pane.

Definition stays (id : Tab) (t : TabbedPaneTab) : bool :=
  rangeDetailViews_has id || negb (bool_decide (tabId t = id)).

(** The tabs [_setContent] leaves open: the summary and the range views. *)
Definition persistent (t : TabbedPaneTab) : bool :=
  bool_decide (tabId t = Details) || rangeDetailViews_has (tabId t).

(** The strip after [_appendTab]. *)
Definition appendPane (preferred : Tab) (id : Tab) (title : string) (w : Widget)
    (c : option bool) (pane : TabbedPane) : TabbedPane :=
  let p := appendTab id title w c pane in
  if negb (bool_decide (Some preferred = selectedTabId p))
     && (hasTab id p && negb (bool_decide (selectedTabId p = Some id)))
  then showTab (Some id) p else p.

(** Calls of [updateContents] in the journal. *)
Definition isUpdate (c : ExternalCall) : Prop :=
  match c with TreeViewUpdateContents _ _ => True | _ => False end.

Definition layerViewerTabs (v : View) : list TabbedPaneTab :=
  List.filter (λ t, bool_decide (tabId t = LayerViewer)) (tabs (tabbedPane v)).

(** The tab [setSelection] appends for the layers view [w]. *)
Definition layersTab (w : Widget) : TabbedPaneTab :=
  {| tabId := LayerViewer; tabTitle := UIStrings.layers; view := w; closeable := None |}.

(** The view after the [Frame] case of [setSelection], for a frame with a
    layer tree and a bound model [m], just before the final
    [_updateContents]. *)
Definition frameShown (m : PerformanceModel) (frame : TimelineFrame) (tree : LayerTree)
    (v : View) : View :=
  let v1 :=
    with_defaultDetailsContent [FrameDetails frame (filmStripModelFrame m frame)]
      (with_tabbedPane closeOthers
         (with_selection (Some (FrameSelection frame))
            (with_journal (λ j, j ++ [LinkifierReset]) v))) in
  let lv := default (LayersView (constructed v) (timelineModel m)) (lazyLayersView v) in
  let v2 := match lazyLayersView v with
            | Some _ => v1
            | None => with_lazyLayersView (Some lv) true v1
            end in
  with_tabbedPane (appendPane (preferredTabId v) LayerViewer UIStrings.layers lv None)
    (with_journal (λ j, j ++ [ShowLayerTree lv tree]) v2).

(** The view [setModel] hands to [setSelection(null)]. *)
Definition rebound (m : option PerformanceModel) (t : option Track) (v : View) : View :=
  let v1 :=
    if negb (bool_decide (modelId <$> model v = modelId <$> m)) then
      let a := match model v with
               | Some c =>
                   with_journal (λ j, j ++ [RemoveWindowChangedListener (modelId c)]) v
               | None => v
               end in
      let b := with_model m a in
      match m with
      | Some n => with_journal (λ j, j ++ [AddWindowChangedListener (modelId n)]) b
      | None => b
      end
    else v in
  with_lazyLayersView None false
    (with_lazyPaintProfilerView None false
       (with_journal (λ j, ((j ++ [TreeViewSetModel (TreeView BottomUp) m t])
                               ++ [TreeViewSetModel (TreeView CallTree) m t])
                               ++ [TreeViewSetModel (TreeView EventLog) m t])
          (with_tabbedPane (λ p, closePane LayerViewer (closePane PaintProfiler p))
             (with_track t v1)))).

(** The toolbar [setModel] leaves. *)
Definition footer (m : option PerformanceModel) : list ToolbarItem :=
  match m with
  | Some m =>
      [ToolbarText
         (i18nString UIStrings.totalBlockingTimeSmss
            [("PH1", toFixed 2 (snd (totalBlockingTime (timelineModel m))));
             ("PH2", if fst (totalBlockingTime (timelineModel m))
                     then " (" +:+ i18nString UIStrings.estimated [] +:+ ")" else "")]);
       ToolbarLink "https://web.dev/tbt/" (i18nString UIStrings.learnMore [])]
  | None => []
  end.

(** The strip after [selectTab(id)]. *)
Definition selectPane (id : Tab) (pane : TabbedPane) : TabbedPane :=
  if hasTab id pane && negb (bool_decide (selectedTabId pane = Some id))
  then showTab (Some id) pane else pane.

(** *** The view among its callers

    What reaches the view from outside: the panel sets the model and the
    selection, a promise of an asynchronous builder settles, the bound model
    reports a new window, the user clicks a tab of the strip, the layers view
    asks for a snapshot to be shown. *)

(** The same model object with another window. *)
Definition setWindow (w : Window) (m : PerformanceModel) : PerformanceModel :=
  {| modelId := modelId m; window := w; timelineModel := timelineModel m;
     frameModel := frameModel m; filmStripModelFrame := filmStripModelFrame m |}.

Inductive Action :=
| DoSetModel (m : option PerformanceModel) (t : option Track)
| DoSetSelection (sel : option TimelineSelection)
| DoSettle
| DoWindowChanged (w : Window)
| DoSelectTab (id : Tab)
| DoShowSnapshot (snapshot : PaintProfilerSnapshot).

(** Modelled from the spec: [PerformanceModel] is outside this file; the
    specification has the view subscribe to the window-change notifications
    of the model it is bound to. [DoWindowChanged w]: the bound model, the
    only one the view listens to, takes the window [w] and calls the
    listener; without a bound model nobody calls it. [DoSelectTab id] is
    [selectTab(id, true)], a user gesture. *)
Definition act (a : Action) : M unit :=
  match a with
  | DoSetModel m t => setModel m t
  | DoSetSelection sel => setSelection sel
  | DoSettle => settle
  | DoWindowChanged w =>
      do m <- gets model;
      match m with
      | Some m => modify (with_model (Some (setWindow w m))) ;; _onWindowChanged
      | None => eff_ret tt
      end
  | DoSelectTab id => tabbedPane_selectTab id true
  | DoShowSnapshot snapshot => _showSnapshotInPaintProfiler snapshot
  end.

(** The view after a series of actions. An exception ends the handler it
    is thrown in; the view stays as the handler left it and the next action
    finds it so. *)
Definition after (actions : list Action) (v : View) : View :=
  fold_left (λ v a, fst (act a v)) actions v.

(** Actions that are no user gesture on the strip. *)
Definition programmatic (a : Action) : Prop :=
  match a with
  | DoSelectTab _ | DoShowSnapshot _ => False
  | _ => True
  end.

(** *** Listeners, read off the journal *)

Fixpoint removeFirst (n : nat) (l : list nat) : list nat :=
  match l with
  | [] => []
  | x :: rest => if bool_decide (x = n) then rest else x :: removeFirst n rest
  end.

Definition listenerStep (l : list nat) (c : ExternalCall) : list nat :=
  match c with
  | AddWindowChangedListener m => l ++ [m]
  | RemoveWindowChangedListener m => removeFirst m l
  | _ => l
  end.

(** The models on which the journal leaves a [WindowChanged] listener of
    the view, in the order they were added. *)
Definition activeListeners (j : list ExternalCall) : list nat :=
  fold_left listenerStep j [].

(** The model the view should be listening to. *)
Definition bound (v : View) : list nat :=
  match model v with
  | Some m => [modelId m]
  | None => []
  end.

(** Every open tab for layers or paint profiler shows the cached view. *)
Definition coherent (v : View) : Prop :=
  ∀ t, t ∈ tabs (tabbedPane v) →
    (tabId t = LayerViewer → lazyLayersView v = Some (view t))
    ∧ (tabId t = PaintProfiler → lazyPaintProfilerView v = Some (view t)).

(** *** A view and a later one

    Relations between the view before and after some calls, used to state
    what no call does. *)

(** Calls that add or remove a listener. *)
Definition isListenerCall (c : ExternalCall) : Prop :=
  match c with
  | AddWindowChangedListener _ | RemoveWindowChangedListener _ => True
  | _ => False
  end.

(** No tab is doubled, open lazy tabs still show the cached views, and the
    persistent tabs are all still there. *)
Definition keepsTabs (v v' : View) : Prop :=
  (NoDup (tabIds (tabbedPane v)) → NoDup (tabIds (tabbedPane v')))
  ∧ (coherent v → coherent v')
  ∧ (∀ t, t ∈ tabs (tabbedPane v) → persistent t = true → t ∈ tabs (tabbedPane v')).

(** The same model object is bound and no listener was added or removed. *)
Definition quiet (v v' : View) : Prop :=
  modelId <$> model v' = modelId <$> model v
  ∧ ∃ extra, journal v' = journal v ++ extra ∧ ∀ c, c ∈ extra → ¬ isListenerCall c.

(** [later q p v v']: [v'] keeps the tabs of [v]; it is quiet when [q] is
    set, and has the same preferred tab when [p] is set. *)
Definition later (q p : bool) (v v' : View) : Prop :=
  keepsTabs v v'
  ∧ (q = true → quiet v v')
  ∧ (p = true → preferredTabId v' = preferredTabId v).

(** The reactions [setSelection] registers for a selection. *)
Definition queued (m : PerformanceModel) (sel : option TimelineSelection) : list Reaction :=
  match sel with
  | Some (TraceEventSelection event) =>
      [ThenAppendDetailsTabs event (TraceEventDetails event (timelineModel m))]
  | Some (NetworkRequestSelection request) =>
      [ThenSetContent (NetworkRequestDetails request (timelineModel m))]
  | _ => []
  end.

End Methods.

(** *** Sample objects *)

(** A toolkit in which the strip falls back to the first tab left. *)
Definition sampleToolkit : Toolkit :=
  {| RecordType_Paint := "Paint";
     RecordType_RasterTask := "RasterTask";
     tabAfterClose := λ rest _, head rest;
     setEvent := λ _ _ _, true;
     millisToString := λ q, pretty (Qnum q / Zpos (Qden q))%Z +:+ " ms";
     numberToString := λ q, pretty (Qnum q / Zpos (Qden q))%Z |}.

Definition sampleModel (estimated : bool) (time : Q) : PerformanceModel :=
  {| modelId := 1;
     window := {| left := 10; right := 20 |};
     timelineModel := {| minimumRecordTime := 4; totalBlockingTime := (estimated, time) |};
     frameModel := {| frameModelId := 1 |};
     filmStripModelFrame := λ _, None |}.

Definition sampleTrack : Track :=
  {| syncEvents := [ {| name := "Paint"; eventId := 1 |} ] |}.

Definition persistentTabs : list TabbedPaneTab :=
  [ {| tabId := Details; tabTitle := UIStrings.summary; view := DefaultDetailsWidget;
       closeable := None |};
    {| tabId := BottomUp; tabTitle := UIStrings.bottomup; view := TreeView BottomUp;
       closeable := None |};
    {| tabId := CallTree; tabTitle := UIStrings.callTree; view := TreeView CallTree;
       closeable := None |};
    {| tabId := EventLog; tabTitle := UIStrings.eventLog; view := TreeView EventLog;
       closeable := None |} ].

(** A view with the four tabs of the constructor, tab [selected] shown,
    and [sampleModel] bound. *)
Definition sampleView (selected : Tab) : View :=
  {| tabbedPane := {| tabs := persistentTabs; selectedTabId := Some selected |};
     preferredTabId := Details;
     model := Some (sampleModel false 120);
     track := Some sampleTrack;
     selection := None;
     lazyPaintProfilerView := None;
     lazyLayersView := None;
     defaultDetailsContent := [];
     additionalMetricsToolbar := [];
     paintProfilerModels := [];
     constructed := 0;
     pending := [];
     journal := [] |}.

Definition sampleFrame : TimelineFrame :=
  {| frameId := 7; layerTree := Some {| layerTreeId := 3 |} |}.

Definition otherFrame : TimelineFrame :=
  {| frameId := 8; layerTree := Some {| layerTreeId := 4 |} |}.

Definition paintEvent : Event := {| name := "Paint"; eventId := 5 |}.

(** [sampleView BottomUp] with a range selected earlier. *)
Definition selectedBefore : View :=
  with_selection (Some (RangeSelection 12 15)) (sampleView BottomUp).

(** A view to which no model was given yet. *)
Definition unboundView : View :=
  {| tabbedPane := {| tabs := persistentTabs; selectedTabId := Some BottomUp |};
     preferredTabId := Details;
     model := None;
     track := None;
     selection := None;
     lazyPaintProfilerView := None;
     lazyLayersView := None;
     defaultDetailsContent := [];
     additionalMetricsToolbar := [];
     paintProfilerModels := [ {| paintProfilerModelId := 1 |} ];
     constructed := 0;
     pending := [];
     journal := [] |}.

Definition otherModel : PerformanceModel :=
  {| modelId := 2;
     window := {| left := 0; right := 5 |};
     timelineModel := {| minimumRecordTime := 0; totalBlockingTime := (true, (7 # 2)%Q) |};
     frameModel := {| frameModelId := 2 |};
     filmStripModelFrame := λ _, None |}.

Definition flatFrame : TimelineFrame := {| frameId := 9; layerTree := None |}.

Definition sampleRequest : NetworkRequest := {| requestId := 11 |}.

Definition sampleWindow : Window := {| left := 30; right := 40 |}.

(** A toolkit whose paint profiler view never has profile data. *)
Definition noDataToolkit : Toolkit :=
  {| RecordType_Paint := "Paint";
     RecordType_RasterTask := "RasterTask";
     tabAfterClose := λ rest _, head rest;
     setEvent := λ _ _ _, false;
     millisToString := λ q, pretty (Qnum q / Zpos (Qden q))%Z +:+ " ms";
     numberToString := λ q, pretty (Qnum q / Zpos (Qden q))%Z |}.

(** Actions of the panel and the model, none of the user. *)
Definition programmaticActions : list Action :=
  [ DoSetModel (Some (sampleModel false 120)) (Some sampleTrack);
    DoSetSelection (Some (FrameSelection sampleFrame));
    DoWindowChanged sampleWindow;
    DoSetSelection (Some (TraceEventSelection paintEvent));
    DoSettle;
    DoSetModel (Some otherModel) None;
    DoSetSelection (Some (RangeSelection 1 2));
    DoSetModel None None ].

(** Actions of all kinds; the last one throws. *)
Definition sampleActions : list Action :=
  [ DoSetModel (Some (sampleModel false 120)) (Some sampleTrack);
    DoSetSelection (Some (FrameSelection sampleFrame));
    DoSelectTab LayerViewer;
    DoShowSnapshot {| snapshotId := 1 |};
    DoSetSelection (Some (TraceEventSelection paintEvent));
    DoSettle;
    DoSelectTab CallTree;
    DoSetModel (Some otherModel) None;
    DoWindowChanged sampleWindow;
    DoSetModel None None;
    DoShowSnapshot {| snapshotId := 2 |} ].

End TimelineDetailsView.

(** * Facts *)

(** ** Calls *)

Section EffLemmas.
Context {S E : Type}.

(** A call that returns normally hands its state and value on. *)
Lemma bind_normal {A B} (c : Eff S E A) (k : A → Eff S E B) st st' a :
  c st = (st', Normal a) → eff_bind c k st = k a st'.
Proof. intros H. unfold eff_bind. by rewrite H. Qed.

End EffLemmas.

(** Closes a decidable goal about concrete data by evaluation. *)
Ltac by_compute := apply (bool_decide_unpack _); vm_compute; exact I.

(** ** The setting registry *)

Module SettingRegistrationFacts.
Import SettingRegistration.

(** Two registries with the same list and the same set are the same. *)
Lemma registry_eq (st st' : Registry) :
  registeredSettings st = registeredSettings st' →
  settingNameSet st = settingNameSet st' → st = st'.
Proof. destruct st, st'; simpl; by intros -> ->. Qed.

(** [registerSettingExtension] on a name the set has. *)
Lemma register_has (st : Registry) d :
  settingName d ∈ settingNameSet st →
  registerSettingExtension d st = (st, Throw (duplicateSettingName (settingName d))).
Proof.
  intros Hin. unfold registerSettingExtension, nameSet_has, gets, eff_bind, throw.
  by rewrite bool_decide_eq_true_2.
Qed.

(** [registerSettingExtension] on a name the set does not have. *)
Lemma register_fresh (st : Registry) d :
  settingName d ∉ settingNameSet st →
  registerSettingExtension d st =
    ({| registeredSettings := registeredSettings st ++ [d];
        settingNameSet := {[settingName d]} ∪ settingNameSet st |}, Normal tt).
Proof.
  intros Hin. unfold registerSettingExtension, nameSet_has, gets, eff_bind, throw.
  by rewrite bool_decide_eq_false_2.
Qed.

(** One turn of the loop. *)
Lemma rebuild_cons d l st :
  rebuild (d :: l) st =
    if bool_decide (settingName d ∈ settingNameSet st)
    then (st, Throw (duplicateSettingName (settingName d)))
    else rebuild l (setNameSet ({[settingName d]} ∪ settingNameSet st) st).
Proof.
  unfold rebuild at 1; simpl. unfold eff_bind, nameSet_has, gets.
  by case_bool_decide.
Qed.

(** The loop over names that are distinct and new adds them all. *)
Lemma rebuild_distinct l : ∀ st,
  NoDup (names l) → (∀ n, n ∈ names l → n ∉ settingNameSet st) →
  rebuild l st = (setNameSet (list_to_set (names l) ∪ settingNameSet st) st, Normal tt).
Proof.
  induction l as [|d l IH]; intros st Hnd Hfresh.
  - unfold rebuild; simpl. unfold eff_ret. f_equal. apply registry_eq; simpl; [done|set_solver].
  - rewrite rebuild_cons. simpl in Hnd. apply NoDup_cons in Hnd as [Hd Hnd].
    rewrite bool_decide_eq_false_2 by (apply Hfresh; simpl; set_solver).
    rewrite IH; [|done|].
    + f_equal. apply registry_eq; simpl; [done|set_solver].
    + intros n Hn. simpl. intros [->%elem_of_singleton|?]%elem_of_union; [done|].
      eapply Hfresh; [|done]. simpl. set_solver.
Qed.

(** The loop stops at the first descriptor whose name was seen, in [done] or
    earlier in [l], with the names before it in the set. *)
Lemma rebuild_repeat l : ∀ done st,
  settingNameSet st = list_to_set (names done) →
  NoDup (names done) →
  ¬ NoDup (names (done ++ l)) →
  ∃ pre d post,
    l = pre ++ d :: post
    ∧ NoDup (names (done ++ pre))
    ∧ settingName d ∈ names (done ++ pre)
    ∧ rebuild l st =
        (setNameSet (list_to_set (names (done ++ pre))) st,
         Throw (duplicateSettingName (settingName d))).
Proof.
  induction l as [|d l IH]; intros done st Hset Hnd Hdup.
  - by rewrite app_nil_r in Hdup.
  - rewrite rebuild_cons. case_bool_decide as Hin.
    + exists [], d, l. rewrite app_nil_r. split_and!; [done|done| |].
      * rewrite Hset in Hin. by apply elem_of_list_to_set in Hin.
      * f_equal. apply registry_eq; simpl; [done|]. by rewrite Hset.
    + destruct (IH (done ++ [d]) (setNameSet ({[settingName d]} ∪ settingNameSet st) st))
        as (pre & d' & post & -> & Hnd' & Hin' & Hrun).
      * simpl. rewrite Hset. unfold names. rewrite fmap_app. simpl.
        rewrite list_to_set_app_L. simpl. set_solver.
      * unfold names. rewrite fmap_app. apply NoDup_app. split_and!; [done| |apply NoDup_singleton].
        intros x Hx ->%list_elem_of_singleton. apply Hin. rewrite Hset.
        by apply elem_of_list_to_set.
      * by rewrite <- app_assoc.
      * exists (d :: pre), d', post. rewrite <- app_assoc in Hnd', Hin', Hrun. simpl in *.
        split_and!; [done|done|done|]. rewrite Hrun. f_equal.
Qed.

(** When the guard holds, [registerSettingExtengionsForTest] is the loop, run
    on the supplied list and the cleared set. *)
Lemma forTest_rebuilds settings forceReset (st : Registry) :
  registeredSettings st = [] ∨ forceReset = true →
  registerSettingExtengionsForTest settings forceReset st =
    rebuild settings {| registeredSettings := settings; settingNameSet := ∅ |}.
Proof.
  intros Hgo. unfold registerSettingExtengionsForTest, eff_bind, gets; simpl.
  assert ((length (registeredSettings st) =? 0)%nat || forceReset = true) as ->.
  { destruct Hgo as [-> | ->]; [done|]. apply orb_true_r. }
  reflexivity.
Qed.

(** When the guard fails, nothing happens. *)
Lemma forTest_skips settings (st : Registry) :
  registeredSettings st ≠ [] →
  registerSettingExtengionsForTest settings false st = (st, Normal tt).
Proof.
  intros Hne. unfold registerSettingExtengionsForTest, eff_bind, gets; simpl.
  destruct (registeredSettings st); done.
Qed.

(** Two positions with the same name: the names are not distinct. *)
Lemma same_name_not_NoDup (settings : list SettingRegistration) i j d1 d2 :
  i ≠ j → settings !! i = Some d1 → settings !! j = Some d2 →
  settingName d1 = settingName d2 → ¬ NoDup (names settings).
Proof.
  intros Hij H1 H2 Heq Hnd. apply Hij.
  eapply NoDup_lookup; [exact Hnd| |].
  - unfold names. rewrite list_lookup_fmap, H1. reflexivity.
  - unfold names. rewrite list_lookup_fmap, H2. simpl. by rewrite Heq.
Qed.

Lemma consistent_initial : consistent initial.
Proof. split; simpl; [constructor|set_solver]. Qed.

(** Each call that returns normally keeps the registry consistent. *)
Lemma register_consistent d st st' :
  consistent st → registerSettingExtension d st = (st', Normal tt) → consistent st'.
Proof.
  intros [Hnd Hset] Hrun.
  destruct (decide (settingName d ∈ settingNameSet st)) as [Hin|Hin].
  - by rewrite register_has in Hrun.
  - rewrite register_fresh in Hrun by done. inversion Hrun; subst; clear Hrun.
    split; simpl; unfold names; rewrite fmap_app; simpl.
    + apply NoDup_app. split_and!; [done| |apply NoDup_singleton].
      intros x Hx ->%list_elem_of_singleton. by apply Hin, Hset.
    + intros n. rewrite elem_of_union, elem_of_singleton, elem_of_app, list_elem_of_singleton.
      rewrite Hset. unfold names. tauto.
Qed.

Lemma forTest_consistent settings forceReset st st' :
  consistent st →
  registerSettingExtengionsForTest settings forceReset st = (st', Normal tt) →
  consistent st'.
Proof.
  intros Hc Hrun.
  destruct (decide (registeredSettings st = [] ∨ forceReset = true)) as [Hgo|Hno].
  - rewrite forTest_rebuilds in Hrun by done.
    destruct (decide (NoDup (names settings))) as [Hnd|Hnd].
    + rewrite rebuild_distinct in Hrun; [|done|simpl; set_solver].
      inversion Hrun; subst; clear Hrun. split; simpl; [done|]. set_solver.
    + destruct (rebuild_repeat settings [] {| registeredSettings := settings; settingNameSet := ∅ |})
        as (pre & d & post & _ & _ & _ & Hthrow); [done|constructor|done|].
      by rewrite Hthrow in Hrun.
  - assert (registeredSettings st ≠ [] ∧ forceReset = false) as [Hne ->].
    { destruct forceReset; [exfalso; apply Hno; by right|].
      split; [intros ?; apply Hno; by left|done]. }
    rewrite forTest_skips in Hrun by done. by inversion Hrun; subst.
Qed.

Lemma calls_consistent cs : ∀ st st',
  consistent st → calls cs st = (st', Normal tt) → consistent st'.
Proof.
  induction cs as [|c cs IH]; intros st st' Hc Hrun.
  - by inversion Hrun; subst.
  - unfold calls in Hrun; simpl in Hrun. unfold eff_bind in Hrun.
    destruct (call c st) as [st1 [[]|e]] eqn:Hcall; [|done].
    apply (IH st1); [|done]. destruct c; simpl in Hcall.
    + by eapply register_consistent.
    + unfold getRegisteredSettings, eff_bind, gets, eff_ret in Hcall.
      by inversion Hcall; subst.
    + by eapply forTest_consistent.
Qed.

(** Registering descriptors with distinct, new names appends them in order. *)
Lemma register_all ds : ∀ st,
  NoDup (names ds) → (∀ n, n ∈ names ds → n ∉ settingNameSet st) →
  for_of ds registerSettingExtension st =
    ({| registeredSettings := registeredSettings st ++ ds;
        settingNameSet := list_to_set (names ds) ∪ settingNameSet st |}, Normal tt).
Proof.
  induction ds as [|d ds IH]; intros st Hnd Hfresh.
  - simpl. unfold eff_ret. f_equal. apply registry_eq; simpl; [by rewrite app_nil_r|set_solver].
  - simpl in Hnd. apply NoDup_cons in Hnd as [Hd Hnd]. simpl.
    erewrite bind_normal; [|apply register_fresh, Hfresh; simpl; set_solver].
    rewrite IH; [|done|].
    + f_equal. apply registry_eq; simpl; [by rewrite <- app_assoc|set_solver].
    + intros n Hn. simpl. intros [->%elem_of_singleton|?]%elem_of_union; [done|].
      eapply Hfresh; [|done]. simpl. set_solver.
Qed.

(** Claim C1. When the descriptor's [settingName] is already in the
    uniqueness set, [registerSettingExtension] throws the duplicate-name error
    and returns the registry as it was, list and set alike; in a consistent
    registry that is so for every name that occurs in the list. For a
    fresh name the call returns normally, the descriptor is appended at the
    end of the list and its name is added to the set. *)
Theorem register_duplicate_throws_fresh_appends (st : Registry) (d : SettingRegistration) :
  (settingName d ∈ settingNameSet st →
     registerSettingExtension d st = (st, Throw (duplicateSettingName (settingName d))))
  ∧ (consistent st → settingName d ∈ names (registeredSettings st) →
     registerSettingExtension d st = (st, Throw (duplicateSettingName (settingName d))))
  ∧ (settingName d ∉ settingNameSet st →
     ∃ st', registerSettingExtension d st = (st', Normal tt)
       ∧ registeredSettings st' = registeredSettings st ++ [d]
       ∧ settingNameSet st' = {[settingName d]} ∪ settingNameSet st).
Proof.
  split_and!.
  - apply register_has.
  - intros [_ Hset] Hin. by apply register_has, Hset.
  - intros Hfresh. eexists. split; [by apply register_fresh|done].
Qed.

(** Claim C1 at the registry holding [a]: registering [a] again, then [b]. *)
Lemma register_duplicate_throws_fresh_appends_witness :
  registerSettingExtension (descriptor "a") registryA
    = (registryA, Throw (JsError "Duplicate setting name 'a'"))
  ∧ ∃ st', registerSettingExtension (descriptor "b") registryA = (st', Normal tt)
      ∧ registeredSettings st' = [descriptor "a"; descriptor "b"]
      ∧ settingNameSet st' = {["b"]} ∪ {["a"]}.
Proof.
  destruct (register_duplicate_throws_fresh_appends registryA (descriptor "a"))
    as (Hdup & _ & _).
  destruct (register_duplicate_throws_fresh_appends registryA (descriptor "b"))
    as (_ & _ & Hfresh).
  split.
  - apply Hdup. simpl. apply elem_of_singleton. reflexivity.
  - apply Hfresh. simpl. intros H. apply elem_of_singleton in H. discriminate H.
Defined.

(** Claim C2 as stated fails: with [forceReset] set, a list that repeats the
    name [a] makes the call throw, but the registry that held [b] now holds
    the supplied list instead of being left unchanged. *)
Lemma forTest_duplicate_does_not_restore :
  let settings := [descriptor "a"; descriptor "a"] in
  (registeredSettings registryB = [] ∨ true = true)
  ∧ settings !! 0%nat = Some (descriptor "a")
  ∧ settings !! 1%nat = Some (descriptor "a")
  ∧ snd (registerSettingExtengionsForTest settings true registryB)
      = Throw (JsError "Duplicate setting name 'a'")
  ∧ fst (registerSettingExtengionsForTest settings true registryB) ≠ registryB.
Proof.
  split_and!; [by right|reflexivity|reflexivity|reflexivity|].
  intros Heq. apply (f_equal registeredSettings) in Heq. discriminate Heq.
Qed.

(** Claim C2, amended. When [registerSettingExtengionsForTest] rebuilds (empty
    registry or [forceReset]) and two descriptors of the supplied list share a
    [settingName], the call throws the duplicate-name error for the first
    descriptor [d] whose name occurred earlier in the list; the registry is
    not restored: its list is the supplied list and its name set holds
    exactly the names of the descriptors before [d]. *)
Theorem forTest_duplicate_throws_after_replacing
    (st : Registry) (settings : list SettingRegistration) (forceReset : bool)
    (i j : nat) (d1 d2 : SettingRegistration) :
  registeredSettings st = [] ∨ forceReset = true →
  i ≠ j → settings !! i = Some d1 → settings !! j = Some d2 →
  settingName d1 = settingName d2 →
  ∃ pre d post st',
    settings = pre ++ d :: post
    ∧ NoDup (names pre)
    ∧ settingName d ∈ names pre
    ∧ registerSettingExtengionsForTest settings forceReset st
        = (st', Throw (duplicateSettingName (settingName d)))
    ∧ registeredSettings st' = settings
    ∧ settingNameSet st' = list_to_set (names pre).
Proof.
  intros Hgo Hij H1 H2 Heq.
  rewrite forTest_rebuilds by done.
  destruct (rebuild_repeat settings [] {| registeredSettings := settings; settingNameSet := ∅ |})
    as (pre & d & post & Hsplit & Hnd & Hin & Hthrow).
  - reflexivity.
  - constructor.
  - simpl. by eapply same_name_not_NoDup.
  - exists pre, d, post. eexists. simpl in *. split_and!; [done|done|done|exact Hthrow|done|done].
Qed.

(** Claim C2, amended, at the list [a; a; b] forced onto the registry holding [b]. *)
Lemma forTest_duplicate_throws_after_replacing_witness :
  ∃ pre d post st',
    [descriptor "a"; descriptor "a"; descriptor "b"] = pre ++ d :: post
    ∧ NoDup (names pre)
    ∧ settingName d ∈ names pre
    ∧ registerSettingExtengionsForTest
        [descriptor "a"; descriptor "a"; descriptor "b"] true registryB
        = (st', Throw (duplicateSettingName (settingName d)))
    ∧ registeredSettings st' = [descriptor "a"; descriptor "a"; descriptor "b"]
    ∧ settingNameSet st' = list_to_set (names pre).
Proof.
  apply (forTest_duplicate_throws_after_replacing registryB
           [descriptor "a"; descriptor "a"; descriptor "b"] true 0 1
           (descriptor "a") (descriptor "a")).
  - right. reflexivity.
  - lia.
  - reflexivity.
  - reflexivity.
  - reflexivity.
Defined.

Lemma filter_all_true {A} (l : list A) : List.filter (λ _, true) l = l.
Proof. induction l; simpl; congruence. Qed.

(** Claim C4. Registering descriptors with pairwise distinct names, one after
    the other from the initial registry, succeeds, and afterwards
    [getRegisteredSettings] returns the registered descriptors whose gating
    predicate holds, in registration order; with the predicate that is always
    true it returns all of them in registration order. *)
Theorem getRegisteredSettings_in_registration_order
    (ds : list SettingRegistration)
    (isDescriptorEnabled : option string → option string → bool) :
  NoDup (names ds) →
  ∃ st,
    for_of ds registerSettingExtension initial = (st, Normal tt)
    ∧ getRegisteredSettings isDescriptorEnabled st
        = (st, Normal (List.filter
                         (λ setting, isDescriptorEnabled (experiment setting)
                                                         (condition setting)) ds))
    ∧ getRegisteredSettings (λ _ _, true) st = (st, Normal ds).
Proof.
  intros Hnd. eexists. split_and!.
  - apply register_all; [done|]. simpl. set_solver.
  - reflexivity.
  - unfold getRegisteredSettings, gets; simpl. by rewrite filter_all_true.
Qed.

(** Claim C4 at three descriptors, two of them behind the experiment [e1]. *)
Lemma getRegisteredSettings_in_registration_order_witness :
  ∃ st,
    for_of [gated "x" "e1"; descriptor "y"; gated "z" "e1"]
        registerSettingExtension initial = (st, Normal tt)
    ∧ getRegisteredSettings (onlyExperiment "e1") st
        = (st, Normal [gated "x" "e1"; gated "z" "e1"])
    ∧ getRegisteredSettings (λ _ _, true) st
        = (st, Normal [gated "x" "e1"; descriptor "y"; gated "z" "e1"]).
Proof.
  apply (getRegisteredSettings_in_registration_order
           [gated "x" "e1"; descriptor "y"; gated "z" "e1"] (onlyExperiment "e1")).
  by_compute.
Defined.

(** Claim C5 as stated fails: with [forceReset] set the list is replaced by
    the supplied one, but when the supplied names repeat, the name set is not
    the set of that list's names: [b] is in the list and not in the set. *)
Lemma forTest_force_leaves_name_out :
  let settings := [descriptor "a"; descriptor "a"; descriptor "b"] in
  let st' := fst (registerSettingExtengionsForTest settings true registryB) in
  registeredSettings st' = settings
  ∧ ("b" ∈ names settings)
  ∧ ("b" ∉ settingNameSet st')
  ∧ settingNameSet st' ≠ list_to_set (names settings).
Proof.
  assert ("b" ∉ settingNameSet
            (fst (registerSettingExtengionsForTest
                    [descriptor "a"; descriptor "a"; descriptor "b"] true registryB))) as Hb.
  { apply (bool_decide_eq_false_1 _). vm_compute. reflexivity. }
  split_and!; [reflexivity| |exact Hb|].
  - by_compute.
  - intros Heq. apply Hb. rewrite Heq. by_compute.
Qed.

(** Claim C5, amended. On a non-empty registry, a call without [forceReset]
    changes nothing. With [forceReset] set, or on an empty registry, the list
    becomes exactly the supplied list; when the supplied names are pairwise
    distinct the call returns normally and the name set is exactly the set of
    that list's names. *)
Theorem forTest_noop_or_replace
    (st : Registry) (settings : list SettingRegistration) (forceReset : bool) :
  (registeredSettings st ≠ [] →
     registerSettingExtengionsForTest settings false st = (st, Normal tt))
  ∧ (registeredSettings st = [] ∨ forceReset = true →
     registeredSettings (fst (registerSettingExtengionsForTest settings forceReset st))
       = settings
     ∧ (NoDup (names settings) →
        ∃ st', registerSettingExtengionsForTest settings forceReset st = (st', Normal tt)
          ∧ registeredSettings st' = settings
          ∧ settingNameSet st' = list_to_set (names settings))).
Proof.
  split; [apply forTest_skips|]. intros Hgo. rewrite forTest_rebuilds by done. split.
  - destruct (decide (NoDup (names settings))) as [Hnd|Hnd].
    + rewrite rebuild_distinct; [done|done|simpl; set_solver].
    + destruct (rebuild_repeat settings [] {| registeredSettings := settings; settingNameSet := ∅ |})
        as (pre & d & post & _ & _ & _ & ->); [done|constructor|done|done].
  - intros Hnd. eexists. split; [apply rebuild_distinct; [done|simpl; set_solver]|].
    simpl. split; [done|set_solver].
Qed.

(** Claim C5, amended, at the registry holding [b]. *)
Lemma forTest_noop_or_replace_witness :
  registerSettingExtengionsForTest [descriptor "a"] false registryB = (registryB, Normal tt)
  ∧ ∃ st', registerSettingExtengionsForTest [descriptor "a"; descriptor "c"] true registryB
           = (st', Normal tt)
      ∧ registeredSettings st' = [descriptor "a"; descriptor "c"]
      ∧ settingNameSet st' = list_to_set (names [descriptor "a"; descriptor "c"]).
Proof.
  split.
  - apply (forTest_noop_or_replace registryB [descriptor "a"] false). discriminate.
  - apply (forTest_noop_or_replace registryB [descriptor "a"; descriptor "c"] true).
    + right. reflexivity.
    + by_compute.
Defined.

(** Claim C10. After any sequence of calls of the module, started in the
    initial registry and none of them throwing, the names in the list of
    descriptors are pairwise distinct and the name set holds exactly the
    names of the descriptors in the list. *)
Theorem successful_calls_keep_names_unique (cs : list Call) (st : Registry) :
  calls cs initial = (st, Normal tt) →
  NoDup (names (registeredSettings st))
  ∧ ∀ n, n ∈ settingNameSet st ↔ n ∈ names (registeredSettings st).
Proof. intros Hrun. exact (calls_consistent cs initial st consistent_initial Hrun). Qed.

(** Claim C10 at [sampleCalls], six calls that all return normally. *)
Lemma successful_calls_keep_names_unique_witness :
  NoDup (names (registeredSettings (fst (calls sampleCalls initial))))
  ∧ ∀ n, n ∈ settingNameSet (fst (calls sampleCalls initial))
         ↔ n ∈ names (registeredSettings (fst (calls sampleCalls initial))).
Proof.
  apply (successful_calls_keep_names_unique sampleCalls).
  vm_compute. reflexivity.
Defined.
End SettingRegistrationFacts.

(** ** The details view *)

Module TimelineDetailsViewFacts.
Import TimelineDetailsView.

Section WithToolkit.
Variable tk : Toolkit.

(** [closeTab] never throws and only changes the strip: the listener is told
    of the newly shown tab without a user gesture and returns at once. *)
Lemma closeTab_pane id v :
  tabbedPane_closeTab tk id v = (with_tabbedPane (closePane tk id) v, Normal tt).
Proof.
  unfold tabbedPane_closeTab, closePane, eff_bind, gets, modify, with_tabbedPane; simpl.
  destruct (hasTab id (tabbedPane v) && bool_decide (selectedTabId (tabbedPane v) = Some id));
    [|reflexivity].
  simpl. destruct (tabAfterClose tk _ id); reflexivity.
Qed.

Lemma with_tabbedPane_id v : with_tabbedPane (λ p, p) v = v.
Proof. by destruct v. Qed.

(** The loop of [_setContent]. *)
Lemma closeLoop ids : ∀ v,
  for_of ids (λ id, if negb (rangeDetailViews_has id) then tabbedPane_closeTab tk id
                    else eff_ret tt) v
  = (with_tabbedPane (λ p, fold_left (λ p id, closeUnlessRange tk id p) ids p) v, Normal tt).
Proof.
  induction ids as [|id ids IH]; intros v; simpl.
  - unfold eff_ret. by rewrite with_tabbedPane_id.
  - unfold eff_bind, closeUnlessRange at 2. destruct (negb (rangeDetailViews_has id)).
    + rewrite closeTab_pane, IH. reflexivity.
    + unfold eff_ret. rewrite IH. reflexivity.
Qed.

(** [_setContent] never throws; it changes the strip and the content. *)
Lemma setContent_eq node v :
  _setContent tk node v =
    (with_defaultDetailsContent [node] (with_tabbedPane (closeOthers tk) v), Normal tt).
Proof.
  unfold _setContent, eff_bind, gets, modify. rewrite closeLoop. reflexivity.
Qed.

Lemma filter_filter {A} (f g : A → bool) l :
  List.filter f (List.filter g l) = List.filter (λ x, g x && f x) l.
Proof.
  induction l as [|x l IH]; simpl; [done|].
  destruct (g x); simpl; [destruct (f x)|]; by rewrite IH.
Qed.

Lemma filter_ext_in {A} (f g : A → bool) l :
  (∀ x, x ∈ l → f x = g x) → List.filter f l = List.filter g l.
Proof.
  intros H. apply List.filter_ext_in. intros x Hx. apply H. by apply list_elem_of_In.
Qed.

Lemma tabs_closePane id pane :
  tabs (closePane tk id pane) = List.filter (λ t, negb (bool_decide (tabId t = id))) (tabs pane).
Proof. unfold closePane. by destruct (_ && _). Qed.

Lemma tabs_closeUnlessRange id pane :
  tabs (closeUnlessRange tk id pane) = List.filter (stays id) (tabs pane).
Proof.
  unfold closeUnlessRange, stays. destruct (rangeDetailViews_has id); simpl.
  - induction (tabs pane); simpl; congruence.
  - apply tabs_closePane.
Qed.

Lemma tabs_fold ids : ∀ pane,
  tabs (fold_left (λ p id, closeUnlessRange tk id p) ids pane)
  = List.filter (λ t, forallb (λ id, stays id t) ids) (tabs pane).
Proof.
  induction ids as [|id ids IH]; intros pane; simpl.
  - induction (tabs pane); simpl; congruence.
  - rewrite IH, tabs_closeUnlessRange, filter_filter. reflexivity.
Qed.

(** [_setContent] leaves open exactly the Summary tab and the range views. *)
Lemma tabs_closeOthers pane :
  tabs (closeOthers tk pane) = List.filter persistent (tabs pane).
Proof.
  unfold closeOthers. rewrite tabs_fold. apply filter_ext_in. intros t Ht.
  unfold persistent. apply eq_true_iff_eq. rewrite forallb_forall, orb_true_iff.
  rewrite bool_decide_eq_true. split.
  - intros Hall. destruct (decide (tabId t = Details)) as [|Hne]; [by left|right].
    assert (In (tabId t) (otherTabs Details pane)) as Hin.
    { unfold otherTabs. apply filter_In. split.
      - apply list_elem_of_In. unfold tabIds. by apply list_elem_of_fmap_2.
      - by rewrite bool_decide_eq_false_2. }
    specialize (Hall _ Hin). unfold stays in Hall.
    rewrite bool_decide_eq_true_2 in Hall by done. simpl in Hall.
    by rewrite orb_false_r in Hall.
  - intros [Hd|Hr] id Hid; unfold stays.
    + unfold otherTabs in Hid. apply filter_In in Hid as [_ Hid].
      apply negb_true_iff, bool_decide_eq_false in Hid.
      rewrite (bool_decide_eq_false_2 (tabId t = id)) by congruence.
      apply orb_true_r.
    + destruct (decide (tabId t = id)) as [<-|Hne].
      * by rewrite Hr.
      * rewrite (bool_decide_eq_false_2 _ Hne). apply orb_true_r.
Qed.

(** No other tab is open after [_setContent]. *)
Lemma hasTab_closeOthers id pane :
  id ≠ Details → rangeDetailViews_has id = false → hasTab id (closeOthers tk pane) = false.
Proof.
  intros Hd Hr. unfold hasTab, tabIds. apply bool_decide_eq_false_2.
  rewrite tabs_closeOthers. intros (t & -> & Ht)%list_elem_of_fmap.
  apply list_elem_of_In, filter_In in Ht as [_ Hp]. unfold persistent in Hp.
  rewrite Hr, (bool_decide_eq_false_2 _ Hd) in Hp. discriminate Hp.
Qed.

Lemma sublist_filter {A} (f : A → bool) l : sublist (List.filter f l) l.
Proof.
  induction l as [|x l IH]; simpl; [constructor|].
  destruct (f x); by constructor.
Qed.

(** [_updateContents], case by case. *)
Lemma updateContents_eq v :
  _updateContents v =
    match rangeDetailViews_get (selectedTabId (tabbedPane v)) with
    | Some view =>
        match model v with
        | Some m =>
            (with_journal (λ j, j ++ [TreeViewUpdateContents view
               (default (RangeSelection (left (window m)) (right (window m)))
                  (selection v))]) v, Normal tt)
        | None => (v, Throw (TypeError "Cannot read property of null"))
        end
    | None => (v, Normal tt)
    end.
Proof.
  unfold _updateContents, eff_bind, gets, this_model, extern, modify; simpl.
  destruct (rangeDetailViews_get _); [|reflexivity]. by destruct (model v).
Qed.

(** [_appendTab] never throws and only changes the strip. *)
Lemma appendTab_eq id title w c v :
  _appendTab id title w c v =
    (with_tabbedPane (appendPane (preferredTabId v) id title w c) v, Normal tt).
Proof.
  unfold _appendTab, appendPane, tabbedPane_selectTab, _tabSelected, eff_bind, gets,
    modify, eff_ret, with_tabbedPane; simpl.
  destruct (negb (bool_decide (Some (preferredTabId v) = selectedTabId (tabbedPane v))));
    simpl; [|reflexivity].
  destruct (hasTab id _ && _); reflexivity.
Qed.

Lemma tabs_appendPane pref id title w c pane :
  tabs (appendPane pref id title w c pane)
  = tabs pane ++ [{| tabId := id; tabTitle := title; view := w; closeable := c |}].
Proof. unfold appendPane. by destruct (_ && _). Qed.

(** [setSelection(null)] with a model bound, up to its [_updateContents]. *)
Lemma setSelection_null_eq v m :
  model v = Some m →
  setSelection tk None v =
    _updateContents
      (match track v with
       | Some t =>
           with_defaultDetailsContent
             [RangeDetails
                (i18nString UIStrings.rangeSS
                   [("PH1", millisToString tk
                              (Qminus (left (window m)) (minimumRecordTime (timelineModel m))));
                    ("PH2", millisToString tk
                              (Qminus (right (window m)) (minimumRecordTime (timelineModel m))))])
                (StatsForTimeRange (syncEvents t) (left (window m)) (right (window m)))]
             (with_tabbedPane (closeOthers tk)
                (with_selection None (with_journal (λ j, j ++ [LinkifierReset]) v)))
       | None => with_selection None (with_journal (λ j, j ++ [LinkifierReset]) v)
       end).
Proof.
  intros Hm.
  unfold setSelection, _updateContentsFromWindow, _updateSelectedRangeStats,
    eff_bind, extern, modify, gets; simpl. rewrite Hm; simpl. rewrite Hm.
  destruct (track v); simpl; [|reflexivity].
  rewrite setContent_eq. reflexivity.
Qed.

(** Claim C8. With a model and a track bound, [setSelection(null)], whatever
    was selected before, stores no selection and shows the range statistics
    of the model's window: the statistics are taken between [window().left]
    and [window().right], and a selected range view is updated with the range
    selection of that same window. *)
Theorem setSelection_null_shows_window_stats (v : View) (m : PerformanceModel) (t : Track) :
  model v = Some m → track v = Some t →
  ∃ v',
    setSelection tk None v = (v', Normal tt)
    ∧ selection v' = None
    ∧ defaultDetailsContent v' =
        [RangeDetails
           (i18nString UIStrings.rangeSS
              [("PH1", millisToString tk
                         (Qminus (left (window m)) (minimumRecordTime (timelineModel m))));
               ("PH2", millisToString tk
                         (Qminus (right (window m)) (minimumRecordTime (timelineModel m))))])
           (StatsForTimeRange (syncEvents t) (left (window m)) (right (window m)))]
    ∧ ∀ view, rangeDetailViews_get (selectedTabId (tabbedPane v')) = Some view →
        last (journal v')
        = Some (TreeViewUpdateContents view
                  (RangeSelection (left (window m)) (right (window m)))).
Proof.
  intros Hm Ht. rewrite (setSelection_null_eq v m Hm), Ht, updateContents_eq. simpl.
  rewrite Hm. destruct (rangeDetailViews_get _) as [view|] eqn:Hview.
  - eexists. split; [reflexivity|]. simpl. split_and!; [done|done|].
    intros view' Hview'. rewrite Hview in Hview'. inversion Hview'; subst.
    by rewrite last_snoc.
  - eexists. split; [reflexivity|]. simpl. split_and!; [done|done|].
    intros view' Hview'. by rewrite Hview in Hview'.
Qed.

(** [_layersView] with a model bound: the cached view, or a new one. *)
Lemma layersView_eq v m :
  model v = Some m →
  _layersView v =
    match lazyLayersView v with
    | Some w => (v, Normal w)
    | None =>
        (with_lazyLayersView (Some (LayersView (constructed v) (timelineModel m))) true v,
         Normal (LayersView (constructed v) (timelineModel m)))
    end.
Proof.
  intros Hm. unfold _layersView, eff_bind, gets, this_model, modify, eff_ret; simpl.
  destruct (lazyLayersView v); [reflexivity|]. by rewrite Hm.
Qed.

(** The [Frame] case with a layer tree: [_setContent] has just closed the
    LayerViewer tab, so [hasTab] is false and the tab is appended. *)
Lemma setSelection_frame_eq v m frame tree :
  model v = Some m → layerTree frame = Some tree →
  setSelection tk (Some (FrameSelection frame)) v
  = _updateContents (frameShown tk m frame tree v).
Proof.
  intros Hm Htree.
  unfold setSelection, eff_bind at 1 2 3, extern, modify; simpl.
  unfold eff_bind at 1, this_model; simpl. rewrite Hm.
  unfold eff_bind at 1. rewrite setContent_eq, Htree.
  unfold eff_bind at 1. erewrite layersView_eq by (simpl; exact Hm). simpl.
  unfold frameShown.
  destruct (lazyLayersView v) as [w|]; simpl.
  - unfold eff_bind, extern, modify, gets; simpl.
    rewrite hasTab_closeOthers by done. simpl. rewrite appendTab_eq. reflexivity.
  - unfold eff_bind, extern, modify, gets; simpl.
    rewrite hasTab_closeOthers by done. simpl. rewrite appendTab_eq. reflexivity.
Qed.

(** With a model bound, every [setSelection] reaches its last statement,
    [_updateContents], and has called no [updateContents] before it. *)
Lemma setSelection_dispatch v m sel :
  model v = Some m →
  ∃ u before,
    setSelection tk sel v = _updateContents u
    ∧ model u = Some m
    ∧ selection u = sel
    ∧ journal u = journal v ++ before
    ∧ ∀ c, c ∈ before → ¬ isUpdate c.
Proof.
  intros Hm. destruct sel as [[event|frame|request|startTime endTime]|].
  - eexists _, [LinkifierReset]. split.
    { unfold setSelection, eff_bind, extern, modify, this_model; simpl. rewrite Hm.
      reflexivity. }
    split_and!; [exact Hm|reflexivity|reflexivity|].
    intros c ->%list_elem_of_singleton. simpl. tauto.
  - destruct (layerTree frame) as [tree|] eqn:Htree.
    + exists (frameShown tk m frame tree v).
      exists [LinkifierReset;
              ShowLayerTree (default (LayersView (constructed v) (timelineModel m))
                                     (lazyLayersView v)) tree].
      split_and!; [by apply setSelection_frame_eq| | | |].
      * unfold frameShown. by destruct (lazyLayersView v).
      * unfold frameShown. by destruct (lazyLayersView v).
      * unfold frameShown. destruct (lazyLayersView v); simpl; by rewrite <- app_assoc.
      * intros c Hc. apply elem_of_cons in Hc as [->|Hc]; [simpl; tauto|].
        apply list_elem_of_singleton in Hc as ->. simpl. tauto.
    + eexists _, [LinkifierReset]. split.
      { unfold setSelection, eff_bind at 1 2 3, extern, modify; simpl.
        unfold eff_bind at 1, this_model; simpl. rewrite Hm.
        unfold eff_bind at 1. rewrite setContent_eq, Htree. reflexivity. }
      split_and!; [exact Hm|reflexivity|reflexivity|].
      intros c ->%list_elem_of_singleton. simpl. tauto.
  - eexists _, [LinkifierReset]. split.
    { unfold setSelection, eff_bind, extern, modify, this_model; simpl. rewrite Hm.
      reflexivity. }
    split_and!; [exact Hm|reflexivity|reflexivity|].
    intros c ->%list_elem_of_singleton. simpl. tauto.
  - exists (match track v with
            | Some t =>
                with_defaultDetailsContent
                  [RangeDetails
                     (i18nString UIStrings.rangeSS
                        [("PH1", millisToString tk
                                   (Qminus startTime (minimumRecordTime (timelineModel m))));
                         ("PH2", millisToString tk
                                   (Qminus endTime (minimumRecordTime (timelineModel m))))])
                     (StatsForTimeRange (syncEvents t) startTime endTime)]
                  (with_tabbedPane (closeOthers tk)
                     (with_selection (Some (RangeSelection startTime endTime))
                        (with_journal (λ j, j ++ [LinkifierReset]) v)))
            | None => with_selection (Some (RangeSelection startTime endTime))
                        (with_journal (λ j, j ++ [LinkifierReset]) v)
            end), [LinkifierReset].
    split_and!.
    + unfold setSelection, _updateSelectedRangeStats, eff_bind, extern, modify, gets; simpl.
      rewrite Hm. destruct (track v); simpl; [|reflexivity].
      rewrite setContent_eq. reflexivity.
    + by destruct (track v).
    + by destruct (track v).
    + by destruct (track v).
    + intros c ->%list_elem_of_singleton. simpl. tauto.
  - eexists _, [LinkifierReset]. split_and!; [by apply setSelection_null_eq| | | |].
    + by destruct (track v).
    + by destruct (track v).
    + by destruct (track v).
    + intros c ->%list_elem_of_singleton. simpl. tauto.
Qed.

(** Claim C3, amended. With a model bound, [setSelection] returns normally
    for every selection value, and after the dispatch it refreshes the
    selected tab only when that tab is one of the three range views
    (Bottom-Up, Call Tree, Event Log): then its last call is that view's
    [updateContents] with the selection or, for [null], with the range of the
    model's window, and it is the only such call. When the Summary tab, the
    paint profiler or the layer viewer is selected, no [updateContents] is
    called at all. *)
Theorem setSelection_refreshes_selected_range_view
    (v : View) (sel : option TimelineSelection) (m : PerformanceModel) :
  model v = Some m →
  ∃ v' calls,
    setSelection tk sel v = (v', Normal tt)
    ∧ journal v' = journal v ++ calls
    ∧ match rangeDetailViews_get (selectedTabId (tabbedPane v')) with
      | Some view =>
          ∃ before,
            calls = before ++
              [TreeViewUpdateContents view
                 (default (RangeSelection (left (window m)) (right (window m))) sel)]
            ∧ ∀ c, c ∈ before → ¬ isUpdate c
      | None => ∀ c, c ∈ calls → ¬ isUpdate c
      end.
Proof.
  intros Hm.
  destruct (setSelection_dispatch v m sel Hm) as (u & before & -> & Hmu & Hsel & Hj & Hno).
  rewrite updateContents_eq, Hmu.
  destruct (rangeDetailViews_get (selectedTabId (tabbedPane u))) as [view|] eqn:Hview.
  - eexists _, (before ++ [_]). split; [reflexivity|]. simpl. rewrite Hview, Hj, Hsel.
    split; [by rewrite app_assoc|]. by exists before.
  - exists u, before. split; [reflexivity|]. by rewrite Hview.
Qed.

(** [setSelection(null)] returns normally in every view. *)
Lemma setSelection_null_total v :
  ∃ v',
    setSelection tk None v = (v', Normal tt)
    ∧ lazyLayersView v' = lazyLayersView v
    ∧ lazyPaintProfilerView v' = lazyPaintProfilerView v
    ∧ additionalMetricsToolbar v' = additionalMetricsToolbar v
    ∧ sublist (tabs (tabbedPane v')) (tabs (tabbedPane v)).
Proof.
  destruct (model v) as [m|] eqn:Hm.
  - rewrite (setSelection_null_eq v m Hm), updateContents_eq.
    destruct (track v) as [t|]; simpl; rewrite Hm;
      destruct (rangeDetailViews_get _); eexists; (split; [reflexivity|]); simpl;
      split_and!; try done; rewrite tabs_closeOthers; apply sublist_filter.
  - unfold setSelection, _updateContentsFromWindow, eff_bind, extern, modify, gets; simpl.
    rewrite Hm, setContent_eq. eexists; split; [reflexivity|]. simpl.
    split_and!; try done. rewrite tabs_closeOthers. apply sublist_filter.
Qed.

(** [setModel]: everything before and after its [setSelection(null)]. *)
Lemma setModel_eq m t v :
  setModel tk m t v =
    (let '(v1, r) := setSelection tk None (rebound tk m t v) in
     match r with
     | Normal _ => (with_additionalMetricsToolbar (λ _, footer tk m) v1, Normal tt)
     | Throw e => (v1, Throw e)
     end).
Proof.
  unfold setModel, rebound, footer, tabbedPane_closeTabs, rangeDetailViews_values.
  unfold eff_bind at 1, gets at 1.
  unfold eff_bind at 1.
  destruct (negb (bool_decide (modelId <$> model v = modelId <$> m))).
  - destruct (model v) as [c|], m as [n|]; simpl;
      unfold eff_bind, extern, modify, eff_ret; simpl;
      rewrite !closeTab_pane; simpl;
      destruct (setSelection tk None _) as [v1 [[]|e]]; try reflexivity;
      destruct (totalBlockingTime (timelineModel n)) as [est time]; reflexivity.
  - destruct m as [n|]; simpl;
      unfold eff_bind, extern, modify, eff_ret; simpl;
      rewrite !closeTab_pane; simpl;
      destruct (setSelection tk None _) as [v1 [[]|e]]; try reflexivity;
      destruct (totalBlockingTime (timelineModel n)) as [est time]; reflexivity.
Qed.

Lemma filter_app {A} (f : A → bool) l1 l2 :
  List.filter f (l1 ++ l2) = List.filter f l1 ++ List.filter f l2.
Proof. apply List.filter_app. Qed.

Lemma no_layerViewer_persistent l :
  List.filter (λ t, bool_decide (tabId t = LayerViewer)) (List.filter persistent l) = [].
Proof.
  rewrite filter_filter. induction l as [|t l IH]; simpl; [done|].
  unfold persistent at 1. destruct (decide (tabId t = LayerViewer)) as [Heq|Hne].
  - rewrite Heq. simpl. exact IH.
  - rewrite (bool_decide_eq_false_2 (tabId t = LayerViewer)) by done.
    rewrite andb_false_r. exact IH.
Qed.

(** What selecting a frame with a layer tree leaves behind. *)
Lemma setSelection_frame_spec v m frame tree :
  model v = Some m → layerTree frame = Some tree →
  let lv := default (LayersView (constructed v) (timelineModel m)) (lazyLayersView v) in
  ∃ v1,
    setSelection tk (Some (FrameSelection frame)) v = (v1, Normal tt)
    ∧ model v1 = Some m
    ∧ layerViewerTabs v1 = [layersTab lv]
    ∧ lazyLayersView v1 = Some lv
    ∧ ShowLayerTree lv tree ∈ journal v1
    ∧ constructed v1 = (match lazyLayersView v with
                        | Some _ => constructed v
                        | None => S (constructed v)
                        end).
Proof.
  intros Hm Htree lv.
  rewrite (setSelection_frame_eq v m frame tree Hm Htree), updateContents_eq.
  assert (model (frameShown tk m frame tree v) = Some m) as Hm'.
  { unfold frameShown. by destruct (lazyLayersView v). }
  assert (layerViewerTabs (frameShown tk m frame tree v) = [layersTab lv]) as Htabs.
  { unfold layerViewerTabs, frameShown. simpl. rewrite tabs_appendPane, filter_app.
    destruct (lazyLayersView v); simpl; rewrite tabs_closeOthers, no_layerViewer_persistent;
      reflexivity. }
  assert (lazyLayersView (frameShown tk m frame tree v) = Some lv) as Hlazy.
  { unfold frameShown. subst lv. destruct (lazyLayersView v) eqn:E; simpl; by rewrite ?E. }
  assert (ShowLayerTree lv tree ∈ journal (frameShown tk m frame tree v)) as Hj.
  { unfold frameShown. simpl. apply elem_of_app. right. by apply list_elem_of_singleton. }
  assert (constructed (frameShown tk m frame tree v)
          = (match lazyLayersView v with
             | Some _ => constructed v
             | None => S (constructed v)
             end)) as Hc.
  { unfold frameShown. destruct (lazyLayersView v) eqn:E; simpl; by rewrite ?E. }
  rewrite Hm'. destruct (rangeDetailViews_get _).
  - eexists. split; [reflexivity|]. unfold layerViewerTabs in *. simpl.
    split_and!; try done. apply elem_of_app. by left.
  - eexists. split; [reflexivity|]. done.
Qed.

Lemma hasTab_closePane id pane : hasTab id (closePane tk id pane) = false.
Proof.
  unfold hasTab, tabIds. apply bool_decide_eq_false_2. rewrite tabs_closePane.
  intros (t & -> & Ht)%list_elem_of_fmap. apply list_elem_of_In, filter_In in Ht as [_ Hp].
  by rewrite bool_decide_eq_true_2 in Hp.
Qed.

Lemma hasTab_sublist id (p q : TabbedPane) :
  sublist (tabs p) (tabs q) → hasTab id q = false → hasTab id p = false.
Proof.
  intros Hsub Hq. unfold hasTab, tabIds in *.
  apply bool_decide_eq_false_2. apply bool_decide_eq_false_1 in Hq.
  intros (t & -> & Ht)%list_elem_of_fmap. apply Hq. apply list_elem_of_fmap_2.
  by eapply elem_of_sublist.
Qed.

(** [setModel] returns normally in every view. *)
Lemma setModel_spec m t v :
  ∃ v',
    setModel tk m t v = (v', Normal tt)
    ∧ additionalMetricsToolbar v' = footer tk m
    ∧ lazyLayersView v' = None
    ∧ lazyPaintProfilerView v' = None
    ∧ hasTab LayerViewer (tabbedPane v') = false.
Proof.
  rewrite setModel_eq.
  destruct (setSelection_null_total (rebound tk m t v)) as (v1 & -> & Hl & Hp & _ & Hsub).
  eexists. split; [reflexivity|]. simpl. split_and!; [done|done|done|].
  eapply hasTab_sublist; [exact Hsub|]. unfold rebound; simpl. apply hasTab_closePane.
Qed.

(** Claim C6. With a model bound, selecting a frame that carries a layer tree
    returns normally and leaves exactly one LayerViewer tab open, showing the
    cached layers view, to which the tree was given. Selecting such a frame
    again leaves exactly one LayerViewer tab, with the same view instance in
    the tab and in the cache, and constructs no view. After any [setModel]
    the cache is empty and no LayerViewer tab is open. *)
Theorem frame_with_layer_tree_opens_one_layer_viewer
    (v : View) (m : PerformanceModel) (frame frame2 : TimelineFrame)
    (tree tree2 : LayerTree) :
  model v = Some m → layerTree frame = Some tree → layerTree frame2 = Some tree2 →
  ∃ v1 layersView,
    setSelection tk (Some (FrameSelection frame)) v = (v1, Normal tt)
    ∧ layerViewerTabs v1 = [layersTab layersView]
    ∧ lazyLayersView v1 = Some layersView
    ∧ ShowLayerTree layersView tree ∈ journal v1
    ∧ (∃ v2,
         setSelection tk (Some (FrameSelection frame2)) v1 = (v2, Normal tt)
         ∧ layerViewerTabs v2 = [layersTab layersView]
         ∧ lazyLayersView v2 = Some layersView
         ∧ constructed v2 = constructed v1
         ∧ ShowLayerTree layersView tree2 ∈ journal v2)
    ∧ (∀ m' t', ∃ v3,
         setModel tk m' t' v1 = (v3, Normal tt)
         ∧ lazyLayersView v3 = None
         ∧ layerViewerTabs v3 = []).
Proof.
  intros Hm Htree Htree2.
  destruct (setSelection_frame_spec v m frame tree Hm Htree)
    as (v1 & Hrun & Hm1 & Htabs & Hlazy & Hj & _).
  exists v1. eexists. split_and!; [exact Hrun|exact Htabs|exact Hlazy|exact Hj| |].
  - destruct (setSelection_frame_spec v1 m frame2 tree2 Hm1 Htree2)
      as (v2 & Hrun2 & _ & Htabs2 & Hlazy2 & Hj2 & Hc2).
    rewrite Hlazy in Htabs2, Hlazy2, Hj2, Hc2. simpl in *.
    exists v2. split_and!; done.
  - intros m' t'. destruct (setModel_spec m' t' v1) as (v3 & Hrun3 & _ & Hl3 & _ & Hno).
    exists v3. split_and!; [done|done|]. unfold layerViewerTabs.
    unfold hasTab, tabIds in Hno. apply bool_decide_eq_false_1 in Hno.
    induction (tabs (tabbedPane v3)) as [|x l IH]; simpl; [done|].
    case_bool_decide as Hx.
    + exfalso. apply Hno. simpl. rewrite Hx. by left.
    + apply IH. intros Hin. apply Hno. simpl. by right.
Qed.

(** [_paintProfilerView] with a model bound. *)
Lemma paintProfilerView_eq v m :
  model v = Some m →
  _paintProfilerView v =
    match lazyPaintProfilerView v with
    | Some w => (v, Normal w)
    | None =>
        (with_lazyPaintProfilerView
           (Some (PaintProfilerView (constructed v) (frameModel m))) true v,
         Normal (PaintProfilerView (constructed v) (frameModel m)))
    end.
Proof.
  intros Hm. unfold _paintProfilerView, eff_bind, gets, this_model, modify, eff_ret; simpl.
  destruct (lazyPaintProfilerView v); [reflexivity|]. by rewrite Hm.
Qed.

Lemma isPaint_true (event : Event) :
  name event = RecordType_Paint tk ∨ name event = RecordType_RasterTask tk →
  String.eqb (name event) (RecordType_Paint tk)
    || String.eqb (name event) (RecordType_RasterTask tk) = true.
Proof.
  intros [->| ->]; rewrite String.eqb_refl; [reflexivity|apply orb_true_r].
Qed.

(** Without a paint profiler model the reaction to a trace event is
    [_setContent] alone. *)
Lemma appendDetails_without_model event content u :
  paintProfilerModels u = [] →
  _appendDetailsTabsForTraceEventAndShowDetails tk event content u
  = (with_defaultDetailsContent [content] (with_tabbedPane (closeOthers tk) u), Normal tt).
Proof.
  intros Hnone. unfold _appendDetailsTabsForTraceEventAndShowDetails.
  unfold eff_bind at 1. rewrite setContent_eq.
  destruct (_ || _); [|reflexivity].
  unfold _showEventInPaintProfiler, eff_bind, gets; simpl. by rewrite Hnone.
Qed.

Lemma hasTab_appendPane pref id title w c pane :
  hasTab id (appendPane pref id title w c pane) = true.
Proof.
  unfold hasTab, tabIds. apply bool_decide_eq_true_2. rewrite tabs_appendPane, fmap_app.
  apply elem_of_app. right. simpl. by apply list_elem_of_singleton.
Qed.

(** Claim C7. With a model bound, selecting a trace event whose name is Paint
    or RasterTask returns normally, opens no tab by itself and queues one
    reaction. Whenever that reaction runs: without a paint profiler model it
    returns normally, adds no tab and leaves no PaintProfiler tab open; a
    PaintProfiler tab open afterwards implies that a paint profiler model
    exists; and with a paint profiler model, a bound model and profile data
    for the event the PaintProfiler tab is open afterwards. *)
Theorem paint_event_opens_profiler_only_with_model
    (v : View) (m : PerformanceModel) (event : Event) :
  model v = Some m →
  name event = RecordType_Paint tk ∨ name event = RecordType_RasterTask tk →
  ∃ v1 reaction,
    setSelection tk (Some (TraceEventSelection event)) v = (v1, Normal tt)
    ∧ tabbedPane v1 = tabbedPane v
    ∧ pending v1 = pending v ++ [reaction]
    ∧ reaction = ThenAppendDetailsTabs event (TraceEventDetails event (timelineModel m))
    ∧ ∀ u : View,
        (paintProfilerModels u = [] →
           ∃ u', react tk reaction u = (u', Normal tt)
             ∧ sublist (tabs (tabbedPane u')) (tabs (tabbedPane u))
             ∧ hasTab PaintProfiler (tabbedPane u') = false)
        ∧ (hasTab PaintProfiler (tabbedPane (fst (react tk reaction u))) = true →
             ∃ paintProfilerModel, head (paintProfilerModels u) = Some paintProfilerModel)
        ∧ (∀ paintProfilerModel mu,
             head (paintProfilerModels u) = Some paintProfilerModel →
             model u = Some mu →
             setEvent tk
               (default (PaintProfilerView (constructed u) (frameModel mu))
                  (lazyPaintProfilerView u))
               paintProfilerModel event = true →
             ∃ u', react tk reaction u = (u', Normal tt)
               ∧ hasTab PaintProfiler (tabbedPane u') = true).
Proof.
  intros Hm Hkind.
  assert (∀ content u, paintProfilerModels u = [] →
            ∃ u', _appendDetailsTabsForTraceEventAndShowDetails tk event content u
                  = (u', Normal tt)
              ∧ sublist (tabs (tabbedPane u')) (tabs (tabbedPane u))
              ∧ hasTab PaintProfiler (tabbedPane u') = false) as Hnone.
  { intros content u Hu. rewrite appendDetails_without_model by done.
    eexists. split; [reflexivity|]. simpl. split.
    - rewrite tabs_closeOthers. apply sublist_filter.
    - by apply hasTab_closeOthers. }
  assert (∃ v1,
            setSelection tk (Some (TraceEventSelection event)) v = (v1, Normal tt)
            ∧ tabbedPane v1 = tabbedPane v
            ∧ pending v1 = pending v ++
                [ThenAppendDetailsTabs event (TraceEventDetails event (timelineModel m))])
    as (v1 & Hrun & Hpane & Hpending).
  { unfold setSelection, eff_bind, extern, modify, this_model; simpl. rewrite Hm.
    rewrite updateContents_eq. simpl. rewrite Hm.
    destruct (rangeDetailViews_get _); eexists; (split; [reflexivity|]); done. }
  exists v1. eexists. split_and!; [exact Hrun|exact Hpane|exact Hpending|reflexivity|].
  intros u. simpl. split_and!.
  - apply Hnone.
  - intros Hopen. destruct (paintProfilerModels u) as [|p ps] eqn:Hu; [|by exists p].
      destruct (Hnone (TraceEventDetails event (timelineModel m)) u Hu)
        as (u' & Hreact & _ & Hclosed).
      rewrite Hreact in Hopen. simpl in Hopen. congruence.
  - intros ppm mu Hhead Hmu Hdata.
      unfold _appendDetailsTabsForTraceEventAndShowDetails.
      unfold eff_bind at 1. rewrite setContent_eq, (isPaint_true event Hkind).
      unfold _showEventInPaintProfiler. unfold eff_bind at 1, gets at 1. simpl.
      rewrite Hhead. unfold eff_bind at 1.
      erewrite paintProfilerView_eq by (simpl; exact Hmu). simpl.
      destruct (lazyPaintProfilerView u) as [w|]; simpl in *.
      * unfold eff_bind, extern, modify, gets; simpl. rewrite Hdata. simpl.
        rewrite hasTab_closeOthers by done. rewrite appendTab_eq.
        eexists. split; [reflexivity|]. simpl. apply hasTab_appendPane.
      * unfold eff_bind, extern, modify, gets; simpl. rewrite Hdata. simpl.
        rewrite hasTab_closeOthers by done. rewrite appendTab_eq.
        eexists. split; [reflexivity|]. simpl. apply hasTab_appendPane.
Qed.

Lemma append_empty_r (s : string) : s +:+ "" = s.
Proof.
  induction s as [|c s IH]; [done|].
  change (String c s +:+ "") with (String c (s +:+ "")). by rewrite IH.
Qed.

(** The footer message with its two placeholders filled in. *)
Lemma totalBlockingTime_message (x y : string) :
  i18nString UIStrings.totalBlockingTimeSmss [("PH1", x); ("PH2", y)]
  = "Total blocking time: " +:+ x +:+ "ms" +:+ y.
Proof.
  unfold i18nString, UIStrings.totalBlockingTimeSmss. cbn. rewrite append_empty_r.
  reflexivity.
Qed.

Lemma nearest_nonneg f (x : Q) : (0 ≤ Qnum x)%Z → (0 ≤ nearest f x)%Z.
Proof.
  intros Hx. unfold nearest. apply Z.div_pos; [|lia].
  assert (0 ≤ 10 ^ Z.of_nat f)%Z by (apply Z.pow_nonneg; lia). nia.
Qed.

(** [nearest 2 x] is within half a hundredth of [x]. *)
Lemma nearest_close (x : Q) :
  (Qabs (inject_Z 100 * x - inject_Z (nearest 2 x)) <= 1 # 2)%Q.
Proof.
  destruct x as [a b]. unfold nearest. simpl Qnum. simpl Qden.
  change (10 ^ Z.of_nat 2)%Z with 100%Z.
  set (n := ((2 * a * 100 + Z.pos b) / (2 * Z.pos b))%Z).
  assert (2 * Z.pos b * n ≤ 2 * a * 100 + Z.pos b)%Z as Hlo
    by (apply Z.mul_div_le; lia).
  assert (2 * a * 100 + Z.pos b < 2 * Z.pos b * Z.succ n)%Z as Hhi
    by (apply Z.mul_succ_div_gt; lia).
  unfold Qle, Qabs, Qminus, Qplus, Qopp, Qmult, inject_Z. simpl.
  rewrite Pos.mul_1_r. lia.
Qed.

(** The digits [toFixed] prints. *)
Lemma decimal_digits (n : Z) :
  (0 ≤ n)%Z →
  (0 ≤ n / 100 ∧ 0 ≤ (n / 10) mod 10 ≤ 9 ∧ 0 ≤ n mod 10 ≤ 9
   ∧ 100 * (n / 100) + 10 * ((n / 10) mod 10) + n mod 10 = n)%Z.
Proof. intros Hn. Z.div_mod_to_equations. lia. Qed.

(** [toFixed(2)] below [10^21]: sign, whole part, point, two digits. *)
Lemma toFixed_2_fixed (x : Q) :
  (Qabs x < inject_Z (10 ^ 21))%Q →
  toFixed tk 2 x =
    (if (Qnum x <? 0)%Z then "-" else "")
    +:+ pretty (nearest 2 (Qabs x) / 100)%Z
    +:+ "."
    +:+ String (digitChar ((nearest 2 (Qabs x) / 10) mod 10))
          (String (digitChar (nearest 2 (Qabs x) mod 10)) "").
Proof.
  intros Hlt. unfold toFixed.
  destruct (Qle_bool (inject_Z (10 ^ 21)) (Qabs x)) eqn:Hle.
  - apply Qle_bool_iff in Hle. exfalso. by apply (Qlt_not_le _ _ Hlt).
  - unfold fractionDigits. change (10 ^ Z.of_nat 2)%Z with 100%Z.
    change (10 ^ Z.of_nat 1)%Z with 10%Z. change (10 ^ Z.of_nat 0)%Z with 1%Z.
    by rewrite Z.div_1_r.
Qed.

(** Claim C9. For a model whose blocking time [time] is a finite number below
    [10^21] in magnitude, [setModel] returns normally and the footer holds the
    text "Total blocking time: ", the sign, the decimal digits of [whole], a
    point and exactly two digits [d1 d2], then "ms", followed by
    " (estimated)" exactly when the model flags the metric as estimated; the
    number [whole.d1d2] is [|time|] rounded to the nearest hundredth. *)
Theorem setModel_footer_total_blocking_time
    (v : View) (m : PerformanceModel) (t : option Track) (estimated : bool) (time : Q) :
  totalBlockingTime (timelineModel m) = (estimated, time) →
  (Qabs time < inject_Z (10 ^ 21))%Q →
  ∃ (v' : View) (whole d1 d2 : Z),
    setModel tk (Some m) t v = (v', Normal tt)
    ∧ additionalMetricsToolbar v' =
        [ToolbarText
           ("Total blocking time: "
            +:+ ((if (Qnum time <? 0)%Z then "-" else "")
                 +:+ pretty whole +:+ "."
                 +:+ String (digitChar d1) (String (digitChar d2) ""))
            +:+ "ms"
            +:+ (if estimated then " (estimated)" else ""));
         ToolbarLink "https://web.dev/tbt/" "Learn more"]
    ∧ (0 ≤ whole)%Z ∧ (0 ≤ d1 ≤ 9)%Z ∧ (0 ≤ d2 ≤ 9)%Z
    ∧ (Qabs (inject_Z 100 * Qabs time - inject_Z (100 * whole + 10 * d1 + d2)) <= 1 # 2)%Q.
Proof.
  intros Htbt Hrange.
  destruct (setModel_spec (Some m) t v) as (v' & Hrun & Hfooter & _).
  set (n := nearest 2 (Qabs time)).
  assert (0 ≤ n)%Z as Hn.
  { apply nearest_nonneg. destruct time as [a b]. simpl. lia. }
  destruct (decimal_digits n Hn) as (Hw & Hd1 & Hd2 & Hsum).
  exists v', (n / 100)%Z, ((n / 10) mod 10)%Z, (n mod 10)%Z.
  split; [exact Hrun|]. split; [|split; [exact Hw|split; [exact Hd1|split; [exact Hd2|]]]].
  - rewrite Hfooter. unfold footer. rewrite Htbt. simpl fst. simpl snd.
    rewrite totalBlockingTime_message, toFixed_2_fixed by done.
    by destruct estimated.
  - rewrite Hsum. apply nearest_close.
Qed.
End WithToolkit.


(** Claim C8 at a view with a range selected and the window [10, 20]. *)
Lemma setSelection_null_shows_window_stats_witness :
  ∃ v',
    setSelection sampleToolkit None selectedBefore = (v', Normal tt)
    ∧ selection v' = None
    ∧ defaultDetailsContent v' =
        [RangeDetails "Range:  6 ms – 16 ms" (StatsForTimeRange (syncEvents sampleTrack) 10 20)]
    ∧ ∀ view, rangeDetailViews_get (selectedTabId (tabbedPane v')) = Some view →
        last (journal v') = Some (TreeViewUpdateContents view (RangeSelection 10 20)).
Proof.
  apply (setSelection_null_shows_window_stats sampleToolkit selectedBefore
           (sampleModel false 120) sampleTrack).
  - reflexivity.
  - reflexivity.
Defined.

(** Claim C3 as stated fails: with the Summary tab selected, selecting a range
    returns normally and calls no [updateContents]; the only call made is the
    reset of the linkifier. *)
Lemma range_selection_on_summary_tab_updates_no_view :
  snd (setSelection sampleToolkit (Some (RangeSelection 12 15)) (sampleView Details))
    = Normal tt
  ∧ selectedTabId
      (tabbedPane (fst (setSelection sampleToolkit (Some (RangeSelection 12 15))
                          (sampleView Details)))) = Some Details
  ∧ journal (fst (setSelection sampleToolkit (Some (RangeSelection 12 15))
                    (sampleView Details))) = [LinkifierReset]
  ∧ ∀ view s,
      TreeViewUpdateContents view s
      ∉ journal (fst (setSelection sampleToolkit (Some (RangeSelection 12 15))
                        (sampleView Details))).
Proof.
  assert (journal (fst (setSelection sampleToolkit (Some (RangeSelection 12 15))
                          (sampleView Details))) = [LinkifierReset]) as Hj
    by (vm_compute; reflexivity).
  split_and!; [vm_compute; reflexivity|vm_compute; reflexivity|exact Hj|].
  intros view s Hin. rewrite Hj in Hin. apply list_elem_of_singleton in Hin. discriminate Hin.
Qed.

(** Claim C3, amended, with the Call Tree tab selected. *)
Lemma setSelection_refreshes_selected_range_view_witness :
  ∃ v' calls,
    setSelection sampleToolkit (Some (RangeSelection 12 15)) (sampleView CallTree)
      = (v', Normal tt)
    ∧ journal v' = journal (sampleView CallTree) ++ calls
    ∧ match rangeDetailViews_get (selectedTabId (tabbedPane v')) with
      | Some view =>
          ∃ before,
            calls = before ++
              [TreeViewUpdateContents view
                 (default (RangeSelection 10 20) (Some (RangeSelection 12 15)))]
            ∧ ∀ c, c ∈ before → ¬ isUpdate c
      | None => ∀ c, c ∈ calls → ¬ isUpdate c
      end.
Proof.
  apply (setSelection_refreshes_selected_range_view sampleToolkit (sampleView CallTree)
           (Some (RangeSelection 12 15)) (sampleModel false 120)).
  reflexivity.
Defined.

(** Claim C6 at two frames with layer trees. *)
Lemma frame_with_layer_tree_opens_one_layer_viewer_witness :
  ∃ v1 layersView,
    setSelection sampleToolkit (Some (FrameSelection sampleFrame)) (sampleView Details)
      = (v1, Normal tt)
    ∧ layerViewerTabs v1 = [layersTab layersView]
    ∧ lazyLayersView v1 = Some layersView
    ∧ ShowLayerTree layersView {| layerTreeId := 3 |} ∈ journal v1
    ∧ (∃ v2,
         setSelection sampleToolkit (Some (FrameSelection otherFrame)) v1 = (v2, Normal tt)
         ∧ layerViewerTabs v2 = [layersTab layersView]
         ∧ lazyLayersView v2 = Some layersView
         ∧ constructed v2 = constructed v1
         ∧ ShowLayerTree layersView {| layerTreeId := 4 |} ∈ journal v2)
    ∧ (∀ m' t', ∃ v3,
         setModel sampleToolkit m' t' v1 = (v3, Normal tt)
         ∧ lazyLayersView v3 = None
         ∧ layerViewerTabs v3 = []).
Proof.
  apply (frame_with_layer_tree_opens_one_layer_viewer sampleToolkit (sampleView Details)
           (sampleModel false 120) sampleFrame otherFrame).
  - reflexivity.
  - reflexivity.
  - reflexivity.
Defined.

(** Claim C7 at a Paint event. *)
Lemma paint_event_opens_profiler_only_with_model_witness :
  ∃ v1 reaction,
    setSelection sampleToolkit (Some (TraceEventSelection paintEvent)) (sampleView Details)
      = (v1, Normal tt)
    ∧ tabbedPane v1 = tabbedPane (sampleView Details)
    ∧ pending v1 = pending (sampleView Details) ++ [reaction]
    ∧ ∀ u : View,
        paintProfilerModels u = [] →
        ∃ u', react sampleToolkit reaction u = (u', Normal tt)
          ∧ sublist (tabs (tabbedPane u')) (tabs (tabbedPane u))
          ∧ hasTab PaintProfiler (tabbedPane u') = false.
Proof.
  destruct (paint_event_opens_profiler_only_with_model sampleToolkit (sampleView Details)
              (sampleModel false 120) paintEvent)
    as (v1 & reaction & Hrun & Hpane & Hpending & _ & Hlater).
  - reflexivity.
  - left. reflexivity.
  - exists v1, reaction. split; [exact Hrun|]. split; [exact Hpane|].
    split; [exact Hpending|]. intros u. exact (proj1 (Hlater u)).
Defined.

(** Claim C9 at an estimated blocking time of 120 ms. *)
Lemma setModel_footer_total_blocking_time_witness :
  ∃ (v' : View) (whole d1 d2 : Z),
    setModel sampleToolkit (Some (sampleModel true 120)) (Some sampleTrack) (sampleView Details)
      = (v', Normal tt)
    ∧ additionalMetricsToolbar v' =
        [ToolbarText
           ("Total blocking time: "
            +:+ ((if (Qnum 120 <? 0)%Z then "-" else "")
                 +:+ pretty whole +:+ "."
                 +:+ String (digitChar d1) (String (digitChar d2) ""))
            +:+ "ms"
            +:+ (if true then " (estimated)" else ""));
         ToolbarLink "https://web.dev/tbt/" "Learn more"]
    ∧ (0 ≤ whole)%Z ∧ (0 ≤ d1 ≤ 9)%Z ∧ (0 ≤ d2 ≤ 9)%Z
    ∧ (Qabs (inject_Z 100 * Qabs 120 - inject_Z (100 * whole + 10 * d1 + d2)) <= 1 # 2)%Q.
Proof.
  apply (setModel_footer_total_blocking_time sampleToolkit (sampleView Details)
           (sampleModel true 120) (Some sampleTrack) true 120).
  - reflexivity.
  - reflexivity.
Defined.

Example footer_120 :
  additionalMetricsToolbar
    (fst (setModel sampleToolkit (Some (sampleModel false 120)) (Some sampleTrack)
            (sampleView Details)))
  = [ToolbarText "Total blocking time: 120.00ms";
     ToolbarLink "https://web.dev/tbt/" "Learn more"].
Proof. vm_compute. reflexivity. Qed.

Example footer_120_estimated :
  additionalMetricsToolbar
    (fst (setModel sampleToolkit (Some (sampleModel true 120)) (Some sampleTrack)
            (sampleView Details)))
  = [ToolbarText "Total blocking time: 120.00ms (estimated)";
     ToolbarLink "https://web.dev/tbt/" "Learn more"].
Proof. vm_compute. reflexivity. Qed.

Example footer_rounds_half_up :
  toFixed sampleToolkit 2 (32023 # 100) = "320.23"
  ∧ toFixed sampleToolkit 2 (1 # 200) = "0.01"
  ∧ toFixed sampleToolkit 2 (1 # 250) = "0.00".
Proof. vm_compute. done. Qed.

End TimelineDetailsViewFacts.

(** * More of the two files *)

(** ** The setting registry *)

Module SettingRegistrationMore.
Import SettingRegistration SettingRegistrationFacts.

(** A loop that returns normally on a first part goes on with the rest. *)
Lemma for_of_app {S E A} (xs ys : list A) (body : A → Eff S E unit) st st' :
  for_of xs body st = (st', Normal tt) →
  for_of (xs ++ ys) body st = for_of ys body st'.
Proof.
  revert st. induction xs as [|x xs IH]; intros st H; simpl in *.
  - by inversion H.
  - unfold eff_bind in *. destruct (body x st) as [st1 [[]|e]]; [|done]. by apply IH.
Qed.

(** A call that throws ends the calls after it. *)
Lemma bind_throw {S E A B} (c : Eff S E A) (k : A → Eff S E B) st st' e :
  c st = (st', Throw e) → eff_bind c k st = (st', Throw e).
Proof. intros H. unfold eff_bind. by rewrite H. Qed.

(** The loop of [registerSettingExtengionsForTest] never writes the list. *)
Lemma rebuild_keeps_list l : ∀ st,
  registeredSettings (fst (rebuild l st)) = registeredSettings st.
Proof.
  induction l as [|d l IH]; intros st; [done|].
  rewrite rebuild_cons. case_bool_decide; [done|]. by rewrite IH.
Qed.

(** Extra X1. Registering a list of descriptors one after the other from the
    initial registry stops with the duplicate-name error at the first
    descriptor whose name was registered before it; the descriptors before
    it, and only they, are registered, and the registry is consistent. *)
Theorem registering_stops_at_first_repeat
    (pre post : list SettingRegistration) (d : SettingRegistration) :
  NoDup (names pre) → settingName d ∈ names pre →
  ∃ st,
    for_of (pre ++ d :: post) registerSettingExtension initial
      = (st, Throw (duplicateSettingName (settingName d)))
    ∧ registeredSettings st = pre
    ∧ settingNameSet st = list_to_set (names pre)
    ∧ consistent st.
Proof.
  intros Hnd Hin.
  assert (for_of pre registerSettingExtension initial
          = ({| registeredSettings := pre; settingNameSet := list_to_set (names pre) |},
             Normal tt)) as Hpre.
  { rewrite (register_all pre initial Hnd) by (simpl; set_solver).
    f_equal. apply registry_eq; simpl; [done|set_solver]. }
  rewrite (for_of_app pre (d :: post) _ initial _ Hpre). simpl.
  assert (registerSettingExtension d
            {| registeredSettings := pre; settingNameSet := list_to_set (names pre) |}
          = ({| registeredSettings := pre; settingNameSet := list_to_set (names pre) |},
             Throw (duplicateSettingName (settingName d)))) as Hthrow.
  { apply register_has. simpl. by apply elem_of_list_to_set. }
  rewrite (bind_throw _ _ _ _ _ Hthrow).
  eexists. split; [reflexivity|]. simpl. split; [done|]. split; [done|].
  split; simpl; [done|]. intros n. by rewrite elem_of_list_to_set.
Qed.

(** Extra X1 at [a; b; a; c]. *)
Lemma registering_stops_at_first_repeat_witness :
  ∃ st,
    for_of ([descriptor "a"; descriptor "b"] ++ descriptor "a" :: [descriptor "c"])
        registerSettingExtension initial
      = (st, Throw (duplicateSettingName "a"))
    ∧ registeredSettings st = [descriptor "a"; descriptor "b"]
    ∧ settingNameSet st = list_to_set (names [descriptor "a"; descriptor "b"])
    ∧ consistent st.
Proof.
  apply (registering_stops_at_first_repeat [descriptor "a"; descriptor "b"]
           [descriptor "c"] (descriptor "a")).
  - by_compute.
  - by_compute.
Defined.

(** Extra X2. After [registerSettingExtengionsForTest] has thrown on a
    repeated name, the name set lacks the names that come after the repeat:
    [registerSettingExtension] then accepts a descriptor whose name the list
    already holds and appends it, and the registry is inconsistent before and
    after. *)
Theorem register_after_failed_rebuild_accepts_listed_name
    (st : Registry) (pre post : list SettingRegistration) (d r : SettingRegistration)
    (forceReset : bool) :
  registeredSettings st = [] ∨ forceReset = true →
  NoDup (names pre) → settingName d ∈ names pre →
  settingName r ∈ names post → settingName r ∉ names pre →
  ∃ st1 st2,
    registerSettingExtengionsForTest (pre ++ d :: post) forceReset st
      = (st1, Throw (duplicateSettingName (settingName d)))
    ∧ settingName r ∈ names (registeredSettings st1)
    ∧ registerSettingExtension r st1 = (st2, Normal tt)
    ∧ registeredSettings st2 = (pre ++ d :: post) ++ [r]
    ∧ ¬ consistent st1 ∧ ¬ consistent st2.
Proof.
  intros Hgo Hnd Hd Hr Hfresh.
  rewrite forTest_rebuilds by done.
  assert (rebuild (pre ++ d :: post)
            {| registeredSettings := pre ++ d :: post; settingNameSet := ∅ |}
          = ({| registeredSettings := pre ++ d :: post;
                settingNameSet := list_to_set (names pre) |},
             Throw (duplicateSettingName (settingName d)))) as Hrun.
  { unfold rebuild.
    erewrite for_of_app; [|apply (rebuild_distinct pre); [done|simpl; set_solver]].
    change (for_of (d :: post) _) with (rebuild (d :: post)).
    rewrite rebuild_cons. simpl. rewrite bool_decide_eq_true_2 by set_solver.
    f_equal. apply registry_eq; simpl; [done|set_solver]. }
  rewrite Hrun.
  assert (¬ NoDup (names (pre ++ d :: post))) as Hdup.
  { unfold names. rewrite fmap_app. simpl. intros [_ [Hx _]]%NoDup_app.
    apply (Hx (settingName d)); [done|]. by left. }
  eexists _, _. split_and!; [reflexivity| | | | |].
  - simpl. unfold names in *. rewrite fmap_app. simpl. set_solver.
  - apply register_fresh. simpl. rewrite elem_of_list_to_set. done.
  - reflexivity.
  - intros [Hx _]. by apply Hdup.
  - intros [Hx _]. simpl in Hx. apply Hdup. unfold names in *.
    rewrite fmap_app in Hx. by apply NoDup_app in Hx as [? _].
Qed.

(** Extra X2 at [a; a; b] forced onto the registry holding [b]. *)
Lemma register_after_failed_rebuild_accepts_listed_name_witness :
  ∃ st1 st2,
    registerSettingExtengionsForTest
        ([descriptor "a"] ++ descriptor "a" :: [descriptor "b"]) true registryB
      = (st1, Throw (duplicateSettingName "a"))
    ∧ "b" ∈ names (registeredSettings st1)
    ∧ registerSettingExtension (descriptor "b") st1 = (st2, Normal tt)
    ∧ registeredSettings st2
        = ([descriptor "a"] ++ descriptor "a" :: [descriptor "b"]) ++ [descriptor "b"]
    ∧ ¬ consistent st1 ∧ ¬ consistent st2.
Proof.
  apply (register_after_failed_rebuild_accepts_listed_name registryB [descriptor "a"]
           [descriptor "b"] (descriptor "a") (descriptor "b") true).
  - right. reflexivity.
  - by_compute.
  - by_compute.
  - by_compute.
  - apply (bool_decide_eq_false_1 _). vm_compute. reflexivity.
Defined.

(** Extra X3. After a call of [registerSettingExtengionsForTest] without
    [forceReset] and with a non-empty list, whether it returned or threw,
    every further call without [forceReset] returns normally and changes
    nothing. *)
Theorem unforced_rebuild_is_final
    (st : Registry) (first second : list SettingRegistration) :
  first ≠ [] →
  registerSettingExtengionsForTest second false
      (fst (registerSettingExtengionsForTest first false st))
    = (fst (registerSettingExtengionsForTest first false st), Normal tt).
Proof.
  intros Hne. apply forTest_skips.
  destruct (decide (registeredSettings st = [])) as [Hempty|Hfull].
  - rewrite forTest_rebuilds by (by left). by rewrite rebuild_keeps_list.
  - by rewrite forTest_skips.
Qed.

(** Extra X3 after a first call that throws. *)
Lemma unforced_rebuild_is_final_witness :
  registerSettingExtengionsForTest [descriptor "z"] false
      (fst (registerSettingExtengionsForTest [descriptor "a"; descriptor "a"] false initial))
    = (fst (registerSettingExtengionsForTest [descriptor "a"; descriptor "a"] false initial),
       Normal tt).
Proof.
  apply (unforced_rebuild_is_final initial [descriptor "a"; descriptor "a"] [descriptor "z"]).
  discriminate.
Defined.

(** Extra X4. In a registry reached by calls that all returned normally,
    [getRegisteredSettings] leaves the registry as it is and returns, in the
    order of the list, exactly the registered descriptors that the gating
    predicate enables; their names are pairwise distinct. *)
Theorem getRegisteredSettings_returns_distinct_enabled
    (cs : list Call) (st : Registry)
    (isDescriptorEnabled : option string → option string → bool) :
  calls cs initial = (st, Normal tt) →
  ∃ l,
    getRegisteredSettings isDescriptorEnabled st = (st, Normal l)
    ∧ NoDup (names l)
    ∧ l `sublist_of` registeredSettings st
    ∧ ∀ d, d ∈ l ↔ d ∈ registeredSettings st
                    ∧ isDescriptorEnabled (experiment d) (condition d) = true.
Proof.
  intros Hrun.
  destruct (calls_consistent cs initial st consistent_initial Hrun) as [Hnd _].
  eexists. split; [reflexivity|].
  assert (∀ (f : SettingRegistration → bool) l, List.filter f l `sublist_of` l) as Hsub.
  { intros f l. induction l as [|x l IH]; simpl; [constructor|].
    destruct (f x); by constructor. }
  split_and!.
  - eapply sublist_NoDup; [exact Hnd|]. unfold names. apply fmap_sublist, Hsub.
  - apply Hsub.
  - intros d. rewrite !list_elem_of_In, filter_In. done.
Qed.

(** Extra X4 after [sampleCalls]. *)
Lemma getRegisteredSettings_returns_distinct_enabled_witness :
  ∃ l,
    getRegisteredSettings (onlyExperiment "e1") (fst (calls sampleCalls initial))
      = (fst (calls sampleCalls initial), Normal l)
    ∧ NoDup (names l)
    ∧ l `sublist_of` registeredSettings (fst (calls sampleCalls initial))
    ∧ ∀ d, d ∈ l ↔ d ∈ registeredSettings (fst (calls sampleCalls initial))
                    ∧ onlyExperiment "e1" (experiment d) (condition d) = true.
Proof.
  apply (getRegisteredSettings_returns_distinct_enabled sampleCalls).
  vm_compute. reflexivity.
Defined.

(** Extra X5. When [ls] is injective and gives no empty string for a
    non-empty one, [getLocalizedSettingsCategory] returns the empty string
    for [NONE] and for no other category, as the value of [NONE] is the only
    empty one, and it gives different categories different labels. *)
Theorem category_labels_tell_categories_apart (ls : string → string) :
  (∀ s, s ≠ "" → ls s ≠ "") → (∀ s s', ls s = ls s' → s = s') →
  (∀ c, getLocalizedSettingsCategory ls c = "" ↔ c = NONE)
  ∧ (∀ c, categoryValue c = "" ↔ c = NONE)
  ∧ (∀ c c', getLocalizedSettingsCategory ls c = getLocalizedSettingsCategory ls c' →
             c = c').
Proof.
  intros Hne Hinj. split_and!.
  - intros c. split; [|by intros ->].
    destruct c; simpl; try done; intros H; by apply Hne in H.
  - intros c. split; [|by intros ->]. by destruct c.
  - intros c c' Heq.
    destruct c, c'; simpl in Heq; try reflexivity;
      first [ apply Hinj in Heq; discriminate Heq
            | symmetry in Heq; by apply Hne in Heq
            | by apply Hne in Heq ].
Qed.

(** Extra X5 with the source strings themselves as labels. *)
Lemma category_labels_tell_categories_apart_witness :
  (∀ c, getLocalizedSettingsCategory (λ s, s) c = "" ↔ c = NONE)
  ∧ (∀ c, categoryValue c = "" ↔ c = NONE)
  ∧ (∀ c c', getLocalizedSettingsCategory (λ s, s) c
             = getLocalizedSettingsCategory (λ s, s) c' → c = c').
Proof.
  apply (category_labels_tell_categories_apart (λ s, s)).
  - intros s Hs. exact Hs.
  - intros s s' Hs. exact Hs.
Defined.
End SettingRegistrationMore.

(** ** The details view *)

Module TimelineDetailsViewMore.
Import TimelineDetailsView TimelineDetailsViewFacts.

Section More.
Variable tk : Toolkit.

(** *** Steps from a view to a later one *)

(** [later] is reflexive and transitive, and its flags can be dropped. *)
Lemma later_refl q p v : later q p v v.
Proof.
  unfold later, keepsTabs, quiet. split; [by split_and!|]. split; [|done].
  intros _. split; [done|]. exists []. split; [by rewrite app_nil_r|]. by intros c ?%elem_of_nil.
Qed.

Lemma later_trans q p v1 v2 v3 : later q p v1 v2 → later q p v2 v3 → later q p v1 v3.
Proof.
  intros ((N1 & C1 & P1) & Q1 & R1) ((N2 & C2 & P2) & Q2 & R2).
  unfold later, keepsTabs, quiet. split; [split_and!; auto|]. split.
  - intros Hq. destruct (Q1 Hq) as (M1 & e1 & J1 & L1), (Q2 Hq) as (M2 & e2 & J2 & L2).
    split; [congruence|]. exists (e1 ++ e2). split; [by rewrite J2, J1, app_assoc|].
    intros c [?|?]%elem_of_app; auto.
  - intros Hp. by rewrite R2, R1.
Qed.

Lemma later_weaken q p q' p' v v' :
  (q' = true → q = true) → (p' = true → p = true) → later q p v v' → later q' p' v v'.
Proof. intros Hq Hp (T & Q & R). unfold later. split; [done|]. split; auto. Qed.

(** A later view with the same caches, journal, model and preferred tab,
    whose tabs are some of the earlier ones, the persistent ones among them. *)
Lemma later_shrink q p v v' :
  tabs (tabbedPane v') `sublist_of` tabs (tabbedPane v) →
  (∀ t, t ∈ tabs (tabbedPane v) → persistent t = true → t ∈ tabs (tabbedPane v')) →
  lazyLayersView v' = lazyLayersView v →
  lazyPaintProfilerView v' = lazyPaintProfilerView v →
  journal v' = journal v →
  modelId <$> model v' = modelId <$> model v →
  preferredTabId v' = preferredTabId v →
  later q p v v'.
Proof.
  intros Hsub Hkeep Hl Hp Hj Hm Hpref. unfold later, keepsTabs, quiet.
  split; [split_and!|split].
  - intros Hnd. eapply sublist_NoDup; [exact Hnd|]. unfold tabIds. by apply fmap_sublist.
  - intros Hc t Ht. rewrite Hl, Hp. apply Hc. by eapply elem_of_sublist.
  - exact Hkeep.
  - intros _. split; [done|]. exists []. rewrite app_nil_r. split; [done|].
    by intros c ?%elem_of_nil.
  - done.
Qed.

(** The writes the methods are made of, one by one. *)
Lemma later_journal q p c v :
  ¬ isListenerCall c → later q p v (with_journal (λ j, j ++ [c]) v).
Proof.
  intros Hc. unfold later, keepsTabs, quiet. split; [by split_and!|split; [|done]].
  intros _. split; [done|]. exists [c]. split; [done|].
  by intros c' ->%list_elem_of_singleton.
Qed.

Lemma later_journal_any p f v : later false p v (with_journal f v).
Proof. unfold later, keepsTabs. split; [by split_and!|split; done]. Qed.

Lemma later_model_any p x v : later false p v (with_model x v).
Proof. unfold later, keepsTabs. split; [by split_and!|split; done]. Qed.

Lemma later_preferred q x v : later q false v (with_preferredTabId x v).
Proof.
  unfold later, keepsTabs, quiet. split; [by split_and!|split; [|done]].
  intros _. split; [done|]. exists []. rewrite app_nil_r. split; [done|].
  by intros c ?%elem_of_nil.
Qed.

Lemma later_append q p pref id title w c v :
  hasTab id (tabbedPane v) = false →
  (id = LayerViewer → lazyLayersView v = Some w) →
  (id = PaintProfiler → lazyPaintProfilerView v = Some w) →
  later q p v (with_tabbedPane (appendPane pref id title w c) v).
Proof.
  intros Hno Hl Hp. unfold later, keepsTabs, quiet. split; [split_and!|split; [|done]].
  - intros Hnd. simpl. unfold tabIds. rewrite tabs_appendPane, fmap_app. simpl.
    apply NoDup_app. split_and!; [done| |apply NoDup_singleton].
    intros x Hx ->%list_elem_of_singleton. unfold hasTab in Hno.
    by apply bool_decide_eq_false_1 in Hno.
  - intros Hc t. simpl. rewrite tabs_appendPane.
    intros [Ht| ->%list_elem_of_singleton]%elem_of_app; [by apply Hc|]. simpl. done.
  - intros t Ht _. simpl. rewrite tabs_appendPane. apply elem_of_app. by left.
  - intros _. split; [done|]. exists []. rewrite app_nil_r. split; [done|].
    by intros c' ?%elem_of_nil.
Qed.

Lemma later_lazyLayers_new q p w v :
  lazyLayersView v = None → later q p v (with_lazyLayersView (Some w) true v).
Proof.
  intros Hnone. unfold later, keepsTabs, quiet. split; [split_and!|split; [|done]]; try done.
  - intros Hc t Ht. destruct (Hc t Ht) as [Hl Hp]. split; [|done].
    intros Hid. rewrite Hnone in Hl. by specialize (Hl Hid).
  - intros _. split; [done|]. exists []. rewrite app_nil_r. split; [done|].
    by intros c' ?%elem_of_nil.
Qed.

Lemma later_lazyPaint_new q p w v :
  lazyPaintProfilerView v = None → later q p v (with_lazyPaintProfilerView (Some w) true v).
Proof.
  intros Hnone. unfold later, keepsTabs, quiet. split; [split_and!|split; [|done]]; try done.
  - intros Hc t Ht. destruct (Hc t Ht) as [Hl Hp]. split; [done|].
    intros Hid. rewrite Hnone in Hp. by specialize (Hp Hid).
  - intros _. split; [done|]. exists []. rewrite app_nil_r. split; [done|].
    by intros c' ?%elem_of_nil.
Qed.

Lemma no_tab (id : Tab) (pane : TabbedPane) t :
  hasTab id pane = false → t ∈ tabs pane → tabId t ≠ id.
Proof.
  intros Hno Ht Hid. unfold hasTab in Hno. apply bool_decide_eq_false_1 in Hno.
  apply Hno. unfold tabIds. rewrite <- Hid. by apply list_elem_of_fmap_2.
Qed.

Lemma later_lazyLayers_none q p v :
  hasTab LayerViewer (tabbedPane v) = false → later q p v (with_lazyLayersView None false v).
Proof.
  intros Hno. unfold later, keepsTabs, quiet. split; [split_and!|split; [|done]]; try done.
  - intros Hc t Ht. destruct (Hc t Ht) as [Hl Hp]. split; [|done].
    intros Hid. by destruct (no_tab _ _ _ Hno Ht).
  - intros _. split; [done|]. exists []. rewrite app_nil_r. split; [done|].
    by intros c' ?%elem_of_nil.
Qed.

Lemma later_lazyPaint_none q p v :
  hasTab PaintProfiler (tabbedPane v) = false →
  later q p v (with_lazyPaintProfilerView None false v).
Proof.
  intros Hno. unfold later, keepsTabs, quiet. split; [split_and!|split; [|done]]; try done.
  - intros Hc t Ht. destruct (Hc t Ht) as [Hl Hp]. split; [done|].
    intros Hid. by destruct (no_tab _ _ _ Hno Ht).
  - intros _. split; [done|]. exists []. rewrite app_nil_r. split; [done|].
    by intros c' ?%elem_of_nil.
Qed.

Lemma persistent_in_filter (f : TabbedPaneTab → bool) l t :
  t ∈ l → f t = true → t ∈ List.filter f l.
Proof. intros Ht Hf. apply list_elem_of_In, filter_In. split; [by apply list_elem_of_In|done]. Qed.

Lemma later_closeOthers q p v : later q p v (with_tabbedPane (closeOthers tk) v).
Proof.
  apply later_shrink; try done; simpl; rewrite tabs_closeOthers.
  - apply sublist_filter.
  - intros t Ht Hp. by apply persistent_in_filter.
Qed.

Lemma later_closePane q p id v :
  id ≠ Details → rangeDetailViews_has id = false →
  later q p v (with_tabbedPane (closePane tk id) v).
Proof.
  intros Hd Hr. apply later_shrink; try done; simpl; rewrite tabs_closePane.
  - apply sublist_filter.
  - intros t Ht Hp. apply persistent_in_filter; [done|].
    apply negb_true_iff, bool_decide_eq_false_2. intros Heq. unfold persistent in Hp.
    rewrite Heq, Hr, (bool_decide_eq_false_2 _ Hd) in Hp. discriminate Hp.
Qed.

Lemma later_showTab q p x v : later q p v (with_tabbedPane (showTab x) v).
Proof. by apply later_shrink. Qed.

Lemma later_selection q p x v : later q p v (with_selection x v).
Proof. by apply later_shrink. Qed.
Lemma later_pending q p f v : later q p v (with_pending f v).
Proof. by apply later_shrink. Qed.
Lemma later_content q p x v : later q p v (with_defaultDetailsContent x v).
Proof. by apply later_shrink. Qed.
Lemma later_toolbar q p f v : later q p v (with_additionalMetricsToolbar f v).
Proof. by apply later_shrink. Qed.
Lemma later_track q p x v : later q p v (with_track x v).
Proof. by apply later_shrink. Qed.
Lemma later_window q p w m v :
  model v = Some m → later q p v (with_model (Some (setWindow w m)) v).
Proof. intros Hm. apply later_shrink; try done. simpl. by rewrite Hm. Qed.

(** Side conditions of a step: a tab that is not open, a cache that is
    empty or holds the view. *)
Ltac later_side :=
  first
    [ done
    | by apply hasTab_closeOthers
    | simpl; done
    | simpl; by apply hasTab_closeOthers
    | simpl; assumption
    | intros; simpl; first [done | assumption | congruence] ].

(** One write. *)
Ltac later_step :=
  first
    [ apply later_journal; simpl; tauto
    | apply later_selection
    | apply later_pending
    | apply later_content
    | apply later_toolbar
    | apply later_track
    | apply later_closeOthers
    | apply later_closePane; done
    | apply later_showTab
    | apply later_preferred
    | apply later_journal_any
    | apply later_model_any
    | apply later_lazyLayers_new; later_side
    | apply later_lazyPaint_new; later_side
    | apply later_lazyLayers_none; later_side
    | apply later_lazyPaint_none; later_side
    | apply later_append; later_side ].

(** A view reached by a chain of writes. *)
Ltac later_chain :=
  repeat first [ apply later_refl | eapply later_trans; [|later_step] ].

(** *** Every method leads to a later view, also when it throws *)
Lemma later_setContent q p node v : later q p v (fst (_setContent tk node v)).
Proof. rewrite setContent_eq. simpl. later_chain. Qed.

Lemma later_updateContents q p v : later q p v (fst (_updateContents v)).
Proof.
  rewrite updateContents_eq. repeat case_match; simpl; later_chain.
Qed.

Lemma later_setSelection sel v : later true true v (fst (setSelection tk sel v)).
Proof.
  destruct (model v) as [m|] eqn:Hm.
  - destruct sel as [[event|frame|request|startTime endTime]|].
    + unfold setSelection, eff_bind, extern, modify, this_model; simpl. rewrite Hm.
      rewrite updateContents_eq. simpl. rewrite Hm.
      repeat case_match; simpl; later_chain.
    + destruct (layerTree frame) as [tree|] eqn:Htree.
      * rewrite (setSelection_frame_eq tk v m frame tree Hm Htree), updateContents_eq.
        unfold frameShown.
        destruct (lazyLayersView v) eqn:Hlazy; repeat case_match; simpl; later_chain.
      * unfold setSelection, eff_bind at 1 2 3, extern, modify; simpl.
        unfold eff_bind at 1, this_model; simpl. rewrite Hm.
        unfold eff_bind at 1. rewrite setContent_eq, Htree. simpl.
        rewrite updateContents_eq. repeat case_match; simpl; later_chain.
    + unfold setSelection, eff_bind, extern, modify, this_model; simpl. rewrite Hm.
      rewrite updateContents_eq. simpl. rewrite Hm.
      repeat case_match; simpl; later_chain.
    + unfold setSelection, _updateSelectedRangeStats, eff_bind, extern, modify, gets; simpl.
      rewrite Hm. destruct (track v); simpl.
      * rewrite setContent_eq. simpl. rewrite updateContents_eq.
        repeat case_match; simpl; later_chain.
      * rewrite updateContents_eq. repeat case_match; simpl; later_chain.
    + rewrite (setSelection_null_eq tk v m Hm), updateContents_eq.
      destruct (track v); repeat case_match; simpl; later_chain.
  - destruct sel as [[event|frame|request|startTime endTime]|].
    + unfold setSelection, eff_bind, extern, modify, this_model; simpl. rewrite Hm.
      simpl. later_chain.
    + unfold setSelection, eff_bind, extern, modify, this_model; simpl. rewrite Hm.
      simpl. later_chain.
    + unfold setSelection, eff_bind, extern, modify, this_model; simpl. rewrite Hm.
      simpl. later_chain.
    + unfold setSelection, _updateSelectedRangeStats, eff_bind, extern, modify, gets; simpl.
      rewrite Hm. simpl. rewrite updateContents_eq. simpl. rewrite Hm.
      repeat case_match; simpl; later_chain.
    + unfold setSelection, _updateContentsFromWindow, eff_bind, extern, modify, gets; simpl.
      rewrite Hm, setContent_eq. simpl. later_chain.
Qed.

Lemma later_react r v : later true true v (fst (react tk r v)).
Proof.
  destruct r as [event fragment|fragment]; simpl; [|apply later_setContent].
  unfold _appendDetailsTabsForTraceEventAndShowDetails.
  unfold eff_bind at 1. rewrite setContent_eq.
  destruct (_ || _); [|simpl; later_chain].
  unfold _showEventInPaintProfiler. unfold eff_bind at 1, gets at 1. simpl.
  destruct (head (paintProfilerModels v)) as [ppm|]; [|simpl; later_chain].
  unfold eff_bind at 1.
  destruct (model v) as [m|] eqn:Hm.
  - erewrite paintProfilerView_eq by (simpl; exact Hm). simpl.
    destruct (lazyPaintProfilerView v) as [w|] eqn:Hlazy; simpl;
      unfold eff_bind, extern, modify, gets; simpl;
      destruct (setEvent tk _ ppm event); simpl;
      rewrite ?hasTab_closeOthers by done; rewrite ?appendTab_eq; simpl; later_chain.
  - unfold _paintProfilerView, eff_bind, gets, this_model, eff_ret; simpl.
    destruct (lazyPaintProfilerView v) as [w|] eqn:Hlazy; simpl.
    + unfold extern, modify; simpl.
      destruct (setEvent tk _ ppm event); simpl;
      rewrite ?hasTab_closeOthers by done; rewrite ?appendTab_eq; simpl; later_chain.
    + rewrite Hm. simpl. later_chain.
Qed.

Lemma later_settle v : later true true v (fst (settle tk v)).
Proof.
  unfold settle, eff_bind, gets, modify; simpl.
  destruct (pending v) as [|r rest]; simpl; [apply later_refl|].
  eapply later_trans; [|apply later_react]. apply later_pending.
Qed.

Lemma later_onWindowChanged v : later true true v (fst (_onWindowChanged tk v)).
Proof.
  unfold _onWindowChanged, eff_bind, gets; simpl.
  destruct (selection v); simpl; [apply later_refl|].
  unfold _updateContentsFromWindow, eff_bind, gets; simpl.
  destruct (model v) as [m|] eqn:Hm; [|apply later_setContent].
  unfold _updateSelectedRangeStats, eff_bind, gets; simpl. rewrite Hm.
  destruct (track v); simpl.
  - rewrite setContent_eq. simpl. rewrite updateContents_eq.
    repeat case_match; simpl; later_chain.
  - rewrite updateContents_eq. repeat case_match; simpl; later_chain.
Qed.

Lemma later_selectTab id g v :
  later true (negb g) v (fst (tabbedPane_selectTab id g v)).
Proof.
  unfold tabbedPane_selectTab, eff_bind, gets, modify; simpl.
  destruct (_ && _); simpl; [|apply later_refl].
  unfold _tabSelected. destruct g; simpl.
  - unfold eff_bind, setPreferredTab, modify; simpl. rewrite updateContents_eq.
    repeat case_match; simpl; later_chain.
  - later_chain.
Qed.

Lemma later_showSnapshot snapshot v :
  later true false v (fst (_showSnapshotInPaintProfiler snapshot v)).
Proof.
  unfold _showSnapshotInPaintProfiler. unfold eff_bind at 1.
  assert (∀ w u, lazyPaintProfilerView u = Some w →
            later true false u
              (fst ((extern (PaintProfilerSetSnapshot w snapshot) ;;
                     do has <- gets (λ v, hasTab PaintProfiler (tabbedPane v));
                     (if negb has
                      then _appendTab PaintProfiler UIStrings.paintProfiler w (Some true)
                      else eff_ret tt) ;;
                     tabbedPane_selectTab PaintProfiler true) u))) as Hrest.
  { intros w u Hu. unfold eff_bind at 1, extern, modify. simpl.
    unfold eff_bind at 1, gets. simpl.
    destruct (hasTab PaintProfiler (tabbedPane u)) eqn:Hhas; simpl.
    - unfold eff_bind, eff_ret. simpl.
      eapply later_trans; [|apply (later_selectTab PaintProfiler true)]. later_chain.
    - unfold eff_bind. rewrite appendTab_eq. simpl.
      eapply later_trans; [|apply (later_selectTab PaintProfiler true)]. later_chain. }
  destruct (model v) as [m|] eqn:Hm.
  - rewrite (paintProfilerView_eq v m Hm).
    destruct (lazyPaintProfilerView v) as [w|] eqn:Hlazy.
    + by apply Hrest.
    + eapply later_trans; [|apply Hrest; reflexivity]. later_chain.
  - unfold _paintProfilerView, eff_bind at 1, gets at 1.
    destruct (lazyPaintProfilerView v) as [w|] eqn:Hlazy; simpl.
    + by apply Hrest.
    + unfold eff_bind, this_model. rewrite Hm. simpl. apply later_refl.
Qed.

Lemma later_closeBoth q p v :
  later q p v
    (with_tabbedPane (λ p, closePane tk LayerViewer (closePane tk PaintProfiler p)) v).
Proof.
  apply (later_trans q p v (with_tabbedPane (closePane tk PaintProfiler) v)).
  - by apply later_closePane.
  - by apply (later_closePane q p LayerViewer (with_tabbedPane (closePane tk PaintProfiler) v)).
Qed.

Lemma later_setModel m t v : later false true v (fst (setModel tk m t v)).
Proof.
  rewrite setModel_eq.
  assert (later false true v (rebound tk m t v)) as Hre.
  { unfold rebound. repeat case_match; simpl.
    all: repeat first
           [ apply later_refl
           | eapply later_trans;
             [|first [ apply later_lazyLayers_none; simpl; apply hasTab_closePane
                     | apply later_lazyPaint_none; simpl;
                       eapply hasTab_sublist;
                       [rewrite tabs_closePane; apply sublist_filter|apply hasTab_closePane]
                     | apply later_closeBoth
                     | later_step ]] ]. }
  pose proof (later_setSelection None (rebound tk m t v)) as Hsel.
  apply (later_weaken true true false true) in Hsel; [|done|done].
  destruct (setSelection tk None (rebound tk m t v)) as [v1 [[]|e]]; simpl in *.
  - eapply later_trans; [exact Hre|]. eapply later_trans; [exact Hsel|]. later_chain.
  - eapply later_trans; [exact Hre|exact Hsel].
Qed.

Lemma later_act a v :
  later (if a is DoSetModel _ _ then false else true)
        (if a is DoSelectTab _ then false else if a is DoShowSnapshot _ then false else true)
        v (fst (act tk a v)).
Proof.
  destruct a as [m t|sel| |w|id|snapshot]; simpl.
  - apply later_setModel.
  - apply later_setSelection.
  - apply later_settle.
  - unfold eff_bind, gets; simpl. destruct (model v) as [m|] eqn:Hm; simpl;
      [|apply later_refl].
    eapply later_trans; [apply (later_window _ _ w m v Hm)|]. apply later_onWindowChanged.
  - apply (later_selectTab id true).
  - apply later_showSnapshot.
Qed.

(** *** Series of actions *)
Lemma later_after actions : ∀ v, later false false v (after tk actions v).
Proof.
  induction actions as [|a actions IH]; intros v; simpl; [apply later_refl|].
  eapply later_trans; [|apply IH].
  eapply later_weaken; [| |apply later_act]; done.
Qed.

Lemma later_after_programmatic actions : ∀ v,
  Forall programmatic actions → later false true v (after tk actions v).
Proof.
  induction actions as [|a actions IH]; intros v Hall; simpl; [apply later_refl|].
  apply Forall_cons in Hall as [Ha Hall].
  eapply later_trans; [|by apply IH].
  eapply later_weaken; [| |apply later_act]; [done|].
  by destruct a.
Qed.

(** Extra X14. After any series of actions on a view whose tabs have
    distinct ids, the ids are still distinct, and every Summary or range-view
    tab that was open is still open. *)
Theorem no_tab_opened_twice_and_persistent_tabs_stay (actions : list Action) (v : View) :
  NoDup (tabIds (tabbedPane v)) →
  NoDup (tabIds (tabbedPane (after tk actions v)))
  ∧ ∀ t, t ∈ tabs (tabbedPane v) → persistent t = true →
         t ∈ tabs (tabbedPane (after tk actions v)).
Proof.
  intros Hnd. destruct (later_after actions v) as ((N & _ & P) & _). auto.
Qed.

(** Extra X15. If every open layer-viewer or paint-profiler tab shows the
    cached lazy view, this stays so after any series of actions. *)
Theorem open_lazy_tabs_show_cached_views (actions : list Action) (v : View) :
  coherent v → coherent (after tk actions v).
Proof. intros Hc. destruct (later_after actions v) as ((_ & C & _) & _). auto. Qed.

(** Extra X16. A series of actions none of which is a user gesture on the
    tab strip leaves the preferred tab as it was. *)
Theorem only_user_gestures_change_preferred_tab (actions : list Action) (v : View) :
  Forall programmatic actions →
  preferredTabId (after tk actions v) = preferredTabId v.
Proof.
  intros Hall. destruct (later_after_programmatic actions v Hall) as (_ & _ & P). auto.
Qed.

(** Calls that are no listener calls leave the listeners alone. *)
Lemma activeListeners_app j extra :
  (∀ c, c ∈ extra → ¬ isListenerCall c) →
  activeListeners (j ++ extra) = activeListeners j.
Proof.
  intros Hno. unfold activeListeners. rewrite fold_left_app.
  generalize (fold_left listenerStep j []). induction extra as [|c extra IH]; intros l; [done|].
  simpl. rewrite IH by (intros c' Hc'; apply Hno; by right).
  assert (¬ isListenerCall c) as Hc by (apply Hno; by left).
  by destruct c.
Qed.

Lemma bound_ids v v' : modelId <$> model v' = modelId <$> model v → bound v' = bound v.
Proof. unfold bound. destruct (model v), (model v'); simpl; congruence. Qed.

Lemma listening_quiet v v' :
  quiet v v' → activeListeners (journal v) = bound v →
  activeListeners (journal v') = bound v'.
Proof.
  intros (Hm & extra & Hj & Hno) Hl. by rewrite Hj, activeListeners_app, (bound_ids v v').
Qed.

Lemma activeListeners_snoc j c :
  activeListeners (j ++ [c]) = listenerStep (activeListeners j) c.
Proof. unfold activeListeners. by rewrite fold_left_app. Qed.

(** The first part of [setModel] moves the listener to the new model. *)
Lemma listening_rebound m t v :
  activeListeners (journal v) = bound v →
  activeListeners (journal (rebound tk m t v)) = bound (rebound tk m t v).
Proof.
  intros Hl. unfold rebound. simpl. rewrite !activeListeners_snoc. simpl.
  unfold bound in *. case_bool_decide as Hid; simpl.
  - rewrite Hl. by destruct (model v).
  - destruct (model v) as [c|], m as [n|]; simpl in *;
      rewrite ?activeListeners_snoc, ?Hl; simpl;
      rewrite ?bool_decide_eq_true_2 by done; done.
Qed.

Lemma listening_act a v :
  activeListeners (journal v) = bound v →
  activeListeners (journal (fst (act tk a v))) = bound (fst (act tk a v)).
Proof.
  intros Hl.
  destruct a as [m t|sel| |w|id|snapshot].
  - simpl. rewrite setModel_eq.
    pose proof (listening_rebound m t v Hl) as Hre.
    destruct (later_setSelection None (rebound tk m t v)) as (_ & Q & _).
    specialize (Q eq_refl).
    pose proof (listening_quiet _ _ Q Hre) as Hsel.
    destruct (setSelection tk None (rebound tk m t v)) as [v1 [[]|e]]; simpl in *; done.
  - eapply listening_quiet; [|exact Hl].
    destruct (later_act (DoSetSelection sel) v) as (_ & Q & _). by apply Q.
  - eapply listening_quiet; [|exact Hl].
    destruct (later_act DoSettle v) as (_ & Q & _). by apply Q.
  - eapply listening_quiet; [|exact Hl].
    destruct (later_act (DoWindowChanged w) v) as (_ & Q & _). by apply Q.
  - eapply listening_quiet; [|exact Hl].
    destruct (later_act (DoSelectTab id) v) as (_ & Q & _). by apply Q.
  - eapply listening_quiet; [|exact Hl].
    destruct (later_act (DoShowSnapshot snapshot) v) as (_ & Q & _). by apply Q.
Qed.

(** Extra X13. If the listeners the view has added and not removed are
    those of the bound model, one listener or none, this stays so after any
    series of actions, also when some of them throw. *)
Theorem view_listens_to_bound_model_only (actions : list Action) (v : View) :
  activeListeners (journal v) = bound v →
  activeListeners (journal (after tk actions v)) = bound (after tk actions v).
Proof.
  revert v. induction actions as [|a actions IH]; intros v Hl; simpl; [done|].
  apply IH. by apply listening_act.
Qed.

(** With a model bound, [setSelection] returns normally; what it stores and
    what it queues. *)
Lemma setSelection_bound_fields v m sel :
  model v = Some m →
  ∃ v',
    setSelection tk sel v = (v', Normal tt)
    ∧ model v' = Some m
    ∧ track v' = track v
    ∧ selection v' = sel
    ∧ pending v' = pending v ++ queued m sel
    ∧ paintProfilerModels v' = paintProfilerModels v.
Proof.
  intros Hm. destruct sel as [[event|frame|request|startTime endTime]|].
  - unfold setSelection, eff_bind, extern, modify, this_model; simpl. rewrite Hm.
    rewrite updateContents_eq. simpl. rewrite Hm.
    destruct (rangeDetailViews_get _); eexists; (split; [reflexivity|]); done.
  - destruct (layerTree frame) as [tree|] eqn:Htree.
    + rewrite (setSelection_frame_eq tk v m frame tree Hm Htree), updateContents_eq.
      assert (model (frameShown tk m frame tree v) = Some m) as ->.
      { unfold frameShown. by destruct (lazyLayersView v). }
      destruct (rangeDetailViews_get _); eexists; (split; [reflexivity|]);
        unfold frameShown; destruct (lazyLayersView v); simpl; by rewrite app_nil_r.
    + unfold setSelection, eff_bind at 1 2 3, extern, modify; simpl.
      unfold eff_bind at 1, this_model; simpl. rewrite Hm.
      unfold eff_bind at 1. rewrite setContent_eq, Htree. simpl.
      rewrite updateContents_eq. simpl. rewrite Hm.
      destruct (rangeDetailViews_get _); eexists; (split; [reflexivity|]);
        simpl; by rewrite app_nil_r.
  - unfold setSelection, eff_bind, extern, modify, this_model; simpl. rewrite Hm.
    rewrite updateContents_eq. simpl. rewrite Hm.
    destruct (rangeDetailViews_get _); eexists; (split; [reflexivity|]); done.
  - unfold setSelection, _updateSelectedRangeStats, eff_bind, extern, modify, gets; simpl.
    rewrite Hm. destruct (track v) eqn:Ht; simpl.
    + rewrite setContent_eq. simpl. rewrite updateContents_eq. simpl. rewrite Hm.
      destruct (rangeDetailViews_get _); eexists; (split; [reflexivity|]);
        simpl; by rewrite app_nil_r.
    + rewrite updateContents_eq. simpl. rewrite Hm.
      destruct (rangeDetailViews_get _); eexists; (split; [reflexivity|]);
        simpl; by rewrite app_nil_r.
  - rewrite (setSelection_null_eq tk v m Hm), updateContents_eq.
    destruct (track v) eqn:Ht; simpl; rewrite Hm;
      destruct (rangeDetailViews_get _); eexists; (split; [reflexivity|]);
      simpl; by rewrite ?app_nil_r.
Qed.

(** Extra X6. [_setContent] never throws. It leaves open exactly the tabs
    that were open and are the Summary tab or a range view, in their order,
    makes the node the only content, and changes neither the selection, the
    journal, the pending reactions nor the preferred tab. *)
Theorem setContent_leaves_only_persistent_tabs (node : Node) (v : View) :
  ∃ v',
    _setContent tk node v = (v', Normal tt)
    ∧ defaultDetailsContent v' = [node]
    ∧ tabs (tabbedPane v') = List.filter persistent (tabs (tabbedPane v))
    ∧ (∀ id, hasTab id (tabbedPane v') = true →
             id ∈ [Details; BottomUp; CallTree; EventLog])
    ∧ selection v' = selection v
    ∧ journal v' = journal v
    ∧ pending v' = pending v
    ∧ preferredTabId v' = preferredTabId v.
Proof.
  rewrite setContent_eq. eexists. split; [reflexivity|]. simpl.
  split; [done|]. split; [apply tabs_closeOthers|]. split; [|done].
  intros id Hid. unfold hasTab, tabIds in Hid. apply bool_decide_eq_true_1 in Hid.
  rewrite tabs_closeOthers in Hid. apply list_elem_of_fmap in Hid as (t & -> & Ht).
  apply list_elem_of_In, filter_In in Ht as [_ Hp]. unfold persistent in Hp.
  destruct (tabId t); simpl in Hp; try discriminate Hp; set_solver.
Qed.

(** Extra X7. Without a model, [setSelection(null)] returns normally, shows
    an empty [div], closes the tabs that are not persistent and calls nothing
    but the reset of the linkifier. *)
Theorem setSelection_null_without_model (v : View) :
  model v = None →
  ∃ v',
    setSelection tk None v = (v', Normal tt)
    ∧ selection v' = None
    ∧ defaultDetailsContent v' = [EmptyDiv]
    ∧ tabs (tabbedPane v') = List.filter persistent (tabs (tabbedPane v))
    ∧ journal v' = journal v ++ [LinkifierReset].
Proof.
  intros Hm.
  unfold setSelection, _updateContentsFromWindow, eff_bind, extern, modify, gets; simpl.
  rewrite Hm, setContent_eq. eexists. split; [reflexivity|]. simpl.
  split_and!; try done. apply tabs_closeOthers.
Qed.

(** Extra X8. Without a model, [setSelection] of a selection stores the
    selection and resets the linkifier, and then throws a [TypeError], except
    for a range selection while no range view is the selected tab; tabs,
    content and pending reactions stay as they were. *)
Theorem setSelection_without_model_throws (v : View) (sel : TimelineSelection) :
  model v = None →
  ∃ v' r,
    setSelection tk (Some sel) v = (v', r)
    ∧ (r = Normal tt ↔
         (∃ startTime endTime, sel = RangeSelection startTime endTime)
         ∧ rangeDetailViews_get (selectedTabId (tabbedPane v)) = None)
    ∧ selection v' = Some sel
    ∧ journal v' = journal v ++ [LinkifierReset]
    ∧ tabbedPane v' = tabbedPane v
    ∧ defaultDetailsContent v' = defaultDetailsContent v
    ∧ pending v' = pending v.
Proof.
  intros Hm. destruct sel as [event|frame|request|startTime endTime].
  - unfold setSelection, eff_bind, extern, modify, this_model; simpl. rewrite Hm.
    eexists _, _. split; [reflexivity|]. simpl. split; [|done].
    split; [done|]. by intros [(? & ? & ?) _].
  - unfold setSelection, eff_bind, extern, modify, this_model; simpl. rewrite Hm.
    eexists _, _. split; [reflexivity|]. simpl. split; [|done].
    split; [done|]. by intros [(? & ? & ?) _].
  - unfold setSelection, eff_bind, extern, modify, this_model; simpl. rewrite Hm.
    eexists _, _. split; [reflexivity|]. simpl. split; [|done].
    split; [done|]. by intros [(? & ? & ?) _].
  - unfold setSelection, _updateSelectedRangeStats, eff_bind, extern, modify, gets; simpl.
    rewrite Hm. simpl. rewrite updateContents_eq. simpl. rewrite Hm.
    destruct (rangeDetailViews_get _) eqn:Hview.
    + eexists _, _. split; [reflexivity|]. simpl. split; [|done].
      split; [done|]. by intros [_ ?].
    + eexists _, _. split; [reflexivity|]. simpl. split; [|done].
      split; [|done]. intros _. split; [by eexists _, _|done].
Qed.

(** Extra X9. With a model bound, selecting a frame that has no layer tree
    returns normally and shows the frame's details; only persistent tabs are
    open afterwards, so neither the layer viewer nor the paint profiler, and
    no layers view is constructed or given a tree. *)
Theorem frame_without_layer_tree_opens_nothing
    (v : View) (m : PerformanceModel) (frame : TimelineFrame) :
  model v = Some m → layerTree frame = None →
  ∃ v',
    setSelection tk (Some (FrameSelection frame)) v = (v', Normal tt)
    ∧ defaultDetailsContent v' = [FrameDetails frame (filmStripModelFrame m frame)]
    ∧ tabs (tabbedPane v') = List.filter persistent (tabs (tabbedPane v))
    ∧ hasTab LayerViewer (tabbedPane v') = false
    ∧ hasTab PaintProfiler (tabbedPane v') = false
    ∧ lazyLayersView v' = lazyLayersView v
    ∧ constructed v' = constructed v
    ∧ ∀ w tree, ShowLayerTree w tree ∈ journal v' → ShowLayerTree w tree ∈ journal v.
Proof.
  intros Hm Htree.
  unfold setSelection, eff_bind at 1 2 3, extern, modify; simpl.
  unfold eff_bind at 1, this_model; simpl. rewrite Hm.
  unfold eff_bind at 1. rewrite setContent_eq, Htree. simpl.
  rewrite updateContents_eq. simpl. rewrite Hm.
  destruct (rangeDetailViews_get _); eexists; (split; [reflexivity|]); simpl;
    (split; [done|]); (split; [apply tabs_closeOthers|]);
    (split; [by apply hasTab_closeOthers|]); (split; [by apply hasTab_closeOthers|]);
    (split; [done|]); (split; [done|]); intros w' tree Hin;
    repeat (apply elem_of_app in Hin as [Hin|Hin]; [|by apply list_elem_of_singleton in Hin]);
    done.
Qed.

(** Extra X10. With a model bound, selecting a range returns normally and
    stores the selection. With a track, the content is the statistics of the
    track's events between the two times of the selection, titled with their
    offsets from the minimum record time; without a track, content and tabs
    are not touched. *)
Theorem range_selection_shows_stats_of_the_range
    (v : View) (m : PerformanceModel) (startTime endTime : Q) :
  model v = Some m →
  ∃ v',
    setSelection tk (Some (RangeSelection startTime endTime)) v = (v', Normal tt)
    ∧ selection v' = Some (RangeSelection startTime endTime)
    ∧ match track v with
      | Some t =>
          defaultDetailsContent v' =
            [RangeDetails
               (i18nString UIStrings.rangeSS
                  [("PH1", millisToString tk
                             (Qminus startTime (minimumRecordTime (timelineModel m))));
                   ("PH2", millisToString tk
                             (Qminus endTime (minimumRecordTime (timelineModel m))))])
               (StatsForTimeRange (syncEvents t) startTime endTime)]
          ∧ tabs (tabbedPane v') = List.filter persistent (tabs (tabbedPane v))
      | None =>
          defaultDetailsContent v' = defaultDetailsContent v
          ∧ tabbedPane v' = tabbedPane v
      end.
Proof.
  intros Hm.
  unfold setSelection, _updateSelectedRangeStats, eff_bind, extern, modify, gets; simpl.
  rewrite Hm. destruct (track v) eqn:Ht; simpl.
  - rewrite setContent_eq. simpl. rewrite updateContents_eq. simpl. rewrite Hm.
    destruct (rangeDetailViews_get _); eexists; (split; [reflexivity|]); simpl;
      (split; [done|]); (split; [done|]); apply tabs_closeOthers.
  - rewrite updateContents_eq. simpl. rewrite Hm.
    destruct (rangeDetailViews_get _); eexists; (split; [reflexivity|]); done.
Qed.

(** Extra X11. With a model bound, after a network request or a trace event
    was selected and another selection was made, the reaction of the first is
    still pending; when it runs, it returns normally, replaces the content by
    the details of the first selection and leaves the newer selection
    stored. *)
Theorem late_details_overwrite_newer_selection
    (v : View) (m : PerformanceModel) (request : NetworkRequest) (event : Event)
    (sel : option TimelineSelection) :
  model v = Some m →
  (∃ v1 v2 v3,
     setSelection tk (Some (NetworkRequestSelection request)) v = (v1, Normal tt)
     ∧ setSelection tk sel v1 = (v2, Normal tt)
     ∧ ThenSetContent (NetworkRequestDetails request (timelineModel m)) ∈ pending v2
     ∧ react tk (ThenSetContent (NetworkRequestDetails request (timelineModel m))) v2
         = (v3, Normal tt)
     ∧ selection v3 = sel
     ∧ defaultDetailsContent v3 = [NetworkRequestDetails request (timelineModel m)])
  ∧ (∃ v1 v2 v3,
       setSelection tk (Some (TraceEventSelection event)) v = (v1, Normal tt)
       ∧ setSelection tk sel v1 = (v2, Normal tt)
       ∧ ThenAppendDetailsTabs event (TraceEventDetails event (timelineModel m)) ∈ pending v2
       ∧ react tk (ThenAppendDetailsTabs event (TraceEventDetails event (timelineModel m))) v2
           = (v3, Normal tt)
       ∧ selection v3 = sel
       ∧ defaultDetailsContent v3 = [TraceEventDetails event (timelineModel m)]).
Proof.
  intros Hm. split.
  - destruct (setSelection_bound_fields v m (Some (NetworkRequestSelection request)) Hm)
      as (v1 & Hrun1 & Hm1 & _ & _ & Hp1 & _).
    destruct (setSelection_bound_fields v1 m sel Hm1) as (v2 & Hrun2 & Hm2 & _ & Hs2 & Hp2 & _).
    exists v1, v2. eexists. split; [exact Hrun1|]. split; [exact Hrun2|].
    split; [rewrite Hp2, Hp1; simpl; set_solver|].
    simpl. rewrite setContent_eq. split; [reflexivity|]. done.
  - destruct (setSelection_bound_fields v m (Some (TraceEventSelection event)) Hm)
      as (v1 & Hrun1 & Hm1 & _ & _ & Hp1 & _).
    destruct (setSelection_bound_fields v1 m sel Hm1) as (v2 & Hrun2 & Hm2 & _ & Hs2 & Hp2 & _).
    assert (∃ v3,
              _appendDetailsTabsForTraceEventAndShowDetails tk event
                  (TraceEventDetails event (timelineModel m)) v2 = (v3, Normal tt)
              ∧ selection v3 = selection v2
              ∧ defaultDetailsContent v3 = [TraceEventDetails event (timelineModel m)])
      as (v3 & Hrun3 & Hs3 & Hc3).
    { unfold _appendDetailsTabsForTraceEventAndShowDetails.
      unfold eff_bind at 1. rewrite setContent_eq.
      destruct (_ || _); [|eexists; split; [reflexivity|done]].
      unfold _showEventInPaintProfiler. unfold eff_bind at 1, gets at 1. simpl.
      destruct (head (paintProfilerModels v2)) as [ppm|];
        [|eexists; split; [reflexivity|done]].
      unfold eff_bind at 1.
      erewrite paintProfilerView_eq by (simpl; exact Hm2). simpl.
      destruct (lazyPaintProfilerView v2) as [w|]; simpl;
        unfold eff_bind, extern, modify, gets; simpl;
        destruct (setEvent tk _ ppm event); simpl;
        rewrite ?hasTab_closeOthers by done; rewrite ?appendTab_eq;
        eexists; (split; [reflexivity|done]). }
    exists v1, v2, v3. split; [exact Hrun1|]. split; [exact Hrun2|].
    split; [rewrite Hp2, Hp1; simpl; set_solver|].
    simpl. split; [exact Hrun3|]. split; [congruence|done].
Qed.

(** Extra X12. [setModel(null, track)] returns normally in every view: no
    model is bound, the track is stored, the selection is cleared, the
    content is an empty [div], the footer is empty, both lazy views are
    forgotten and only persistent tabs are open. *)
Theorem setModel_null_clears_the_view (v : View) (t : option Track) :
  ∃ v',
    setModel tk None t v = (v', Normal tt)
    ∧ model v' = None
    ∧ track v' = t
    ∧ selection v' = None
    ∧ defaultDetailsContent v' = [EmptyDiv]
    ∧ additionalMetricsToolbar v' = []
    ∧ lazyLayersView v' = None
    ∧ lazyPaintProfilerView v' = None
    ∧ (∀ id, hasTab id (tabbedPane v') = true →
             id ∈ [Details; BottomUp; CallTree; EventLog]).
Proof.
  rewrite setModel_eq.
  assert (model (rebound tk None t v) = None
          ∧ track (rebound tk None t v) = t
          ∧ lazyLayersView (rebound tk None t v) = None
          ∧ lazyPaintProfilerView (rebound tk None t v) = None) as (Hm & Ht & Hl & Hp).
  { unfold rebound. simpl. split; [|done]. case_bool_decide as Hid; simpl; [|done].
    by destruct (model v). }
  generalize dependent (rebound tk None t v). intros u Hm Ht Hl Hp.
  unfold setSelection, _updateContentsFromWindow, eff_bind, extern, modify, gets; simpl.
  rewrite Hm, setContent_eq. eexists. split; [reflexivity|]. simpl.
  split; [exact Hm|]. split; [done|]. split; [done|]. split; [done|]. split; [done|].
  split; [done|]. split; [done|].
  intros id Hid. unfold hasTab, tabIds in Hid. apply bool_decide_eq_true_1 in Hid.
  rewrite tabs_closeOthers in Hid. apply list_elem_of_fmap in Hid as (t0 & -> & Hin).
  apply list_elem_of_In, filter_In in Hin as [_ Hper]. unfold persistent in Hper.
  destruct (tabId t0); simpl in Hper; try discriminate Hper; set_solver.
Qed.

(** Extra X17. [_tabSelected] for a selection that is no user gesture leaves
    the view as it is. For a user gesture it stores the tab as the preferred
    one; with a model bound it then returns normally, having updated the
    selected range view, if one is selected, with the selection or the
    window; without a model it throws exactly when a range view is
    selected, the preferred tab being stored already. *)
Theorem tabSelected_acts_on_user_gestures_only (id : Tab) (v : View) :
  _tabSelected id false v = (v, Normal tt)
  ∧ (∀ m, model v = Some m →
       ∃ v',
         _tabSelected id true v = (v', Normal tt)
         ∧ preferredTabId v' = id
         ∧ tabbedPane v' = tabbedPane v
         ∧ selection v' = selection v
         ∧ defaultDetailsContent v' = defaultDetailsContent v
         ∧ journal v' = journal v ++
             match rangeDetailViews_get (selectedTabId (tabbedPane v)) with
             | Some view =>
                 [TreeViewUpdateContents view
                    (default (RangeSelection (left (window m)) (right (window m)))
                       (selection v))]
             | None => []
             end)
  ∧ (model v = None →
       ∃ v' r,
         _tabSelected id true v = (v', r)
         ∧ preferredTabId v' = id
         ∧ journal v' = journal v
         ∧ (r = Normal tt ↔ rangeDetailViews_get (selectedTabId (tabbedPane v)) = None)).
Proof.
  split; [reflexivity|]. split.
  - intros m Hm. unfold _tabSelected, eff_bind, setPreferredTab, modify; simpl.
    rewrite updateContents_eq. simpl. rewrite Hm.
    destruct (rangeDetailViews_get _); eexists; (split; [reflexivity|]); simpl;
      by rewrite ?app_nil_r.
  - intros Hm. unfold _tabSelected, eff_bind, setPreferredTab, modify; simpl.
    rewrite updateContents_eq. simpl. rewrite Hm.
    destruct (rangeDetailViews_get _); eexists _, _; (split; [reflexivity|]); simpl;
      split_and!; done.
Qed.

(** The tab [_showSnapshotInPaintProfiler] appends for the view [w]. *)
Lemma showSnapshot_bound snapshot v m :
  model v = Some m →
  let w := default (PaintProfilerView (constructed v) (frameModel m))
                   (lazyPaintProfilerView v) in
  ∃ v',
    _showSnapshotInPaintProfiler snapshot v = (v', Normal tt)
    ∧ lazyPaintProfilerView v' = Some w
    ∧ PaintProfilerSetSnapshot w snapshot ∈ journal v'
    ∧ selectedTabId (tabbedPane v') = Some PaintProfiler
    ∧ tabs (tabbedPane v') =
        (if hasTab PaintProfiler (tabbedPane v) then tabs (tabbedPane v)
         else tabs (tabbedPane v) ++
                [{| tabId := PaintProfiler; tabTitle := UIStrings.paintProfiler;
                    view := w; closeable := Some true |}]).
Proof.
  intros Hm w. subst w.
  unfold _showSnapshotInPaintProfiler. unfold eff_bind at 1.
  rewrite (paintProfilerView_eq v m Hm).
  assert (∀ w u,
            lazyPaintProfilerView u = Some w →
            ∃ v',
              (extern (PaintProfilerSetSnapshot w snapshot) ;;
               do has <- gets (λ v, hasTab PaintProfiler (tabbedPane v));
               (if negb has
                then _appendTab PaintProfiler UIStrings.paintProfiler w (Some true)
                else eff_ret tt) ;;
               tabbedPane_selectTab PaintProfiler true) u = (v', Normal tt)
              ∧ lazyPaintProfilerView v' = Some w
              ∧ PaintProfilerSetSnapshot w snapshot ∈ journal v'
              ∧ selectedTabId (tabbedPane v') = Some PaintProfiler
              ∧ tabs (tabbedPane v') =
                  (if hasTab PaintProfiler (tabbedPane u) then tabs (tabbedPane u)
                   else tabs (tabbedPane u) ++
                          [{| tabId := PaintProfiler; tabTitle := UIStrings.paintProfiler;
                              view := w; closeable := Some true |}])) as Hrest.
  { intros w u Hu. unfold eff_bind at 1, extern, modify. simpl.
    unfold eff_bind at 1, gets. simpl.
    destruct (hasTab PaintProfiler (tabbedPane u)) eqn:Hhas; simpl.
    - unfold eff_bind at 1, eff_ret. simpl.
      unfold tabbedPane_selectTab, eff_bind at 1, gets. simpl. rewrite Hhas. simpl.
      case_bool_decide as Hsel; simpl.
      + eexists. split; [reflexivity|]. simpl. split_and!; try done. set_solver.
      + unfold eff_bind at 1, modify. simpl.
        unfold _tabSelected, eff_bind, setPreferredTab, modify. simpl.
        rewrite updateContents_eq. simpl.
        eexists. split; [reflexivity|]. simpl. split_and!; try done. set_solver.
    - unfold eff_bind at 1. rewrite appendTab_eq.
      unfold tabbedPane_selectTab, eff_bind at 1, gets. simpl.
      rewrite hasTab_appendPane. simpl.
      case_bool_decide as Hsel; simpl.
      + eexists. split; [reflexivity|]. simpl. rewrite tabs_appendPane.
        split_and!; try done. set_solver.
      + unfold eff_bind at 1, modify. simpl.
        unfold _tabSelected, eff_bind, setPreferredTab, modify. simpl.
        rewrite updateContents_eq. simpl.
        eexists. split; [reflexivity|]. simpl. rewrite tabs_appendPane.
        split_and!; try done. set_solver. }
  destruct (lazyPaintProfilerView v) as [w|] eqn:Hlazy; simpl.
  - by apply Hrest.
  - destruct (Hrest (PaintProfilerView (constructed v) (frameModel m))
                (with_lazyPaintProfilerView
                   (Some (PaintProfilerView (constructed v) (frameModel m))) true v)
                eq_refl) as (v' & Hrun & H1 & H2 & H3 & H4).
    exists v'. split; [exact Hrun|]. done.
Qed.

(** Extra X18. With a model bound, [_showSnapshotInPaintProfiler] returns
    normally: the cached paint profiler view, constructed if there was none,
    is given the snapshot, the PaintProfiler tab is selected, and it is
    appended, closeable, only if it was not open. Without a model and
    without a cached view the call throws a [TypeError] and changes
    nothing. *)
Theorem showSnapshot_opens_and_selects_profiler (snapshot : PaintProfilerSnapshot) (v : View) :
  (∀ m, model v = Some m →
     ∃ v' w,
       _showSnapshotInPaintProfiler snapshot v = (v', Normal tt)
       ∧ w = default (PaintProfilerView (constructed v) (frameModel m))
                     (lazyPaintProfilerView v)
       ∧ lazyPaintProfilerView v' = Some w
       ∧ PaintProfilerSetSnapshot w snapshot ∈ journal v'
       ∧ selectedTabId (tabbedPane v') = Some PaintProfiler
       ∧ tabs (tabbedPane v') =
           (if hasTab PaintProfiler (tabbedPane v) then tabs (tabbedPane v)
            else tabs (tabbedPane v) ++
                   [{| tabId := PaintProfiler; tabTitle := UIStrings.paintProfiler;
                       view := w; closeable := Some true |}]))
  ∧ (model v = None → lazyPaintProfilerView v = None →
       _showSnapshotInPaintProfiler snapshot v
       = (v, Throw (TypeError "Cannot read property of null"))).
Proof.
  split.
  - intros m Hm. destruct (showSnapshot_bound snapshot v m Hm) as (v' & Hrun & Hrest).
    exists v'. eexists. split; [exact Hrun|]. split; [reflexivity|]. exact Hrest.
  - intros Hm Hlazy.
    unfold _showSnapshotInPaintProfiler, _paintProfilerView, eff_bind, gets, this_model.
    simpl. by rewrite Hlazy, Hm.
Qed.

(** Extra X19. The reaction to a trace event's details. For an event that is
    neither Paint nor RasterTask it is [_setContent] alone. For a Paint or
    RasterTask event with a paint profiler model, a bound model and no
    profile data, it returns normally with no PaintProfiler tab open, though
    the paint profiler view is cached and was given the event. With a paint
    profiler model but neither a bound model nor a cached view, it throws a
    [TypeError] after the content was replaced. *)
Theorem profiler_tab_needs_paint_event_with_profile_data
    (event : Event) (content : Node) (u : View) :
  (name event ≠ RecordType_Paint tk → name event ≠ RecordType_RasterTask tk →
     _appendDetailsTabsForTraceEventAndShowDetails tk event content u
     = _setContent tk content u)
  ∧ (∀ paintProfilerModel mu,
       name event = RecordType_Paint tk ∨ name event = RecordType_RasterTask tk →
       head (paintProfilerModels u) = Some paintProfilerModel →
       model u = Some mu →
       setEvent tk
         (default (PaintProfilerView (constructed u) (frameModel mu))
            (lazyPaintProfilerView u))
         paintProfilerModel event = false →
       ∃ u',
         _appendDetailsTabsForTraceEventAndShowDetails tk event content u = (u', Normal tt)
         ∧ defaultDetailsContent u' = [content]
         ∧ hasTab PaintProfiler (tabbedPane u') = false
         ∧ lazyPaintProfilerView u'
           = Some (default (PaintProfilerView (constructed u) (frameModel mu))
                     (lazyPaintProfilerView u))
         ∧ journal u' = journal u ++
             [PaintProfilerSetEvent
                (default (PaintProfilerView (constructed u) (frameModel mu))
                   (lazyPaintProfilerView u))
                paintProfilerModel event])
  ∧ (∀ paintProfilerModel,
       name event = RecordType_Paint tk ∨ name event = RecordType_RasterTask tk →
       head (paintProfilerModels u) = Some paintProfilerModel →
       model u = None → lazyPaintProfilerView u = None →
       ∃ u',
         _appendDetailsTabsForTraceEventAndShowDetails tk event content u
         = (u', Throw (TypeError "Cannot read property of null"))
         ∧ defaultDetailsContent u' = [content]
         ∧ hasTab PaintProfiler (tabbedPane u') = false
         ∧ journal u' = journal u).
Proof.
  split_and!.
  - intros Hp Hr. unfold _appendDetailsTabsForTraceEventAndShowDetails.
    apply String.eqb_neq in Hp, Hr. rewrite Hp, Hr. simpl.
    unfold eff_bind. by destruct (_setContent tk content u) as [? [[]|?]].
  - intros ppm mu Hkind Hhead Hmu Hdata.
    unfold _appendDetailsTabsForTraceEventAndShowDetails.
    unfold eff_bind at 1. rewrite setContent_eq, (isPaint_true tk event Hkind).
    unfold _showEventInPaintProfiler. unfold eff_bind at 1, gets at 1. simpl.
    rewrite Hhead. unfold eff_bind at 1.
    erewrite paintProfilerView_eq by (simpl; exact Hmu). simpl.
    destruct (lazyPaintProfilerView u) as [w|] eqn:Hlazy; simpl in *;
      unfold eff_bind, extern, modify, gets; simpl; rewrite Hdata; simpl;
      eexists; (split; [reflexivity|]); simpl; rewrite ?Hlazy;
      split_and!; try done; by apply hasTab_closeOthers.
  - intros ppm Hkind Hhead Hmu Hlazy.
    unfold _appendDetailsTabsForTraceEventAndShowDetails.
    unfold eff_bind at 1. rewrite setContent_eq, (isPaint_true tk event Hkind).
    unfold _showEventInPaintProfiler. unfold eff_bind at 1, gets at 1. simpl.
    rewrite Hhead.
    unfold _paintProfilerView, eff_bind, gets, this_model. simpl. rewrite Hlazy. simpl.
    rewrite Hmu. eexists. split; [reflexivity|]. simpl. split_and!; try done.
    by apply hasTab_closeOthers.
Qed.

(** Extra X20. When the bound model reports a new window while something is
    selected, the view returns normally and changes neither content, tabs nor
    journal. With nothing selected and a track, the content becomes the
    statistics of the new window, and a selected range view is updated with
    the range of that window. *)
Theorem window_change_updates_view_only_without_selection
    (v : View) (m : PerformanceModel) (w : Window) :
  model v = Some m →
  (∀ sel, selection v = Some sel →
     ∃ v',
       act tk (DoWindowChanged w) v = (v', Normal tt)
       ∧ model v' = Some (setWindow w m)
       ∧ selection v' = Some sel
       ∧ defaultDetailsContent v' = defaultDetailsContent v
       ∧ tabbedPane v' = tabbedPane v
       ∧ journal v' = journal v)
  ∧ (∀ t, selection v = None → track v = Some t →
       ∃ v',
         act tk (DoWindowChanged w) v = (v', Normal tt)
         ∧ selection v' = None
         ∧ defaultDetailsContent v' =
             [RangeDetails
                (i18nString UIStrings.rangeSS
                   [("PH1", millisToString tk
                              (Qminus (left w) (minimumRecordTime (timelineModel m))));
                    ("PH2", millisToString tk
                              (Qminus (right w) (minimumRecordTime (timelineModel m))))])
                (StatsForTimeRange (syncEvents t) (left w) (right w))]
         ∧ journal v' = journal v ++
             match rangeDetailViews_get (selectedTabId (tabbedPane v')) with
             | Some view => [TreeViewUpdateContents view (RangeSelection (left w) (right w))]
             | None => []
             end).
Proof.
  intros Hm. split.
  - intros sel Hsel. simpl.
    unfold eff_bind at 1, gets at 1. rewrite Hm.
    unfold eff_bind at 1, modify at 1.
    unfold _onWindowChanged, eff_bind at 1, gets at 1. simpl. rewrite Hsel.
    eexists. split; [reflexivity|]. done.
  - intros t Hsel Ht. simpl.
    unfold eff_bind at 1, gets at 1. rewrite Hm.
    unfold eff_bind at 1, modify at 1.
    unfold _onWindowChanged, eff_bind at 1, gets at 1. simpl. rewrite Hsel.
    unfold _updateContentsFromWindow, eff_bind at 1, gets at 1. simpl.
    unfold _updateSelectedRangeStats, eff_bind, gets. simpl. rewrite Ht.
    rewrite setContent_eq. rewrite updateContents_eq. simpl. rewrite Hsel.
    destruct (rangeDetailViews_get _) eqn:Hview; eexists; (split; [reflexivity|]); simpl;
      rewrite ?Hview, ?app_nil_r; done.
Qed.
End More.


(** Extra X7 at [unboundView]. *)
Lemma setSelection_null_without_model_witness :
  ∃ v',
    setSelection sampleToolkit None unboundView = (v', Normal tt)
    ∧ selection v' = None
    ∧ defaultDetailsContent v' = [EmptyDiv]
    ∧ tabs (tabbedPane v') = List.filter persistent (tabs (tabbedPane unboundView))
    ∧ journal v' = journal unboundView ++ [LinkifierReset].
Proof. apply (setSelection_null_without_model sampleToolkit unboundView). reflexivity. Defined.

(** Extra X8 at a range selection on [unboundView]. *)
Lemma setSelection_without_model_throws_witness :
  ∃ v' r,
    setSelection sampleToolkit (Some (RangeSelection 1 2)) unboundView = (v', r)
    ∧ (r = Normal tt ↔
         (∃ startTime endTime, RangeSelection 1 2 = RangeSelection startTime endTime)
         ∧ rangeDetailViews_get (selectedTabId (tabbedPane unboundView)) = None)
    ∧ selection v' = Some (RangeSelection 1 2)
    ∧ journal v' = journal unboundView ++ [LinkifierReset]
    ∧ tabbedPane v' = tabbedPane unboundView
    ∧ defaultDetailsContent v' = defaultDetailsContent unboundView
    ∧ pending v' = pending unboundView.
Proof.
  apply (setSelection_without_model_throws sampleToolkit unboundView (RangeSelection 1 2)).
  reflexivity.
Defined.

(** Extra X9 at [flatFrame]. *)
Lemma frame_without_layer_tree_opens_nothing_witness :
  ∃ v',
    setSelection sampleToolkit (Some (FrameSelection flatFrame)) (sampleView Details)
      = (v', Normal tt)
    ∧ defaultDetailsContent v' = [FrameDetails flatFrame None]
    ∧ tabs (tabbedPane v') = List.filter persistent (tabs (tabbedPane (sampleView Details)))
    ∧ hasTab LayerViewer (tabbedPane v') = false
    ∧ hasTab PaintProfiler (tabbedPane v') = false
    ∧ lazyLayersView v' = lazyLayersView (sampleView Details)
    ∧ constructed v' = constructed (sampleView Details)
    ∧ ∀ w tree, ShowLayerTree w tree ∈ journal v' →
                ShowLayerTree w tree ∈ journal (sampleView Details).
Proof.
  apply (frame_without_layer_tree_opens_nothing sampleToolkit (sampleView Details)
           (sampleModel false 120) flatFrame).
  - reflexivity.
  - reflexivity.
Defined.

(** Extra X10 at the range from 12 to 15. *)
Lemma range_selection_shows_stats_of_the_range_witness :
  ∃ v',
    setSelection sampleToolkit (Some (RangeSelection 12 15)) (sampleView Details)
      = (v', Normal tt)
    ∧ selection v' = Some (RangeSelection 12 15)
    ∧ defaultDetailsContent v' =
        [RangeDetails "Range:  8 ms – 11 ms" (StatsForTimeRange (syncEvents sampleTrack) 12 15)]
    ∧ tabs (tabbedPane v') = List.filter persistent (tabs (tabbedPane (sampleView Details))).
Proof.
  destruct (range_selection_shows_stats_of_the_range sampleToolkit (sampleView Details)
              (sampleModel false 120) 12 15) as (v' & Hrun & Hsel & Hc & Ht).
  - reflexivity.
  - exists v'. split; [exact Hrun|]. split; [exact Hsel|]. split; [exact Hc|exact Ht].
Defined.

(** Extra X11: a request, then a range, then the request's details arrive. *)
Lemma late_details_overwrite_newer_selection_witness :
  ∃ v1 v2 v3,
    setSelection sampleToolkit (Some (NetworkRequestSelection sampleRequest))
        (sampleView Details) = (v1, Normal tt)
    ∧ setSelection sampleToolkit (Some (RangeSelection 12 15)) v1 = (v2, Normal tt)
    ∧ ThenSetContent
        (NetworkRequestDetails sampleRequest (timelineModel (sampleModel false 120)))
      ∈ pending v2
    ∧ react sampleToolkit
        (ThenSetContent
           (NetworkRequestDetails sampleRequest (timelineModel (sampleModel false 120)))) v2
      = (v3, Normal tt)
    ∧ selection v3 = Some (RangeSelection 12 15)
    ∧ defaultDetailsContent v3 =
        [NetworkRequestDetails sampleRequest (timelineModel (sampleModel false 120))].
Proof.
  apply (late_details_overwrite_newer_selection sampleToolkit (sampleView Details)
           (sampleModel false 120) sampleRequest paintEvent (Some (RangeSelection 12 15))).
  reflexivity.
Defined.

(** Extra X13 at [sampleActions]. *)
Lemma view_listens_to_bound_model_only_witness :
  activeListeners (journal (after sampleToolkit sampleActions unboundView))
  = bound (after sampleToolkit sampleActions unboundView).
Proof.
  apply (view_listens_to_bound_model_only sampleToolkit sampleActions unboundView).
  reflexivity.
Defined.

(** Extra X14 at [sampleActions]. *)
Lemma no_tab_opened_twice_and_persistent_tabs_stay_witness :
  NoDup (tabIds (tabbedPane (after sampleToolkit sampleActions unboundView)))
  ∧ ∀ t, t ∈ tabs (tabbedPane unboundView) → persistent t = true →
         t ∈ tabs (tabbedPane (after sampleToolkit sampleActions unboundView)).
Proof.
  apply (no_tab_opened_twice_and_persistent_tabs_stay sampleToolkit sampleActions unboundView).
  apply (bool_decide_unpack _). vm_compute. exact I.
Defined.

(** Extra X15 at [sampleActions]. *)
Lemma open_lazy_tabs_show_cached_views_witness :
  coherent (after sampleToolkit sampleActions unboundView).
Proof.
  apply (open_lazy_tabs_show_cached_views sampleToolkit sampleActions unboundView).
  intros t Ht. simpl in Ht. unfold persistentTabs in Ht.
  repeat (apply elem_of_cons in Ht as [->|Ht]; [split; intros H; discriminate H|]).
  by apply elem_of_nil in Ht.
Defined.

(** Extra X16 at [programmaticActions]. *)
Lemma only_user_gestures_change_preferred_tab_witness :
  preferredTabId (after sampleToolkit programmaticActions unboundView)
  = preferredTabId unboundView.
Proof.
  apply (only_user_gestures_change_preferred_tab sampleToolkit programmaticActions
           unboundView).
  unfold programmaticActions. repeat constructor.
Defined.

(** Extra X17 with the Call Tree tab selected. *)
Lemma tabSelected_acts_on_user_gestures_only_witness :
  ∃ v',
    _tabSelected CallTree true (sampleView CallTree) = (v', Normal tt)
    ∧ preferredTabId v' = CallTree
    ∧ journal v' = [TreeViewUpdateContents (TreeView CallTree) (RangeSelection 10 20)].
Proof.
  destruct (tabSelected_acts_on_user_gestures_only CallTree (sampleView CallTree))
    as (_ & Hbound & _).
  destruct (Hbound (sampleModel false 120) eq_refl) as (v' & Hrun & Hpref & _ & _ & _ & Hj).
  exists v'. split; [exact Hrun|]. split; [exact Hpref|exact Hj].
Defined.

(** Extra X18 with and without a model. *)
Lemma showSnapshot_opens_and_selects_profiler_witness :
  (∃ v',
     _showSnapshotInPaintProfiler {| snapshotId := 1 |} (sampleView Details)
       = (v', Normal tt)
     ∧ selectedTabId (tabbedPane v') = Some PaintProfiler)
  ∧ _showSnapshotInPaintProfiler {| snapshotId := 1 |} unboundView
    = (unboundView, Throw (TypeError "Cannot read property of null")).
Proof.
  destruct (showSnapshot_opens_and_selects_profiler {| snapshotId := 1 |} (sampleView Details))
    as (Hbound & _).
  destruct (showSnapshot_opens_and_selects_profiler {| snapshotId := 1 |} unboundView)
    as (_ & Hthrow).
  split.
  - destruct (Hbound (sampleModel false 120) eq_refl) as (v' & w & Hrun & _ & _ & _ & Hsel & _).
    exists v'. split; [exact Hrun|exact Hsel].
  - apply Hthrow; reflexivity.
Defined.

(** Extra X19 for a Paint event without profile data and without a model. *)
Lemma profiler_tab_needs_paint_event_with_profile_data_witness :
  (∃ u',
     _appendDetailsTabsForTraceEventAndShowDetails noDataToolkit paintEvent EmptyDiv
       (with_model (Some otherModel) unboundView) = (u', Normal tt)
     ∧ hasTab PaintProfiler (tabbedPane u') = false
     ∧ lazyPaintProfilerView u' = Some (PaintProfilerView 0 {| frameModelId := 2 |}))
  ∧ ∃ u',
      _appendDetailsTabsForTraceEventAndShowDetails sampleToolkit paintEvent EmptyDiv
        unboundView = (u', Throw (TypeError "Cannot read property of null"))
      ∧ defaultDetailsContent u' = [EmptyDiv].
Proof.
  destruct (profiler_tab_needs_paint_event_with_profile_data noDataToolkit paintEvent EmptyDiv
              (with_model (Some otherModel) unboundView)) as (_ & Hnodata & _).
  destruct (profiler_tab_needs_paint_event_with_profile_data sampleToolkit paintEvent EmptyDiv
              unboundView) as (_ & _ & Hthrow).
  split.
  - destruct (Hnodata {| paintProfilerModelId := 1 |} otherModel)
      as (u' & Hrun & _ & Hno & Hlazy & _);
      [left; reflexivity|reflexivity|reflexivity|reflexivity|].
    exists u'. split; [exact Hrun|]. split; [exact Hno|exact Hlazy].
  - destruct (Hthrow {| paintProfilerModelId := 1 |}) as (u' & Hrun & Hc & _);
      [left; reflexivity|reflexivity|reflexivity|reflexivity|].
    exists u'. split; [exact Hrun|exact Hc].
Defined.

(** Extra X20 with and without a selection. *)
Lemma window_change_updates_view_only_without_selection_witness :
  (∃ v',
     act sampleToolkit (DoWindowChanged sampleWindow) selectedBefore = (v', Normal tt)
     ∧ defaultDetailsContent v' = defaultDetailsContent selectedBefore
     ∧ journal v' = journal selectedBefore)
  ∧ ∃ v',
      act sampleToolkit (DoWindowChanged sampleWindow) (sampleView BottomUp)
        = (v', Normal tt)
      ∧ defaultDetailsContent v' =
          [RangeDetails "Range:  26 ms – 36 ms"
             (StatsForTimeRange (syncEvents sampleTrack) 30 40)].
Proof.
  destruct (window_change_updates_view_only_without_selection sampleToolkit selectedBefore
              (sampleModel false 120) sampleWindow eq_refl) as (Hsel & _).
  destruct (window_change_updates_view_only_without_selection sampleToolkit
              (sampleView BottomUp) (sampleModel false 120) sampleWindow eq_refl)
    as (_ & Hnone).
  split.
  - destruct (Hsel (RangeSelection 12 15) eq_refl) as (v' & Hrun & _ & _ & Hc & _ & Hj).
    exists v'. split; [exact Hrun|]. split; [exact Hc|exact Hj].
  - destruct (Hnone sampleTrack eq_refl eq_refl) as (v' & Hrun & _ & Hc & _).
    exists v'. split; [exact Hrun|exact Hc].
Defined.

End TimelineDetailsViewMore.
